(** * The Ansel photography plugin: session state machine, console-variable
      capture/restore, post-process overrides and camera constraints.

    The development embeds the plugin's provider class
    [FNVAnselCameraPhotographyPrivate], its module class [FAnselModule] and
    the Blueprint library [UAnselFunctionLibrary].  The host engine and the
    capture SDK are foreign: what the plugin reads from them is an explicit
    input or a field of [Engine], what it calls on them is recorded, in
    order, in the engine's list of [Effect]s.

    Numbers.  Console-variable values, time dilation and post-process
    parameters are C++ [float]s in the source; they are modelled by exact
    rationals ([Q]).  Camera locations ([FVector]) are modelled over the
    reals, because the distance clamp takes a square root.  Rounding,
    infinities and NaN are therefore outside this model. *)

From Stdlib Require Import ZArith QArith Reals Lra Lia List Bool Ascii String.
From stdpp Require Import gmap strings list fin_maps functions.

Set Default Proof Using "Type".

(* ===================================================================== *)
(** * Console manager *)
(* ===================================================================== *)

(** Console-variable names are case-insensitive, both in the console manager
    and as [FString] keys of a [TMap]; every map below is keyed by the
    lower-cased name. *)
Definition lower_ascii (c : ascii) : ascii :=
  let n := nat_of_ascii c in
  if (65 <=? n)%nat && (n <=? 90)%nat then ascii_of_nat (n + 32) else c.

Fixpoint lower (s : string) : string :=
  match s with
  | EmptyString => EmptyString
  | String c s' => String (lower_ascii c) (lower s')
  end.

(** Set-by priorities of the engine ([ECVF_SetBy...]); only their order
    matters.  Code sets with [ECVF_SetByCode], the console outranks it. *)
Definition ECVF_SetByConstructor : Z := 0.
Definition ECVF_SetByCode : Z := 9.
Definition ECVF_SetByConsole : Z := 10.

Record ConsoleVariable := {
  cv_value : Q;      (* what GetFloat() returns *)
  cv_setby : Z       (* priority of the last successful set *)
}.

Definition GetFloat (c : ConsoleVariable) : Q := cv_value c.

(** [GetInt] truncates toward zero. *)
Definition GetInt (c : ConsoleVariable) : Z :=
  Z.quot (Qnum (cv_value c)) (Z.pos (Qden (cv_value c))).

(** [IConsoleVariable::Set(value)] with the default [ECVF_SetByCode]: refused
    when the variable was last set with a higher priority. *)
Definition cvSet (v : Q) (c : ConsoleVariable) : ConsoleVariable :=
  if (cv_setby c <=? ECVF_SetByCode)%Z
  then {| cv_value := v; cv_setby := ECVF_SetByCode |}
  else c.

(** [IConsoleVariable::SetWithCurrentPriority(value)]: always takes effect and
    keeps the priority. *)
Definition cvSetWithCurrentPriority (v : Q) (c : ConsoleVariable) : ConsoleVariable :=
  {| cv_value := v; cv_setby := cv_setby c |}.

(** The console manager: registered variables by canonical name. *)
Abbreviation ConsoleManager := (gmap string ConsoleVariable).

(** An [IConsoleVariable*]: [None] is the null pointer, [Some k] points to the
    variable registered under the canonical name [k]. *)
Definition CVarPtr : Type := option string.

Definition FindConsoleVariable (Name : string) (con : ConsoleManager) : CVarPtr :=
  match con !! lower Name with
  | Some _ => Some (lower Name)
  | None => None
  end.

(** Reading through a non-null pointer. *)
Definition deref (k : string) (con : ConsoleManager) : option ConsoleVariable := con !! k.

(** Writing through a non-null pointer. *)
Definition store_cvar (f : ConsoleVariable -> ConsoleVariable) (k : string)
    (con : ConsoleManager) : ConsoleManager :=
  alter f k con.

(** The plugin's own variables are [static TAutoConsoleVariable]s: the static
    initialiser registers each with its default, so the handle is never null.
    Reading one looks it up by name and falls back on the registered default. *)
Definition auto_GetInt (Name : string) (Default : Z) (con : ConsoleManager) : Z :=
  match con !! lower Name with
  | Some c => GetInt c
  | None => Default
  end.

Definition auto_GetFloat (Name : string) (Default : Q) (con : ConsoleManager) : Q :=
  match con !! lower Name with
  | Some c => GetFloat c
  | None => Default
  end.

Definition CVarPhotographyAllow := auto_GetInt "r.Photography.Allow" 1.
Definition CVarPhotographyEnableMultipart := auto_GetInt "r.Photography.EnableMultipart" 1.
Definition CVarPhotographySettleFrames := auto_GetInt "r.Photography.SettleFrames" 10.
Definition CVarPhotographyTranslationSpeed := auto_GetFloat "r.Photography.TranslationSpeed" 300.
Definition CVarConstrainCameraSize := auto_GetFloat "r.Photography.Constrain.CameraSize" 14.
Definition CVarConstrainCameraDistance := auto_GetFloat "r.Photography.Constrain.MaxCameraDistance" 2500.
Definition CVarPhotographyAutoPostprocess := auto_GetInt "r.Photography.AutoPostprocess" 1.
Definition CVarPhotographyAutoPause := auto_GetInt "r.Photography.AutoPause" 1.
Definition CVarAllowHighQuality := auto_GetInt "r.Photography.AllowHighQuality" 1.
Definition CVarExtreme := auto_GetInt "r.Photography.Extreme" 0.

(* ===================================================================== *)
(** * The host engine and the capture SDK as seen by the plugin *)
(* ===================================================================== *)

Inductive FovType := kHorizontalFov | kVerticalFov.

Inductive CaptureType :=
  | kCaptureType360Mono
  | kCaptureType360Stereo
  | kCaptureTypeSuperResolution
  | kCaptureTypeStereo.

Inductive StartSessionStatus := kDisallowed | kAllowed.

(** Calls made on the engine and on the SDK, in program order. *)
Inductive Effect :=
  | UE_LOG (msg : string)
  | OnPhotographySessionStart
  | OnPhotographySessionEnd
  | OnPhotographyMultiPartCaptureStart
  | OnPhotographyMultiPartCaptureEnd
  | ShowHUD
  | SetSubtitlesEnabled (b : bool)
  | SetTimeDilation (d : Q)
  | SetPause (b : bool)
  | CursorShow (b : bool)
  | PhotographyCameraModify
  | ansel_updateCamera
  | ansel_setConfiguration (fov : FovType) (WorldToMeters : Q)
      (translationalSpeed : Q) (captureSettleLatency : Z)
  | ansel_setConfiguration_cleared   (* callbacks and window handle nulled *)
  | ansel_addUserControl (userControlId : Z)
  | ansel_removeUserControl (userControlId : Z)
  | ansel_startSession
  | ansel_stopSession
  | RegisterConsoleVariableSink
  | UnregisterConsoleVariableSink.

(** Engine state the plugin reads and writes.  [MyHUD] is [None] for a null
    HUD pointer and otherwise holds [bShowHUD]. *)
Record Engine := {
  Console : ConsoleManager;
  Paused : bool;
  TimeDilation : Q;
  bIsCameraMoveableWhenPaused : bool;
  GAreScreenMessagesEnabled : bool;
  MyHUD : option bool;
  SubtitlesEnabled : bool;
  bEnableFading : bool;
  GIsEditor : bool;
  RayTracingEnabled : bool;
  Effects : list Effect
}.

Definition set_Console (x : ConsoleManager) (e : Engine) : Engine :=
  {| Console := x; Paused := Paused e; TimeDilation := TimeDilation e;
     bIsCameraMoveableWhenPaused := bIsCameraMoveableWhenPaused e;
     GAreScreenMessagesEnabled := GAreScreenMessagesEnabled e; MyHUD := MyHUD e;
     SubtitlesEnabled := SubtitlesEnabled e; bEnableFading := bEnableFading e;
     GIsEditor := GIsEditor e; RayTracingEnabled := RayTracingEnabled e;
     Effects := Effects e |}.

Definition set_Paused (x : bool) (e : Engine) : Engine :=
  {| Console := Console e; Paused := x; TimeDilation := TimeDilation e;
     bIsCameraMoveableWhenPaused := bIsCameraMoveableWhenPaused e;
     GAreScreenMessagesEnabled := GAreScreenMessagesEnabled e; MyHUD := MyHUD e;
     SubtitlesEnabled := SubtitlesEnabled e; bEnableFading := bEnableFading e;
     GIsEditor := GIsEditor e; RayTracingEnabled := RayTracingEnabled e;
     Effects := Effects e |}.

Definition set_TimeDilation (x : Q) (e : Engine) : Engine :=
  {| Console := Console e; Paused := Paused e; TimeDilation := x;
     bIsCameraMoveableWhenPaused := bIsCameraMoveableWhenPaused e;
     GAreScreenMessagesEnabled := GAreScreenMessagesEnabled e; MyHUD := MyHUD e;
     SubtitlesEnabled := SubtitlesEnabled e; bEnableFading := bEnableFading e;
     GIsEditor := GIsEditor e; RayTracingEnabled := RayTracingEnabled e;
     Effects := Effects e |}.

Definition set_bIsCameraMoveableWhenPaused (x : bool) (e : Engine) : Engine :=
  {| Console := Console e; Paused := Paused e; TimeDilation := TimeDilation e;
     bIsCameraMoveableWhenPaused := x;
     GAreScreenMessagesEnabled := GAreScreenMessagesEnabled e; MyHUD := MyHUD e;
     SubtitlesEnabled := SubtitlesEnabled e; bEnableFading := bEnableFading e;
     GIsEditor := GIsEditor e; RayTracingEnabled := RayTracingEnabled e;
     Effects := Effects e |}.

Definition set_GAreScreenMessagesEnabled (x : bool) (e : Engine) : Engine :=
  {| Console := Console e; Paused := Paused e; TimeDilation := TimeDilation e;
     bIsCameraMoveableWhenPaused := bIsCameraMoveableWhenPaused e;
     GAreScreenMessagesEnabled := x; MyHUD := MyHUD e;
     SubtitlesEnabled := SubtitlesEnabled e; bEnableFading := bEnableFading e;
     GIsEditor := GIsEditor e; RayTracingEnabled := RayTracingEnabled e;
     Effects := Effects e |}.

Definition set_MyHUD (x : option bool) (e : Engine) : Engine :=
  {| Console := Console e; Paused := Paused e; TimeDilation := TimeDilation e;
     bIsCameraMoveableWhenPaused := bIsCameraMoveableWhenPaused e;
     GAreScreenMessagesEnabled := GAreScreenMessagesEnabled e; MyHUD := x;
     SubtitlesEnabled := SubtitlesEnabled e; bEnableFading := bEnableFading e;
     GIsEditor := GIsEditor e; RayTracingEnabled := RayTracingEnabled e;
     Effects := Effects e |}.

Definition set_SubtitlesEnabled (x : bool) (e : Engine) : Engine :=
  {| Console := Console e; Paused := Paused e; TimeDilation := TimeDilation e;
     bIsCameraMoveableWhenPaused := bIsCameraMoveableWhenPaused e;
     GAreScreenMessagesEnabled := GAreScreenMessagesEnabled e; MyHUD := MyHUD e;
     SubtitlesEnabled := x; bEnableFading := bEnableFading e;
     GIsEditor := GIsEditor e; RayTracingEnabled := RayTracingEnabled e;
     Effects := Effects e |}.

Definition set_bEnableFading (x : bool) (e : Engine) : Engine :=
  {| Console := Console e; Paused := Paused e; TimeDilation := TimeDilation e;
     bIsCameraMoveableWhenPaused := bIsCameraMoveableWhenPaused e;
     GAreScreenMessagesEnabled := GAreScreenMessagesEnabled e; MyHUD := MyHUD e;
     SubtitlesEnabled := SubtitlesEnabled e; bEnableFading := x;
     GIsEditor := GIsEditor e; RayTracingEnabled := RayTracingEnabled e;
     Effects := Effects e |}.

Definition emit (x : Effect) (e : Engine) : Engine :=
  {| Console := Console e; Paused := Paused e; TimeDilation := TimeDilation e;
     bIsCameraMoveableWhenPaused := bIsCameraMoveableWhenPaused e;
     GAreScreenMessagesEnabled := GAreScreenMessagesEnabled e; MyHUD := MyHUD e;
     SubtitlesEnabled := SubtitlesEnabled e; bEnableFading := bEnableFading e;
     GIsEditor := GIsEditor e; RayTracingEnabled := RayTracingEnabled e;
     Effects := Effects e ++ [x] |}.

(** Engine calls with an effect on the modelled state. *)

(** [AHUD::ShowHUD()] toggles [bShowHUD]. *)
Definition do_ShowHUD (e : Engine) : Engine :=
  emit ShowHUD (set_MyHUD (negb <$> MyHUD e) e).

Definition do_SetSubtitlesEnabled (b : bool) (e : Engine) : Engine :=
  emit (SetSubtitlesEnabled b) (set_SubtitlesEnabled b e).

Definition do_SetTimeDilation (d : Q) (e : Engine) : Engine :=
  emit (SetTimeDilation d) (set_TimeDilation d e).

Definition do_SetPause (b : bool) (e : Engine) : Engine :=
  emit (SetPause b) (set_Paused b e).

Definition do_Set (v : Q) (k : string) (e : Engine) : Engine :=
  set_Console (store_cvar (cvSet v) k (Console e)) e.

Definition do_SetWithCurrentPriority (v : Q) (k : string) (e : Engine) : Engine :=
  set_Console (store_cvar (cvSetWithCurrentPriority v) k (Console e)) e.

(* ===================================================================== *)
(** * Post-process settings *)
(* ===================================================================== *)

(** The members of [FPostProcessSettings] the plugin touches.  Each has a
    float value and a [bOverride_] bit; the struct is the pair of both
    families, indexed by member name. *)
Inductive PPField :=
  | MotionBlurAmount
  | BloomDirtMaskIntensity
  | LensFlareIntensity
  | VignetteIntensity
  | SceneFringeIntensity
  | AutoExposureSpeedDown
  | AutoExposureSpeedUp
  | ScreenPercentage_DEPRECATED
  | DepthOfFieldScale
  | DepthOfFieldNearBlurSize
  | DepthOfFieldFarBlurSize
  | DepthOfFieldDepthBlurRadius
  | DepthOfFieldVignetteSize
  | ScreenSpaceReflectionIntensity
  | DepthOfFieldFstop
  | DepthOfFieldFocalDistance
  | DepthOfFieldSensorWidth
  | DepthOfFieldDepthBlurAmount
  | DepthOfFieldFocalRegion
  | BloomIntensity
  | BloomSizeScale.

#[global] Instance PPField_eq_dec : EqDecision PPField.
Proof. solve_decision. Defined.

Record FPostProcessSettings := {
  bOverride : PPField -> bool;
  Value : PPField -> Q
}.

Definition set_bOverride (f : PPField) (b : bool) (s : FPostProcessSettings) :=
  {| bOverride := <[f := b]> (bOverride s); Value := Value s |}.

Definition set_Value (f : PPField) (v : Q) (s : FPostProcessSettings) :=
  {| bOverride := bOverride s; Value := <[f := v]> (Value s) |}.

(** [S.bOverride_F = b; S.F = v;] *)
Definition assign (f : PPField) (b : bool) (v : Q) (s : FPostProcessSettings) :=
  set_Value f v (set_bOverride f b s).

(* ===================================================================== *)
(** * The provider object *)
(* ===================================================================== *)

Inductive econtrols :=
  | control_dofscale
  | control_dofsensorwidth
  | control_doffocalregion
  | control_doffocaldistance
  | control_dofdepthbluramount
  | control_dofdepthblurradius
  | control_bloomintensity
  | control_bloomscale
  | control_scenefringeintensity
  | control_OLDSettings
  | control_LumenSettings
  | control_SkylightSettings
  | control_AntiAliasing
  | control_sgQuality.

#[global] Instance econtrols_eq_dec : EqDecision econtrols.
Proof. solve_decision. Defined.

(** [for (int i = 0; i < control_COUNT; ++i)] *)
Definition all_controls : list econtrols :=
  [control_dofscale; control_dofsensorwidth; control_doffocalregion;
   control_doffocaldistance; control_dofdepthbluramount; control_dofdepthblurradius;
   control_bloomintensity; control_bloomscale; control_scenefringeintensity;
   control_OLDSettings; control_LumenSettings; control_SkylightSettings;
   control_AntiAliasing; control_sgQuality].

Definition control_index (c : econtrols) : Z :=
  match c with
  | control_dofscale => 0 | control_dofsensorwidth => 1 | control_doffocalregion => 2
  | control_doffocaldistance => 3 | control_dofdepthbluramount => 4
  | control_dofdepthblurradius => 5 | control_bloomintensity => 6
  | control_bloomscale => 7 | control_scenefringeintensity => 8
  | control_OLDSettings => 9 | control_LumenSettings => 10
  | control_SkylightSettings => 11 | control_AntiAliasing => 12
  | control_sgQuality => 13
  end.

(** [EUIControlEffectTarget], as the index into [bEffectUIAllowed]. *)
Definition Bloom : nat := 0.
Definition DepthOfField : nat := 1.
Definition ChromaticAberration : nat := 2.
Definition MotionBlur : nat := 3.

(** The [bool] data members of the class, by name. *)
Inductive Flag :=
  | bAnselSessionActive
  | bAnselSessionNewlyActive
  | bAnselSessionWantDeactivate
  | bAnselCaptureActive
  | bAnselCaptureNewlyActive
  | bAnselCaptureNewlyFinished
  | bForceDisallow
  | bIsOrthoProjection
  | bWasMovableCameraBeforeSession
  | bWasPausedBeforeSession
  | bWasShowingHUDBeforeSession
  | bWereSubtitlesEnabledBeforeSession
  | bWasFadingEnabledBeforeSession
  | bWasScreenMessagesEnabledBeforeSession
  | bAutoPostprocess
  | bAutoPause
  | bRayTracingEnabled
  | bPausedInternally
  | bHighQualityModeDesired
  | bHighQualityModeIsSetup
  | bHighLodDesired
  | bHighLodIsSetup
  | bHighLumenDesired
  | bHighLumenIsSetup
  | bHighSkyLightDesired
  | bHighSkyLightIsSetup
  | bHighAntiAliasingDesired
  | bHighAntiAliasingIsSetup
  | bHighSgQualityDesired
  | bHighSgQualityIsSetup
  | bUIControlsNeedRebuild.

#[global] Instance Flag_eq_dec : EqDecision Flag.
Proof. solve_decision. Defined.

Record CVarInfo := {
  cvar : CVarPtr;
  fInitialVal : Q
}.

(** [FNVAnselCameraPhotographyPrivate].  The camera poses ([AnselCamera],
    [UECameraOriginal], ...) only travel between the SDK and the view and are
    left out, together with [bCameraIsInOriginalState], which nothing reads. *)
Record Provider := {
  flag : Flag -> bool;
  AnselCaptureInfo : CaptureType;
  fTimeDilationBeforeSession : Q;
  RequiredFovType : FovType;
  CurrentlyConfiguredFovType : FovType;
  RequiredWorldToMeters : Q;
  CurrentlyConfiguredWorldToMeters : Q;
  NumFramesSinceSessionStart : Z;                (* uint32_t *)
  bEffectUIAllowed : nat -> bool;                (* TStaticBitArray<256> *)
  userControlId : econtrols -> Z;                (* UIControls[i].info.userControlId *)
  float_val : econtrols -> Q;                    (* UIControlValues[i].float_val *)
  bool_val : econtrols -> bool;                  (* UIControlValues[i].bool_val *)
  UIControlRangeLower : econtrols -> Q;
  UIControlRangeUpper : econtrols -> Q;
  UEPostProcessingOriginal : FPostProcessSettings;
  InitialCVarMap : gmap string CVarInfo
}.

Definition set_flag (x : Flag -> bool) (p : Provider) : Provider :=
  {| flag := x; AnselCaptureInfo := AnselCaptureInfo p;
     fTimeDilationBeforeSession := fTimeDilationBeforeSession p;
     RequiredFovType := RequiredFovType p;
     CurrentlyConfiguredFovType := CurrentlyConfiguredFovType p;
     RequiredWorldToMeters := RequiredWorldToMeters p;
     CurrentlyConfiguredWorldToMeters := CurrentlyConfiguredWorldToMeters p;
     NumFramesSinceSessionStart := NumFramesSinceSessionStart p;
     bEffectUIAllowed := bEffectUIAllowed p; userControlId := userControlId p;
     float_val := float_val p; bool_val := bool_val p;
     UIControlRangeLower := UIControlRangeLower p;
     UIControlRangeUpper := UIControlRangeUpper p;
     UEPostProcessingOriginal := UEPostProcessingOriginal p;
     InitialCVarMap := InitialCVarMap p |}.

Definition set_AnselCaptureInfo (x : CaptureType) (p : Provider) : Provider :=
  {| flag := flag p; AnselCaptureInfo := x;
     fTimeDilationBeforeSession := fTimeDilationBeforeSession p;
     RequiredFovType := RequiredFovType p;
     CurrentlyConfiguredFovType := CurrentlyConfiguredFovType p;
     RequiredWorldToMeters := RequiredWorldToMeters p;
     CurrentlyConfiguredWorldToMeters := CurrentlyConfiguredWorldToMeters p;
     NumFramesSinceSessionStart := NumFramesSinceSessionStart p;
     bEffectUIAllowed := bEffectUIAllowed p; userControlId := userControlId p;
     float_val := float_val p; bool_val := bool_val p;
     UIControlRangeLower := UIControlRangeLower p;
     UIControlRangeUpper := UIControlRangeUpper p;
     UEPostProcessingOriginal := UEPostProcessingOriginal p;
     InitialCVarMap := InitialCVarMap p |}.

Definition set_fTimeDilationBeforeSession (x : Q) (p : Provider) : Provider :=
  {| flag := flag p; AnselCaptureInfo := AnselCaptureInfo p;
     fTimeDilationBeforeSession := x; RequiredFovType := RequiredFovType p;
     CurrentlyConfiguredFovType := CurrentlyConfiguredFovType p;
     RequiredWorldToMeters := RequiredWorldToMeters p;
     CurrentlyConfiguredWorldToMeters := CurrentlyConfiguredWorldToMeters p;
     NumFramesSinceSessionStart := NumFramesSinceSessionStart p;
     bEffectUIAllowed := bEffectUIAllowed p; userControlId := userControlId p;
     float_val := float_val p; bool_val := bool_val p;
     UIControlRangeLower := UIControlRangeLower p;
     UIControlRangeUpper := UIControlRangeUpper p;
     UEPostProcessingOriginal := UEPostProcessingOriginal p;
     InitialCVarMap := InitialCVarMap p |}.

Definition set_RequiredFovType (x : FovType) (p : Provider) : Provider :=
  {| flag := flag p; AnselCaptureInfo := AnselCaptureInfo p;
     fTimeDilationBeforeSession := fTimeDilationBeforeSession p; RequiredFovType := x;
     CurrentlyConfiguredFovType := CurrentlyConfiguredFovType p;
     RequiredWorldToMeters := RequiredWorldToMeters p;
     CurrentlyConfiguredWorldToMeters := CurrentlyConfiguredWorldToMeters p;
     NumFramesSinceSessionStart := NumFramesSinceSessionStart p;
     bEffectUIAllowed := bEffectUIAllowed p; userControlId := userControlId p;
     float_val := float_val p; bool_val := bool_val p;
     UIControlRangeLower := UIControlRangeLower p;
     UIControlRangeUpper := UIControlRangeUpper p;
     UEPostProcessingOriginal := UEPostProcessingOriginal p;
     InitialCVarMap := InitialCVarMap p |}.

Definition set_CurrentlyConfiguredFovType (x : FovType) (p : Provider) : Provider :=
  {| flag := flag p; AnselCaptureInfo := AnselCaptureInfo p;
     fTimeDilationBeforeSession := fTimeDilationBeforeSession p;
     RequiredFovType := RequiredFovType p; CurrentlyConfiguredFovType := x;
     RequiredWorldToMeters := RequiredWorldToMeters p;
     CurrentlyConfiguredWorldToMeters := CurrentlyConfiguredWorldToMeters p;
     NumFramesSinceSessionStart := NumFramesSinceSessionStart p;
     bEffectUIAllowed := bEffectUIAllowed p; userControlId := userControlId p;
     float_val := float_val p; bool_val := bool_val p;
     UIControlRangeLower := UIControlRangeLower p;
     UIControlRangeUpper := UIControlRangeUpper p;
     UEPostProcessingOriginal := UEPostProcessingOriginal p;
     InitialCVarMap := InitialCVarMap p |}.

Definition set_RequiredWorldToMeters (x : Q) (p : Provider) : Provider :=
  {| flag := flag p; AnselCaptureInfo := AnselCaptureInfo p;
     fTimeDilationBeforeSession := fTimeDilationBeforeSession p;
     RequiredFovType := RequiredFovType p;
     CurrentlyConfiguredFovType := CurrentlyConfiguredFovType p;
     RequiredWorldToMeters := x;
     CurrentlyConfiguredWorldToMeters := CurrentlyConfiguredWorldToMeters p;
     NumFramesSinceSessionStart := NumFramesSinceSessionStart p;
     bEffectUIAllowed := bEffectUIAllowed p; userControlId := userControlId p;
     float_val := float_val p; bool_val := bool_val p;
     UIControlRangeLower := UIControlRangeLower p;
     UIControlRangeUpper := UIControlRangeUpper p;
     UEPostProcessingOriginal := UEPostProcessingOriginal p;
     InitialCVarMap := InitialCVarMap p |}.

Definition set_CurrentlyConfiguredWorldToMeters (x : Q) (p : Provider) : Provider :=
  {| flag := flag p; AnselCaptureInfo := AnselCaptureInfo p;
     fTimeDilationBeforeSession := fTimeDilationBeforeSession p;
     RequiredFovType := RequiredFovType p;
     CurrentlyConfiguredFovType := CurrentlyConfiguredFovType p;
     RequiredWorldToMeters := RequiredWorldToMeters p;
     CurrentlyConfiguredWorldToMeters := x;
     NumFramesSinceSessionStart := NumFramesSinceSessionStart p;
     bEffectUIAllowed := bEffectUIAllowed p; userControlId := userControlId p;
     float_val := float_val p; bool_val := bool_val p;
     UIControlRangeLower := UIControlRangeLower p;
     UIControlRangeUpper := UIControlRangeUpper p;
     UEPostProcessingOriginal := UEPostProcessingOriginal p;
     InitialCVarMap := InitialCVarMap p |}.

Definition set_NumFramesSinceSessionStart (x : Z) (p : Provider) : Provider :=
  {| flag := flag p; AnselCaptureInfo := AnselCaptureInfo p;
     fTimeDilationBeforeSession := fTimeDilationBeforeSession p;
     RequiredFovType := RequiredFovType p;
     CurrentlyConfiguredFovType := CurrentlyConfiguredFovType p;
     RequiredWorldToMeters := RequiredWorldToMeters p;
     CurrentlyConfiguredWorldToMeters := CurrentlyConfiguredWorldToMeters p;
     NumFramesSinceSessionStart := x; bEffectUIAllowed := bEffectUIAllowed p;
     userControlId := userControlId p; float_val := float_val p;
     bool_val := bool_val p; UIControlRangeLower := UIControlRangeLower p;
     UIControlRangeUpper := UIControlRangeUpper p;
     UEPostProcessingOriginal := UEPostProcessingOriginal p;
     InitialCVarMap := InitialCVarMap p |}.

Definition set_bEffectUIAllowed (x : nat -> bool) (p : Provider) : Provider :=
  {| flag := flag p; AnselCaptureInfo := AnselCaptureInfo p;
     fTimeDilationBeforeSession := fTimeDilationBeforeSession p;
     RequiredFovType := RequiredFovType p;
     CurrentlyConfiguredFovType := CurrentlyConfiguredFovType p;
     RequiredWorldToMeters := RequiredWorldToMeters p;
     CurrentlyConfiguredWorldToMeters := CurrentlyConfiguredWorldToMeters p;
     NumFramesSinceSessionStart := NumFramesSinceSessionStart p; bEffectUIAllowed := x;
     userControlId := userControlId p; float_val := float_val p;
     bool_val := bool_val p; UIControlRangeLower := UIControlRangeLower p;
     UIControlRangeUpper := UIControlRangeUpper p;
     UEPostProcessingOriginal := UEPostProcessingOriginal p;
     InitialCVarMap := InitialCVarMap p |}.

Definition set_userControlId (x : econtrols -> Z) (p : Provider) : Provider :=
  {| flag := flag p; AnselCaptureInfo := AnselCaptureInfo p;
     fTimeDilationBeforeSession := fTimeDilationBeforeSession p;
     RequiredFovType := RequiredFovType p;
     CurrentlyConfiguredFovType := CurrentlyConfiguredFovType p;
     RequiredWorldToMeters := RequiredWorldToMeters p;
     CurrentlyConfiguredWorldToMeters := CurrentlyConfiguredWorldToMeters p;
     NumFramesSinceSessionStart := NumFramesSinceSessionStart p;
     bEffectUIAllowed := bEffectUIAllowed p; userControlId := x;
     float_val := float_val p; bool_val := bool_val p;
     UIControlRangeLower := UIControlRangeLower p;
     UIControlRangeUpper := UIControlRangeUpper p;
     UEPostProcessingOriginal := UEPostProcessingOriginal p;
     InitialCVarMap := InitialCVarMap p |}.

Definition set_float_val (x : econtrols -> Q) (p : Provider) : Provider :=
  {| flag := flag p; AnselCaptureInfo := AnselCaptureInfo p;
     fTimeDilationBeforeSession := fTimeDilationBeforeSession p;
     RequiredFovType := RequiredFovType p;
     CurrentlyConfiguredFovType := CurrentlyConfiguredFovType p;
     RequiredWorldToMeters := RequiredWorldToMeters p;
     CurrentlyConfiguredWorldToMeters := CurrentlyConfiguredWorldToMeters p;
     NumFramesSinceSessionStart := NumFramesSinceSessionStart p;
     bEffectUIAllowed := bEffectUIAllowed p; userControlId := userControlId p;
     float_val := x; bool_val := bool_val p;
     UIControlRangeLower := UIControlRangeLower p;
     UIControlRangeUpper := UIControlRangeUpper p;
     UEPostProcessingOriginal := UEPostProcessingOriginal p;
     InitialCVarMap := InitialCVarMap p |}.

Definition set_bool_val (x : econtrols -> bool) (p : Provider) : Provider :=
  {| flag := flag p; AnselCaptureInfo := AnselCaptureInfo p;
     fTimeDilationBeforeSession := fTimeDilationBeforeSession p;
     RequiredFovType := RequiredFovType p;
     CurrentlyConfiguredFovType := CurrentlyConfiguredFovType p;
     RequiredWorldToMeters := RequiredWorldToMeters p;
     CurrentlyConfiguredWorldToMeters := CurrentlyConfiguredWorldToMeters p;
     NumFramesSinceSessionStart := NumFramesSinceSessionStart p;
     bEffectUIAllowed := bEffectUIAllowed p; userControlId := userControlId p;
     float_val := float_val p; bool_val := x;
     UIControlRangeLower := UIControlRangeLower p;
     UIControlRangeUpper := UIControlRangeUpper p;
     UEPostProcessingOriginal := UEPostProcessingOriginal p;
     InitialCVarMap := InitialCVarMap p |}.

Definition set_UIControlRangeLower (x : econtrols -> Q) (p : Provider) : Provider :=
  {| flag := flag p; AnselCaptureInfo := AnselCaptureInfo p;
     fTimeDilationBeforeSession := fTimeDilationBeforeSession p;
     RequiredFovType := RequiredFovType p;
     CurrentlyConfiguredFovType := CurrentlyConfiguredFovType p;
     RequiredWorldToMeters := RequiredWorldToMeters p;
     CurrentlyConfiguredWorldToMeters := CurrentlyConfiguredWorldToMeters p;
     NumFramesSinceSessionStart := NumFramesSinceSessionStart p;
     bEffectUIAllowed := bEffectUIAllowed p; userControlId := userControlId p;
     float_val := float_val p; bool_val := bool_val p; UIControlRangeLower := x;
     UIControlRangeUpper := UIControlRangeUpper p;
     UEPostProcessingOriginal := UEPostProcessingOriginal p;
     InitialCVarMap := InitialCVarMap p |}.

Definition set_UIControlRangeUpper (x : econtrols -> Q) (p : Provider) : Provider :=
  {| flag := flag p; AnselCaptureInfo := AnselCaptureInfo p;
     fTimeDilationBeforeSession := fTimeDilationBeforeSession p;
     RequiredFovType := RequiredFovType p;
     CurrentlyConfiguredFovType := CurrentlyConfiguredFovType p;
     RequiredWorldToMeters := RequiredWorldToMeters p;
     CurrentlyConfiguredWorldToMeters := CurrentlyConfiguredWorldToMeters p;
     NumFramesSinceSessionStart := NumFramesSinceSessionStart p;
     bEffectUIAllowed := bEffectUIAllowed p; userControlId := userControlId p;
     float_val := float_val p; bool_val := bool_val p;
     UIControlRangeLower := UIControlRangeLower p; UIControlRangeUpper := x;
     UEPostProcessingOriginal := UEPostProcessingOriginal p;
     InitialCVarMap := InitialCVarMap p |}.

Definition set_UEPostProcessingOriginal (x : FPostProcessSettings) (p : Provider) : Provider :=
  {| flag := flag p; AnselCaptureInfo := AnselCaptureInfo p;
     fTimeDilationBeforeSession := fTimeDilationBeforeSession p;
     RequiredFovType := RequiredFovType p;
     CurrentlyConfiguredFovType := CurrentlyConfiguredFovType p;
     RequiredWorldToMeters := RequiredWorldToMeters p;
     CurrentlyConfiguredWorldToMeters := CurrentlyConfiguredWorldToMeters p;
     NumFramesSinceSessionStart := NumFramesSinceSessionStart p;
     bEffectUIAllowed := bEffectUIAllowed p; userControlId := userControlId p;
     float_val := float_val p; bool_val := bool_val p;
     UIControlRangeLower := UIControlRangeLower p;
     UIControlRangeUpper := UIControlRangeUpper p; UEPostProcessingOriginal := x;
     InitialCVarMap := InitialCVarMap p |}.

Definition set_InitialCVarMap (x : gmap string CVarInfo) (p : Provider) : Provider :=
  {| flag := flag p; AnselCaptureInfo := AnselCaptureInfo p;
     fTimeDilationBeforeSession := fTimeDilationBeforeSession p;
     RequiredFovType := RequiredFovType p;
     CurrentlyConfiguredFovType := CurrentlyConfiguredFovType p;
     RequiredWorldToMeters := RequiredWorldToMeters p;
     CurrentlyConfiguredWorldToMeters := CurrentlyConfiguredWorldToMeters p;
     NumFramesSinceSessionStart := NumFramesSinceSessionStart p;
     bEffectUIAllowed := bEffectUIAllowed p; userControlId := userControlId p;
     float_val := float_val p; bool_val := bool_val p;
     UIControlRangeLower := UIControlRangeLower p;
     UIControlRangeUpper := UIControlRangeUpper p;
     UEPostProcessingOriginal := UEPostProcessingOriginal p; InitialCVarMap := x |}.

(** Assignment to one [bool] member. *)
Definition set (f : Flag) (b : bool) (p : Provider) : Provider :=
  set_flag (<[f := b]> (flag p)) p.

(* ===================================================================== *)
(** * Provider operations *)
(* ===================================================================== *)

(** The provider object together with the engine it mutates. *)
Definition St : Type := Provider * Engine.

(** Sequential composition of statements. *)
Definition sequence (stmts : list (St -> St)) (s : St) : St :=
  foldl (fun s stmt => stmt s) s stmts.

Definition Qltb (a b : Q) : bool := negb (Qle_bool b a).

Definition wrap32 (n : Z) : Z := (n mod 2 ^ 32)%Z.

(** [cvar->GetFloat()] through a pointer the console manager just returned. *)
Definition GetFloat_at (k : string) (con : ConsoleManager) : Q :=
  from_option GetFloat 0%Q (deref k con).

Definition CaptureCVar (CVarName : string) (s : St) : bool * St :=
  let '(p, e) := s in
  match FindConsoleVariable CVarName (Console e) with
  | None => (false, s)
  | Some k =>
      let info := {| cvar := Some k; fInitialVal := GetFloat_at k (Console e) |} in
      (true, (set_InitialCVarMap (<[lower CVarName := info]> (InitialCVarMap p)) p, e))
  end.

Definition Contains (CVarName : string) (p : Provider) : bool :=
  match InitialCVarMap p !! lower CVarName with
  | Some _ => true
  | None => false
  end.

Definition SetCapturedCVarPredicated (CVarName : string) (valueIfNotReset : Q)
    (comparison : Q -> Q -> bool) (wantReset useExistingPriority : bool)
    (s : St) : St :=
  let '(captured, s) :=
    if Contains CVarName (fst s) then (true, s) else CaptureCVar CVarName s in
  let info : option CVarInfo :=
    if captured then InitialCVarMap (fst s) !! lower CVarName else None in
  let s :=
    match info with
    | Some i =>
        match cvar i with
        | Some k =>
            if comparison valueIfNotReset (fInitialVal i) then
              let v := if wantReset then fInitialVal i else valueIfNotReset in
              if useExistingPriority
              then (fst s, do_SetWithCurrentPriority v k (snd s))
              else (fst s, do_Set v k (snd s))
            else s
        | None => s
        end
    | None => s
    end in
  match info with
  | Some {| cvar := Some _ |} => s
  | _ => (fst s, emit (UE_LOG ("CVar used by Ansel not found: " +:+ CVarName)) (snd s))
  end.

Definition SetCapturedCVar (CVarName : string) (valueIfNotReset : Q)
    (wantReset useExistingPriority : bool) : St -> St :=
  SetCapturedCVarPredicated CVarName valueIfNotReset (fun _ _ => true)
    wantReset useExistingPriority.

(** [std::greater<float>()] and [std::less<float>()]. *)
Definition greater (a b : Q) : bool := Qltb b a.
Definition less (a b : Q) : bool := Qltb a b.

Definition SetUpSessionCVars : St -> St :=
  sequence [
    SetCapturedCVar "r.oneframethreadlag" 1 false false;
    SetCapturedCVar "r.streaming.minmipforsplitrequest" 1 false false;
    SetCapturedCVar "r.streaming.hiddenprimitivescale" 0.001 false false;
    SetCapturedCVar "r.Streaming.Boost" 1 false false;
    SetCapturedCVar "r.motionblurquality" 0 false false
  ].

(** ** Session callbacks of the SDK *)

Record SessionConfiguration := {
  isTranslationAllowed : bool;
  isFovChangeAllowed : bool;
  isRotationAllowed : bool;
  isPauseAllowed : bool;
  isHighresAllowed : bool;
  is360MonoAllowed : bool;
  is360StereoAllowed : bool
}.

Definition log_session_attempt (status : StartSessionStatus) (p : Provider) : Effect :=
  UE_LOG ("Photography camera session attempt started, Allowed="
          +:+ match status with kAllowed => "1" | kDisallowed => "0" end
          +:+ ", ForceDisallowed="
          +:+ (if flag p bForceDisallow then "1" else "0")).

Definition AnselStartSessionCallback (settings : SessionConfiguration) (s : St)
    : StartSessionStatus * SessionConfiguration * St :=
  let '(p, e) := s in
  if negb (flag p bForceDisallow)
     && negb (CVarPhotographyAllow (Console e) =? 0)%Z
     && negb (GIsEditor e)
  then
    let bPauseAllowed := true in
    let bEnableMultipart := negb (CVarPhotographyEnableMultipart (Console e) =? 0)%Z in
    let settings :=
      {| isTranslationAllowed := true;
         isFovChangeAllowed := negb (flag p bIsOrthoProjection);
         isRotationAllowed := true;
         isPauseAllowed := bPauseAllowed;
         isHighresAllowed := bEnableMultipart;
         is360MonoAllowed := bEnableMultipart;
         is360StereoAllowed := bEnableMultipart |} in
    let p := set bAnselSessionActive true p in
    let p := set bAnselSessionNewlyActive true p in
    let p := set bHighQualityModeDesired false p in
    (kAllowed, settings, (p, emit (log_session_attempt kAllowed p) e))
  else
    (kDisallowed, settings, (p, emit (log_session_attempt kDisallowed p) e)).

Definition AnselStopSessionCallback (s : St) : St :=
  let '(p, e) := s in
  let p :=
    if flag p bAnselSessionActive && flag p bAnselSessionNewlyActive
    then set bAnselSessionActive false p
    else set bAnselSessionWantDeactivate true p in
  (p, emit (UE_LOG "Photography camera session end") e).

Definition AnselStartCaptureCallback (CaptureInfo : CaptureType) (s : St) : St :=
  let '(p, e) := s in
  let p := set bAnselCaptureActive true p in
  let p := set bAnselCaptureNewlyActive true p in
  let p := set_AnselCaptureInfo CaptureInfo p in
  (p, emit (UE_LOG "Photography camera multi-part capture started") e).

Definition AnselStopCaptureCallback (s : St) : St :=
  let '(p, e) := s in
  let p := set bAnselCaptureActive false p in
  let p := set bAnselCaptureNewlyFinished true p in
  (p, emit (UE_LOG "Photography camera multi-part capture end") e).

Definition AnselChangeQualityCallback (isHighQuality : bool) (s : St) : St :=
  let '(p, e) := s in
  let p := set bHighQualityModeDesired isHighQuality p in
  (p, emit (UE_LOG "Photography HQ mode toggle") e).

(** The callbacks the plugin hands to [ansel::addUserControl]: the SDK stores
    the new value of a control. *)
Definition slider_callback (id : econtrols) (v : Q) (s : St) : St :=
  (set_float_val (<[id := v]> (float_val (fst s))) (fst s), snd s).

Definition bool_callback (id : econtrols) (v : bool) (s : St) : St :=
  (set_bool_val (<[id := v]> (bool_val (fst s))) (fst s), snd s).

(** The two log lines print the window handle and the metres per world
    unit.  [ansel::setConfiguration] is taken to succeed, here and in
    [DeconfigureAnsel], so the log line of a failed call is not emitted. *)
Definition ReconfigureAnsel (s : St) : St :=
  let '(p, e) := s in
  let e := emit (UE_LOG "gameWindowHandle= %p") e in
  let e := emit (UE_LOG "We reckon %f meters to 1 world unit") e in
  let e := emit (ansel_setConfiguration (RequiredFovType p) (RequiredWorldToMeters p)
                   (CVarPhotographyTranslationSpeed (Console e))
                   (CVarPhotographySettleFrames (Console e))) e in
  let p := set_CurrentlyConfiguredFovType (RequiredFovType p) p in
  let p := set_CurrentlyConfiguredWorldToMeters (RequiredWorldToMeters p) p in
  (p, e).

Definition DeconfigureAnsel (s : St) : St :=
  (fst s, emit ansel_setConfiguration_cleared (snd s)).

(** ** Per-frame camera update *)

Inductive ESplitScreenType :=
  | ESplitScreenType_None
  | TwoPlayer_Horizontal
  | TwoPlayer_Vertical
  | ThreePlayer_FavorTop
  | ThreePlayer_FavorBottom
  | FourPlayer_Grid.

#[global] Instance ESplitScreenType_eq_dec : EqDecision ESplitScreenType.
Proof. solve_decision. Defined.

Inductive EAspectRatioAxisConstraint :=
  | AspectRatio_MaintainYFOV
  | AspectRatio_MaintainXFOV
  | AspectRatio_MajorAxisFOV.

(** What [UpdateCamera] reads from its arguments and from engine globals.
    A [None] stands for a null pointer on the way to the value. *)
Record FrameEnv := {
  Orthographic : bool;   (* InOutPOV.ProjectionMode == ECameraProjectionMode::Orthographic *)
  GameViewport : option ESplitScreenType;   (* GetCurrentSplitscreenConfiguration() *)
  IsStereoscopic3D : bool;
  WorldToMeters : option Q;                 (* GEngine->GetWorld()->GetWorldSettings() *)
  LocalPlayerView : option (Z * Z * EAspectRatioAxisConstraint);  (* SizeX, SizeY, constraint *)
  CursorValid : bool     (* PlatformApplication.IsValid() && Cursor.IsValid() *)
}.

(** The statements run while no session is active. *)
Definition UpdateCamera_no_session (env : FrameEnv) (s : St) : St :=
  let '(p, e) := s in
  let p := set bIsOrthoProjection (Orthographic env) p in
  let p :=
    match GameViewport env with
    | Some cfg =>
        set bForceDisallow
          (flag p bForceDisallow || negb (bool_decide (cfg = ESplitScreenType_None))) p
    | None => p
    end in
  let p := set bForceDisallow (flag p bForceDisallow || IsStereoscopic3D env) p in
  let p :=
    match WorldToMeters env with
    | Some w => if Qeq_bool w 0 then p else set_RequiredWorldToMeters w p
    | None => p
    end in
  let p :=
    match LocalPlayerView env with
    | Some (SizeX, SizeY, AspectRatioAxisConstraint) =>
        if ((SizeY <? SizeX)%Z
            && match AspectRatioAxisConstraint with AspectRatio_MajorAxisFOV => true | _ => false end)
           || match AspectRatioAxisConstraint with AspectRatio_MaintainXFOV => true | _ => false end
           || Orthographic env
        then set_RequiredFovType kHorizontalFov p
        else set_RequiredFovType kVerticalFov p
    | None => p
    end in
  if negb (Qeq_bool (CurrentlyConfiguredWorldToMeters p) (RequiredWorldToMeters p))
     || match CurrentlyConfiguredFovType p, RequiredFovType p with
        | kHorizontalFov, kHorizontalFov | kVerticalFov, kVerticalFov => false
        | _, _ => true
        end
  then ReconfigureAnsel (p, e)
  else (p, e).

(** The statements run when [bAnselSessionWantDeactivate] is set: restore what the
    session changed. *)
Definition restore_cvar (name : string) (foo : CVarInfo) (e : Engine) : Engine :=
  match cvar foo with
  | Some k => do_SetWithCurrentPriority (fInitialVal foo) k e
  | None => e
  end.

Definition UpdateCamera_deactivate (env : FrameEnv) (s : St) : St :=
  let '(p, e) := s in
  let p := set bAnselSessionActive false p in
  let p := set bAnselSessionWantDeactivate false p in
  let e :=
    if flag p bAutoPostprocess then
      let e := if flag p bWasShowingHUDBeforeSession then do_ShowHUD e else e in
      let e := if flag p bWereSubtitlesEnabledBeforeSession
               then do_SetSubtitlesEnabled true e else e in
      if flag p bWasFadingEnabledBeforeSession then set_bEnableFading true e else e
    else e in
  let e := set_GAreScreenMessagesEnabled (flag p bWasScreenMessagesEnabledBeforeSession) e in
  let '(p, e) :=
    if flag p bAutoPause && negb (flag p bWasPausedBeforeSession) then
      let e := do_SetTimeDilation (fTimeDilationBeforeSession p) e in
      let e := do_SetPause false e in
      (set bPausedInternally false p, e)
    else (p, e) in
  let e := set_bIsCameraMoveableWhenPaused (flag p bWasMovableCameraBeforeSession) e in
  let e := if CursorValid env then emit (CursorShow true) e else e in
  let e := map_fold restore_cvar e (InitialCVarMap p) in
  let p := set_InitialCVarMap ∅ p in
  let p := set bHighQualityModeIsSetup false p in
  let e := emit OnPhotographySessionEnd e in
  (p, e).

(** The statements run on the first frame of a session ([bAnselSessionNewlyActive]). *)
Definition UpdateCamera_session_start (s : St) : St :=
  let '(p, e) := s in
  let p := set_NumFramesSinceSessionStart 0 p in
  let e := emit OnPhotographySessionStart e in
  let p := set bAutoPause (negb (CVarPhotographyAutoPause (Console e) =? 0)%Z) p in
  let p := set bAutoPostprocess (negb (CVarPhotographyAutoPostprocess (Console e) =? 0)%Z) p in
  let p := set bRayTracingEnabled (RayTracingEnabled e) p in
  let p := set bWasPausedBeforeSession (Paused e) p in
  let p := set bWasMovableCameraBeforeSession (bIsCameraMoveableWhenPaused e) p in
  let e := set_bIsCameraMoveableWhenPaused true e in
  let '(p, e) :=
    if flag p bAutoPause && negb (flag p bWasPausedBeforeSession) then
      let p := set_fTimeDilationBeforeSession (TimeDilation e) p in
      (p, do_SetTimeDilation 0 e)
    else (p, e) in
  let '(p, e) := SetUpSessionCVars (p, e) in
  let p := set bWasScreenMessagesEnabledBeforeSession (GAreScreenMessagesEnabled e) p in
  let e := set_GAreScreenMessagesEnabled false e in
  let p := set bWasFadingEnabledBeforeSession (bEnableFading e) p in
  let p := set bWasShowingHUDBeforeSession (match MyHUD e with Some bShowHUD => bShowHUD | None => false end) p in
  let p := set bWereSubtitlesEnabledBeforeSession (SubtitlesEnabled e) p in
  let e :=
    if flag p bAutoPostprocess then
      let e := if flag p bWasShowingHUDBeforeSession then do_ShowHUD e else e in
      let e := do_SetSubtitlesEnabled false e in
      set_bEnableFading false e
    else e in
  let p := set bUIControlsNeedRebuild true p in
  let e := emit ansel_updateCamera e in
  let p := set bAnselSessionNewlyActive false p in
  (p, e).

(** The statements run on every frame of a session that is not ending. *)
Definition UpdateCamera_session_frame (s : St) : St :=
  let '(p, e) :=
    if flag (fst s) bAnselSessionNewlyActive then UpdateCamera_session_start s
    else
      let '(p, e) := s in
      let e := emit ansel_updateCamera e in
      let e := if negb (flag p bAnselCaptureActive) then emit PhotographyCameraModify e else e in
      (p, e) in
  if (NumFramesSinceSessionStart p =? 2)%Z then
    if flag p bAutoPause && negb (flag p bWasPausedBeforeSession) then
      (set bPausedInternally true p, do_SetPause true e)
    else (p, e)
  else (p, e).

(** The two notifications at the edges of a multi-part capture; the result
    tells whether either fired ([bGameCameraCutThisFrame]). *)
Definition UpdateCamera_capture_edges (s : St) : St * bool :=
  let '(p, e) := s in
  let bGameCameraCutThisFrame := false in
  let '(p, e, bGameCameraCutThisFrame) :=
    if flag p bAnselCaptureNewlyActive then
      (set bAnselCaptureNewlyActive false p, emit OnPhotographyMultiPartCaptureStart e, true)
    else (p, e, bGameCameraCutThisFrame) in
  let '(p, e, bGameCameraCutThisFrame) :=
    if flag p bAnselCaptureNewlyFinished then
      (set bAnselCaptureNewlyFinished false p, emit OnPhotographyMultiPartCaptureEnd e, true)
    else (p, e, bGameCameraCutThisFrame) in
  ((p, e), bGameCameraCutThisFrame).

(** [UpdateCamera]; the result is [bGameCameraCutThisFrame]. *)
Definition UpdateCamera (env : FrameEnv) (s : St) : St * bool :=
  let s := (set bForceDisallow false (fst s), snd s) in
  let s := if negb (flag (fst s) bAnselSessionActive) then UpdateCamera_no_session env s else s in
  if flag (fst s) bAnselSessionActive then
    let s :=
      (set_NumFramesSinceSessionStart (wrap32 (NumFramesSinceSessionStart (fst s) + 1)) (fst s),
       snd s) in
    let '(s, bGameCameraCutThisFrame) := UpdateCamera_capture_edges s in
    let s :=
      if flag (fst s) bAnselSessionWantDeactivate then UpdateCamera_deactivate env s
      else UpdateCamera_session_frame s in
    (s, bGameCameraCutThisFrame)
  else
    (s, false).

(** ** Post-processing update *)

Definition stmt_p (f : Provider -> Provider) : St -> St :=
  fun s => (f (fst s), snd s).

Definition stmt_e (f : Engine -> Engine) : St -> St :=
  fun s => (fst s, f (snd s)).

(** [if (cond) { stmts }] *)
Definition when (cond : St -> bool) (stmts : list (St -> St)) : St -> St :=
  fun s => if cond s then sequence stmts s else s.

(** [FMath::GetRangePct] and [FMath::Lerp], for the non-degenerate constant
    ranges the sliders are declared with. *)
Definition GetRangePct (MinValue MaxValue Val : Q) : Q :=
  (Val - MinValue) / (MaxValue - MinValue).

Definition Lerp (A B Alpha : Q) : Q := A + Alpha * (B - A).

Definition DeclareSlider (id : econtrols) (LowerBound UpperBound Val : Q) : St -> St :=
  sequence [
    stmt_p (fun p => set_UIControlRangeLower (<[id := LowerBound]> (UIControlRangeLower p)) p);
    stmt_p (fun p => set_UIControlRangeUpper (<[id := UpperBound]> (UIControlRangeUpper p)) p);
    stmt_p (fun p => set_float_val
                       (<[id := GetRangePct LowerBound UpperBound Val]> (float_val p)) p);
    stmt_p (fun p => set_userControlId (<[id := (control_index id + 1)%Z]> (userControlId p)) p);
    stmt_e (emit (ansel_addUserControl (control_index id + 1)));
    stmt_e (emit (UE_LOG "control status"))
  ].

Definition DeclareBool (id : econtrols) (Val : bool) : St -> St :=
  sequence [
    stmt_p (fun p => set_bool_val (<[id := Val]> (bool_val p)) p);
    stmt_p (fun p => set_userControlId (<[id := (control_index id + 1)%Z]> (userControlId p)) p);
    stmt_e (emit (ansel_addUserControl (control_index id + 1)))
  ].

(** [if (ProcessUISlider(id, S.F)) S.bOverride_F = 1;] *)
Definition ProcessUISlider (p : Provider) (id : econtrols) (F : PPField)
    (S : FPostProcessSettings) : FPostProcessSettings :=
  if (userControlId p id <=? 0)%Z then S
  else set_bOverride F true
         (set_Value F (Lerp (UIControlRangeLower p id) (UIControlRangeUpper p id)
                         (float_val p id)) S).

(** [ProcessUIBool(id, member)]: the early assignment for an unused control is
    overwritten by the unconditional one that follows it. *)
Definition ProcessUIBool (id : econtrols) (member : Flag) (p : Provider) : Provider :=
  let p := if (userControlId p id <=? 0)%Z then set member false p else p in
  set member (bool_val p id) p.

Definition clear_control (i : econtrols) (s : St) : St :=
  let '(p, e) := s in
  if (0 <? userControlId p i)%Z then
    (set_userControlId (<[i := 0%Z]> (userControlId p)) p,
     emit (ansel_removeUserControl (userControlId p i)) e)
  else s.

Definition rebuild_controls (InOutPPSettings : FPostProcessSettings) : St -> St :=
  sequence [
    sequence (map clear_control all_controls);
    DeclareBool control_OLDSettings false;
    DeclareBool control_LumenSettings false;
    DeclareBool control_SkylightSettings false;
    DeclareBool control_AntiAliasing false;
    DeclareBool control_sgQuality false;
    stmt_p (set_UEPostProcessingOriginal InOutPPSettings);
    when (fun s => bEffectUIAllowed (fst s) DepthOfField
                   && (Qltb 0 (Value InOutPPSettings DepthOfFieldFstop)
                       && Qltb 0 (Value InOutPPSettings DepthOfFieldFocalDistance))) [
      DeclareSlider control_dofsensorwidth 0.1 1000
        (Value InOutPPSettings DepthOfFieldSensorWidth);
      DeclareSlider control_doffocaldistance 0 1000
        (Value InOutPPSettings DepthOfFieldFocalDistance);
      DeclareSlider control_dofdepthbluramount 0.000001 1
        (Value InOutPPSettings DepthOfFieldDepthBlurAmount);
      DeclareSlider control_dofdepthblurradius 0 4
        (Value InOutPPSettings DepthOfFieldDepthBlurRadius)
    ];
    when (fun s => bEffectUIAllowed (fst s) Bloom
                   && Qltb 0 (Value InOutPPSettings BloomIntensity)) [
      DeclareSlider control_bloomintensity 0 8 (Value InOutPPSettings BloomIntensity);
      DeclareSlider control_bloomscale 0 64 (Value InOutPPSettings BloomSizeScale)
    ];
    when (fun s => bEffectUIAllowed (fst s) ChromaticAberration
                   && Qltb 0 (Value InOutPPSettings SceneFringeIntensity)) [
      DeclareSlider control_scenefringeintensity 0 15
        (Value InOutPPSettings SceneFringeIntensity)
    ];
    stmt_p (set bUIControlsNeedRebuild false)
  ].

Definition DoCustomUIControls (InOutPPSettings : FPostProcessSettings)
    (bRebuildControls : bool) (s : St) : FPostProcessSettings * St :=
  let s := if bRebuildControls then rebuild_controls InOutPPSettings s else s in
  let p := fst s in
  let InOutPPSettings := UEPostProcessingOriginal p in
  let InOutPPSettings := ProcessUISlider p control_dofscale DepthOfFieldScale InOutPPSettings in
  let InOutPPSettings :=
    ProcessUISlider p control_doffocalregion DepthOfFieldFocalRegion InOutPPSettings in
  let InOutPPSettings :=
    ProcessUISlider p control_dofsensorwidth DepthOfFieldSensorWidth InOutPPSettings in
  let InOutPPSettings :=
    ProcessUISlider p control_doffocaldistance DepthOfFieldFocalDistance InOutPPSettings in
  let InOutPPSettings :=
    ProcessUISlider p control_dofdepthbluramount DepthOfFieldDepthBlurAmount InOutPPSettings in
  let InOutPPSettings :=
    ProcessUISlider p control_dofdepthblurradius DepthOfFieldDepthBlurRadius InOutPPSettings in
  let InOutPPSettings :=
    ProcessUISlider p control_bloomintensity BloomIntensity InOutPPSettings in
  let InOutPPSettings := ProcessUISlider p control_bloomscale BloomSizeScale InOutPPSettings in
  let InOutPPSettings :=
    ProcessUISlider p control_scenefringeintensity SceneFringeIntensity InOutPPSettings in
  let p := ProcessUIBool control_OLDSettings bHighLodDesired p in
  let p := ProcessUIBool control_LumenSettings bHighLumenDesired p in
  let p := ProcessUIBool control_SkylightSettings bHighSkyLightDesired p in
  let p := ProcessUIBool control_AntiAliasing bHighAntiAliasingDesired p in
  let p := ProcessUIBool control_sgQuality bHighSgQualityDesired p in
  (InOutPPSettings, (p, snd s)).

(** The macros of [ConfigureRenderingSettingsForPhotography]. *)
Definition QUALITY_CVAR (NAME : string) (BOOSTVAL : Q) : St -> St := fun s =>
  SetCapturedCVar NAME BOOSTVAL (negb (flag (fst s) bHighQualityModeDesired)) true s.
Definition QUALITY_CVAR_AT_LEAST (NAME : string) (BOOSTVAL : Q) : St -> St := fun s =>
  SetCapturedCVarPredicated NAME BOOSTVAL greater
    (negb (flag (fst s) bHighQualityModeDesired)) true s.
Definition QUALITY_CVAR_AT_MOST (NAME : string) (BOOSTVAL : Q) : St -> St := fun s =>
  SetCapturedCVarPredicated NAME BOOSTVAL less
    (negb (flag (fst s) bHighQualityModeDesired)) true s.
Definition QUALITY_CVAR_LOWPRIORITY_AT_LEAST (NAME : string) (BOOSTVAL : Q) : St -> St := fun s =>
  SetCapturedCVarPredicated NAME BOOSTVAL greater
    (negb (flag (fst s) bHighQualityModeDesired)) false s.
Definition LOD_CVAR (NAME : string) (BOOSTVAL : Q) : St -> St := fun s =>
  SetCapturedCVar NAME BOOSTVAL (negb (flag (fst s) bHighLodDesired)) true s.
Definition LUMEN_CVAR (NAME : string) (BOOSTVAL : Q) : St -> St := fun s =>
  SetCapturedCVar NAME BOOSTVAL (negb (flag (fst s) bHighLumenDesired)) true s.
Definition SKYLIGHT_CVAR (NAME : string) (BOOSTVAL : Q) : St -> St := fun s =>
  SetCapturedCVar NAME BOOSTVAL (negb (flag (fst s) bHighSkyLightDesired)) true s.
Definition SQQUALITY_CVAR (NAME : string) (BOOSTVAL : Q) : St -> St := fun s =>
  SetCapturedCVar NAME BOOSTVAL (negb (flag (fst s) bHighSgQualityDesired)) true s.
Definition ANTIALIASING_CVAR (NAME : string) (BOOSTVAL : Q) : St -> St := fun s =>
  SetCapturedCVar NAME BOOSTVAL (negb (flag (fst s) bHighAntiAliasingDesired)) true s.

(** [member = other;] *)
Definition copy_flag (member other : Flag) : St -> St :=
  stmt_p (fun p => set member (flag p other) p).

Definition differ (a b : Flag) (s : St) : bool := xorb (flag (fst s) a) (flag (fst s) b).

Definition lod_settings : St -> St :=
  when (differ bHighLodIsSetup bHighLodDesired) [
    LOD_CVAR "r.TextureStreaming" 0;
    LOD_CVAR "r.ForceLOD" 0;
    LOD_CVAR "r.particlelodbias" (-10);
    LOD_CVAR "foliage.DitheredLOD" 0;
    LOD_CVAR "foliage.ForceLOD" 0;
    LOD_CVAR "Foliage.MinimumScreenSize" 0.00000001;
    copy_flag bHighLodIsSetup bHighLodDesired
  ].

Definition lumen_settings : St -> St :=
  when (differ bHighLumenIsSetup bHighLumenDesired) [
    LUMEN_CVAR "r.DistanceFields.MaxPerMeshResolution" 256;
    LUMEN_CVAR "r.Lumen.ScreenProbeGather.ScreenSpaceBentNormal.ApplyDuringIntegration" 0;
    LUMEN_CVAR "r.LumenScene.DirectLighting.OffscreenShadowing.TraceMeshSDFs" 0;
    LUMEN_CVAR "r.Lumen.HardwareRayTracing" 1;
    LUMEN_CVAR "r.Lumen.TranslucencyVolume.TraceFromVolume" 0;
    LUMEN_CVAR "r.Lumen.Reflections.RadianceCache" 1;
    LUMEN_CVAR "r.LumenScene.Radiosity.ProbeSpacing" 8;
    LUMEN_CVAR "r.LumenScene.Radiosity.ProbeOcclusion" 0;
    LUMEN_CVAR "r.LumenScene.FarField" 1;
    LUMEN_CVAR "r.LumenScene.FarField.MaxTraceDistance" 1000000;
    LUMEN_CVAR "r.Lumen.HardwareRayTracing.MaxIterations" 128;
    copy_flag bHighLumenIsSetup bHighLumenDesired
  ].

Definition skylight_settings : St -> St :=
  when (differ bHighSkyLightIsSetup bHighSkyLightDesired) [
    SKYLIGHT_CVAR "r.SkyLight.RealTimeReflectionCapture.TimeSlice" 0;
    SKYLIGHT_CVAR "r.VolumetricRenderTarget" 0;
    copy_flag bHighSkyLightIsSetup bHighSkyLightDesired
  ].

Definition sg_quality_settings : St -> St :=
  when (differ bHighSgQualityIsSetup bHighSgQualityDesired) [
    SQQUALITY_CVAR "sg.ViewDistanceQuality" 4;
    SQQUALITY_CVAR "sg.AntiAliasingQuality" 4;
    SQQUALITY_CVAR "sg.ShadowQuality" 4;
    SQQUALITY_CVAR "sg.PostProcessQuality" 4;
    SQQUALITY_CVAR "sg.TextureQuality" 4;
    SQQUALITY_CVAR "sg.FoliageQuality" 4;
    SQQUALITY_CVAR "sg.ShadingQuality" 4;
    copy_flag bHighSgQualityIsSetup bHighSgQualityDesired
  ].

Definition antialiasing_settings : St -> St :=
  when (differ bHighAntiAliasingIsSetup bHighAntiAliasingDesired) [
    stmt_e (emit (UE_LOG "AntiAliasing is high quality:True"));
    ANTIALIASING_CVAR "r.AntiAliasingMethod" 2;
    ANTIALIASING_CVAR "r.TemporalAASamples" 64;
    ANTIALIASING_CVAR "r.TemporalAAFilterSize" 1;
    ANTIALIASING_CVAR "r.TemporalAA.Quality" 2;
    copy_flag bHighAntiAliasingIsSetup bHighAntiAliasingDesired
  ].

Definition raytracing_quality : list (St -> St) := [
    QUALITY_CVAR_AT_LEAST "D3D12.PSO.StallTimeoutInMs" 8000;
    QUALITY_CVAR_AT_LEAST "r.RayTracing.AmbientOcclusion.SamplesPerPixel" 3;
    QUALITY_CVAR "r.raytracing.reflections.rendertilesize" 128;
    QUALITY_CVAR_AT_LEAST "r.RayTracing.Reflections.MaxBounces" 2;
    QUALITY_CVAR_AT_LEAST "r.RayTracing.Reflections.MaxRoughness" 0.9;
    QUALITY_CVAR_AT_LEAST "r.RayTracing.Reflections.MaxRayDistance" 1000000;
    QUALITY_CVAR "r.RayTracing.Reflections.SortMaterials" 1;
    QUALITY_CVAR "r.RayTracing.Reflections.DirectLighting" 1;
    QUALITY_CVAR_AT_LEAST "r.RayTracing.Reflections.Shadows" 1;
    QUALITY_CVAR "r.RayTracing.Reflections.HeightFog" 1;
    QUALITY_CVAR "r.RayTracing.Reflections.ReflectionCaptures" 1;
    QUALITY_CVAR_AT_LEAST "r.RayTracing.Reflections.ScreenPercentage" 100;
    QUALITY_CVAR_AT_LEAST "r.RayTracing.Translucency.MaxRoughness" 0.9;
    QUALITY_CVAR_AT_LEAST "r.RayTracing.Translucency.MaxRayDistance" 1000000;
    QUALITY_CVAR_AT_LEAST "r.RayTracing.Translucency.MaxRefractionRays" 11;
    QUALITY_CVAR_AT_LEAST "r.RayTracing.Translucency.Shadows" 1;
    QUALITY_CVAR "r.RayTracing.Shadow.MaxLights" (-1);
    QUALITY_CVAR "r.RayTracing.Shadow.MaxDenoisedLights" (-1);
    QUALITY_CVAR_AT_LEAST "r.raytracing.lighting.maxshadowlights" 256;
    QUALITY_CVAR_AT_LEAST "r.RayTracing.lighting.maxlights" 256
  ].

Definition extreme_raytracing_quality : list (St -> St) := [
    QUALITY_CVAR_AT_LEAST "r.RayTracing.Translucency.MaxRoughness" 1;
    QUALITY_CVAR_AT_LEAST "r.RayTracing.Reflections.MaxRoughness" 1;
    QUALITY_CVAR "r.raytracing.GlobalIllumination.rendertilesize" 128;
    QUALITY_CVAR "r.RayTracing.GlobalIllumination.ScreenPercentage" 50;
    QUALITY_CVAR "r.RayTracing.GlobalIllumination.MaxRayDistance" 7500;
    QUALITY_CVAR_AT_LEAST "r.RayTracing.GlobalIllumination.SamplesPerPixel" 4;
    QUALITY_CVAR_AT_LEAST "r.RayTracing.GlobalIllumination.NextEventEstimationSamples" 16;
    QUALITY_CVAR_AT_LEAST "r.GlobalIllumination.Denoiser.ReconstructionSamples" 56;
    QUALITY_CVAR "r.RayTracing.GlobalIllumination" 1;
    QUALITY_CVAR_AT_LEAST "r.RayTracing.StochasticRectLight.SamplesPerPixel" 4;
    QUALITY_CVAR_AT_LEAST "r.RayTracing.SkyLight.SamplesPerPixel" 4
  ].

Definition extreme_quality : list (St -> St) := [
    QUALITY_CVAR "r.Streaming.LimitPoolSizeToVRAM" 0;
    QUALITY_CVAR_AT_LEAST "r.Streaming.PoolSize" 3000;
    QUALITY_CVAR "r.streaming.hlodstrategy" 2;
    QUALITY_CVAR_AT_LEAST "r.viewdistancescale" 10;
    when (fun s => flag (fst s) bRayTracingEnabled) extreme_raytracing_quality;
    QUALITY_CVAR "r.particlelodbias" (-10)
  ].

Definition high_quality_settings : St -> St :=
  when (fun s => negb (CVarAllowHighQuality (Console (snd s)) =? 0)%Z
                 && differ bHighQualityModeIsSetup bHighQualityModeDesired s
                 && (flag (fst s) bPausedInternally || negb (flag (fst s) bAutoPause))) [
    stmt_e (emit (UE_LOG "Photography is high quality:True"));
    QUALITY_CVAR_LOWPRIORITY_AT_LEAST "r.ScreenPercentage" 100;
    QUALITY_CVAR_AT_MOST "r.StaticMeshLODDistanceScale" 0.25;
    QUALITY_CVAR_AT_MOST "r.skeletalmeshlodbias" (-10);
    QUALITY_CVAR "r.D3D12.GPUTimeout" 0;
    QUALITY_CVAR "a.URO.Enable" 0;
    QUALITY_CVAR_AT_LEAST "foliage.DensityScale" 1;
    QUALITY_CVAR_AT_LEAST "grass.DensityScale" 1;
    QUALITY_CVAR_AT_LEAST "foliage.LODDistanceScale" 4;
    QUALITY_CVAR_AT_LEAST "r.TranslucencyLightingVolumeDim" 64;
    QUALITY_CVAR "r.RefractionQuality" 2;
    QUALITY_CVAR "r.SSR.Quality" 4;
    QUALITY_CVAR "r.TranslucencyVolumeBlur" 1;
    QUALITY_CVAR "r.MaterialQualityLevel" 1;
    QUALITY_CVAR "r.SSS.Scale" 1;
    QUALITY_CVAR "r.SSS.SampleSet" 2;
    QUALITY_CVAR "r.SSS.Quality" 1;
    QUALITY_CVAR "r.SSS.HalfRes" 0;
    QUALITY_CVAR "r.ParticleLightQuality" 2;
    QUALITY_CVAR "r.DetailMode" 2;
    QUALITY_CVAR "r.Streaming.MipBias" 0;
    QUALITY_CVAR_AT_LEAST "r.MaxAnisotropy" 16;
    QUALITY_CVAR "r.Streaming.MaxEffectiveScreenSize" 0;
    QUALITY_CVAR_AT_LEAST "r.ViewDistanceScale" 50;
    QUALITY_CVAR_AT_LEAST "r.LightFunctionQuality" 2;
    QUALITY_CVAR "r.ShadowQuality" 5;
    QUALITY_CVAR_AT_LEAST "r.Shadow.CSM.MaxCascades" 10;
    QUALITY_CVAR_AT_LEAST "r.Shadow.MaxResolution" 4096;
    QUALITY_CVAR_AT_LEAST "r.Shadow.MaxCSMResolution" 4096;
    QUALITY_CVAR_AT_MOST "r.Shadow.RadiusThreshold" 0.001;
    QUALITY_CVAR "r.Shadow.DistanceScale" 10;
    QUALITY_CVAR "r.Shadow.CSM.TransitionScale" 1;
    QUALITY_CVAR "r.Shadow.PreShadowResolutionFactor" 1;
    QUALITY_CVAR "r.AOQuality" 2;
    QUALITY_CVAR "r.VolumetricFog" 1;
    QUALITY_CVAR "r.VolumetricFog.GridPixelSize" 4;
    QUALITY_CVAR "r.VolumetricFog.GridSizeZ" 128;
    QUALITY_CVAR_AT_LEAST "r.VolumetricFog.HistoryMissSupersampleCount" 16;
    QUALITY_CVAR_AT_LEAST "r.LightMaxDrawDistanceScale" 4;
    when (fun s => flag (fst s) bRayTracingEnabled) raytracing_quality;
    when (fun s => negb (CVarExtreme (Console (snd s)) =? 0)%Z) extreme_quality;
    stmt_e (emit (UE_LOG "Photography HQ mode actualized"));
    copy_flag bHighQualityModeIsSetup bHighQualityModeDesired
  ].

Definition capture_streaming_settings : St -> St :=
  sequence [
    SetCapturedCVar "r.disablelodfade" 1 false false;
    SetCapturedCVar "r.streaming.framesforfullupdate" 1 false false;
    SetCapturedCVar "r.Streaming.MaxNumTexturesToStreamPerFrame" 0 false false;
    SetCapturedCVar "r.streaming.numstaticcomponentsprocessedperframe" 0 false false
  ].

(** The overrides applied to the settings during a capture when
    [bAutoPostprocess] is on. *)
Definition capture_postprocess (CaptureInfo : CaptureType)
    (S : FPostProcessSettings) : FPostProcessSettings :=
  let S := assign MotionBlurAmount true 0 S in
  let S := assign BloomDirtMaskIntensity true 0 S in
  let S := assign LensFlareIntensity true 0 S in
  let S := assign VignetteIntensity true 0 S in
  let S := assign SceneFringeIntensity true 0 S in
  let S := assign AutoExposureSpeedDown false 0 S in
  let S := assign AutoExposureSpeedUp false 0 S in
  let S :=
    if Qltb (Value S ScreenPercentage_DEPRECATED) 100
    then assign ScreenPercentage_DEPRECATED true 100 S
    else S in
  let bAnselSuperresCaptureActive :=
    match CaptureInfo with kCaptureTypeSuperResolution => true | _ => false end in
  let bAnselStereoCaptureActive :=
    match CaptureInfo with
    | kCaptureType360Stereo | kCaptureTypeStereo => true
    | _ => false
    end in
  let S :=
    if bAnselStereoCaptureActive then
      let S := assign DepthOfFieldScale true 0 S in
      let S := assign DepthOfFieldNearBlurSize true 0 S in
      let S := assign DepthOfFieldFarBlurSize true 0 S in
      let S := assign DepthOfFieldDepthBlurRadius true 0 S in
      assign DepthOfFieldVignetteSize true 200 S
    else S in
  if negb bAnselSuperresCaptureActive
  then assign ScreenSpaceReflectionIntensity true 0 S
  else S.

Definition ConfigureRenderingSettingsForPhotography
    (InOutPostProcessingSettings : FPostProcessSettings) (s : St)
    : FPostProcessSettings * St :=
  let s := sequence [lod_settings; lumen_settings; skylight_settings; sg_quality_settings;
                  antialiasing_settings; high_quality_settings] s in
  if flag (fst s) bAnselCaptureActive then
    let s := capture_streaming_settings s in
    if flag (fst s) bAutoPostprocess
    then (capture_postprocess (AnselCaptureInfo (fst s)) InOutPostProcessingSettings, s)
    else (InOutPostProcessingSettings, s)
  else (InOutPostProcessingSettings, s).

Definition UpdatePostProcessing (InOutPostProcessingSettings : FPostProcessSettings)
    (s : St) : FPostProcessSettings * St :=
  if flag (fst s) bAnselSessionActive then
    let '(InOutPostProcessingSettings, s) :=
      DoCustomUIControls InOutPostProcessingSettings (flag (fst s) bUIControlsNeedRebuild) s in
    ConfigureRenderingSettingsForPhotography InOutPostProcessingSettings s
  else (InOutPostProcessingSettings, s).

Definition StartSession (s : St) : St := (fst s, emit ansel_startSession (snd s)).
Definition StopSession (s : St) : St := (fst s, emit ansel_stopSession (snd s)).

Definition SetUIControlVisibility (UIControlTarget : nat) (bIsVisible : bool) (s : St) : St :=
  (set_bEffectUIAllowed (<[UIControlTarget := bIsVisible]> (bEffectUIAllowed (fst s))) (fst s),
   snd s).

(** ** Everything that can happen to a provider *)

Inductive Event :=
  | EvUpdateCamera (env : FrameEnv)
  | EvUpdatePostProcessing (InOutPostProcessingSettings : FPostProcessSettings)
  | EvStartSessionCallback (settings : SessionConfiguration)
  | EvStopSessionCallback
  | EvStartCaptureCallback (CaptureInfo : CaptureType)
  | EvStopCaptureCallback
  | EvChangeQualityCallback (isHighQuality : bool)
  | EvSliderCallback (id : econtrols) (v : Q)
  | EvBoolCallback (id : econtrols) (v : bool)
  | EvSetUIControlVisibility (UIControlTarget : nat) (bIsVisible : bool).

Definition step (ev : Event) (s : St) : St :=
  match ev with
  | EvUpdateCamera env => fst (UpdateCamera env s)
  | EvUpdatePostProcessing PP => snd (UpdatePostProcessing PP s)
  | EvStartSessionCallback settings => snd (AnselStartSessionCallback settings s)
  | EvStopSessionCallback => AnselStopSessionCallback s
  | EvStartCaptureCallback CaptureInfo => AnselStartCaptureCallback CaptureInfo s
  | EvStopCaptureCallback => AnselStopCaptureCallback s
  | EvChangeQualityCallback isHighQuality => AnselChangeQualityCallback isHighQuality s
  | EvSliderCallback id v => slider_callback id v s
  | EvBoolCallback id v => bool_callback id v s
  | EvSetUIControlVisibility UIControlTarget bIsVisible =>
      SetUIControlVisibility UIControlTarget bIsVisible s
  end.

Definition run (evs : list Event) (s : St) : St :=
  foldl (fun s ev => step ev s) s evs.

(** Events that neither start nor stop a session. *)
Definition in_session (ev : Event) : bool :=
  match ev with
  | EvStartSessionCallback _ | EvStopSessionCallback => false
  | _ => true
  end.

(* ===================================================================== *)
(** * The module: loading the SDK and creating the provider *)
(* ===================================================================== *)

Module FAnselModule.

(** The file-level statics [AnselSDKDLLHandle] and [bAnselDLLLoaded]. *)
Record Statics := {
  AnselSDKDLLHandle : Z;
  bAnselDLLLoaded : bool
}.

Definition initial : Statics := {| AnselSDKDLLHandle := 0; bAnselDLLLoaded := false |}.

(** [StartupModule]; [GetDllHandle] is the handle the platform returned for
    the SDK's DLL, 0 when loading failed. *)
Definition StartupModule (GetDllHandle : Z) (m : Statics) (e : Engine) : Statics * Engine :=
  let AnselSDKDLLHandle := GetDllHandle in
  let bAnselDLLLoaded := negb (AnselSDKDLLHandle =? 0)%Z in
  ({| AnselSDKDLLHandle := AnselSDKDLLHandle; bAnselDLLLoaded := bAnselDLLLoaded |},
   emit (UE_LOG ("Tried to load : success=" +:+ (if bAnselDLLLoaded then "1" else "0"))) e).

Definition ShutdownModule (m : Statics) : Statics :=
  if bAnselDLLLoaded m then {| AnselSDKDLLHandle := 0; bAnselDLLLoaded := false |} else m.

(** The constructor.  Members without an initialiser keep whatever the
    allocation held; [uninit] supplies those values. *)
Definition constructor (m : Statics) (uninit : Provider) (e : Engine) : St :=
  let p := uninit in
  let p := set bAnselSessionActive false p in
  let p := set bAnselSessionNewlyActive false p in
  let p := set bAnselSessionWantDeactivate false p in
  let p := set bAnselCaptureActive false p in
  let p := set bAnselCaptureNewlyActive false p in
  let p := set bAnselCaptureNewlyFinished false p in
  let p := set bForceDisallow false p in
  let p := set bIsOrthoProjection false p in
  let p := set bWasScreenMessagesEnabledBeforeSession false p in
  let p := set bRayTracingEnabled false p in
  let p := set bPausedInternally false p in
  let p := set bHighQualityModeDesired false p in
  let p := set bHighQualityModeIsSetup false p in
  let p := set bHighLodDesired false p in
  let p := set bHighLodIsSetup false p in
  let p := set bHighLumenDesired false p in
  let p := set bHighLumenIsSetup false p in
  let p := set bHighSkyLightDesired false p in
  let p := set bHighSkyLightIsSetup false p in
  let p := set bHighAntiAliasingDesired false p in
  let p := set bHighAntiAliasingIsSetup false p in
  let p := set bHighSgQualityDesired false p in
  let p := set bHighSgQualityIsSetup false p in
  let p := set_RequiredFovType kHorizontalFov p in
  let p := set_CurrentlyConfiguredFovType kHorizontalFov p in
  let p := set_RequiredWorldToMeters 100 p in
  let p := set_CurrentlyConfiguredWorldToMeters 0 p in
  let p := set_InitialCVarMap ∅ p in
  let p := set_bEffectUIAllowed (fun _ => true) p in
  if bAnselDLLLoaded m then
    let e := emit RegisterConsoleVariableSink e in
    ReconfigureAnsel (p, e)
  else
    (p, emit (UE_LOG "Ansel DLL was not successfully loaded.") e).

Definition destructor (m : Statics) (s : St) : Engine :=
  if bAnselDLLLoaded m then
    snd (DeconfigureAnsel (fst s, emit UnregisterConsoleVariableSink (snd s)))
  else snd s.

(** [IsSupported]; [isAnselAvailable] is what the SDK would answer, and is
    only asked when the DLL is loaded. *)
Definition IsSupported (m : Statics) (isAnselAvailable : bool) : bool :=
  bAnselDLLLoaded m && isAnselAvailable.

(** [CreateCameraPhotography]: [None] is the null [TSharedPtr]. *)
Definition CreateCameraPhotography (m : Statics) (isAnselAvailable : bool)
    (uninit : Provider) (e : Engine) : option Provider * Engine :=
  let PhotographyPrivate := constructor m uninit e in
  if IsSupported m isAnselAvailable
  then (Some (fst PhotographyPrivate), snd PhotographyPrivate)
  else (None, destructor m PhotographyPrivate).

End FAnselModule.

(* ===================================================================== *)
(** * Camera locations *)
(* ===================================================================== *)

(** The engine's [FVector], over the reals. *)
Module FVector.

Local Open Scope R_scope.

Record t := mk { X : R; Y : R; Z : R }.

Definition ZeroVector : t := mk 0 0 0.

Definition add (a b : t) : t := mk (X a + X b) (Y a + Y b) (Z a + Z b).
Definition sub (a b : t) : t := mk (X a - X b) (Y a - Y b) (Z a - Z b).

Definition DotProduct (a b : t) : R := X a * X b + Y a * Y b + Z a * Z b.
Definition SizeSquared (v : t) : R := X v * X v + Y v * Y v + Z v * Z v.
Definition Size (v : t) : R := sqrt (SizeSquared v).

Definition UE_KINDA_SMALL_NUMBER : R := / 10000.

(** [operator==]: exact comparison of the three components. *)
Definition eq_dec (a b : t) : {a = b} + {a <> b}.
Proof.
  destruct a as [x1 y1 z1], b as [x2 y2 z2].
  destruct (Req_dec_T x1 x2) as [-> | Hx]; [| right; congruence].
  destruct (Req_dec_T y1 y2) as [-> | Hy]; [| right; congruence].
  destruct (Req_dec_T z1 z2) as [-> | Hz]; [| right; congruence].
  left; reflexivity.
Defined.

Definition IsNearlyZero (v : t) : bool :=
  if Rle_dec (Rabs (X v)) UE_KINDA_SMALL_NUMBER then
    if Rle_dec (Rabs (Y v)) UE_KINDA_SMALL_NUMBER then
      if Rle_dec (Rabs (Z v)) UE_KINDA_SMALL_NUMBER then true else false
    else false
  else false.

(** [GetClampedToMaxSize], as in the engine's [Vector.h]: the zero vector
    for a tiny bound, the vector rescaled to length [MaxSize] when it is
    longer, the vector itself otherwise. *)
Definition GetClampedToMaxSize (v : t) (MaxSize : R) : t :=
  if Rlt_dec MaxSize UE_KINDA_SMALL_NUMBER then ZeroVector
  else
    let VSq := SizeSquared v in
    if Rgt_dec VSq (MaxSize * MaxSize) then
      let Scale := MaxSize * / sqrt VSq in
      mk (X v * Scale) (Y v * Scale) (Z v * Scale)
    else v.

End FVector.

Abbreviation FVector := FVector.t.

(* ===================================================================== *)
(** * The Blueprint function library *)
(* ===================================================================== *)

Module UAnselFunctionLibrary.

(** Collision queries of [UWorld] on channel [ECC_Camera] with a sphere of
    the given radius: whether anything overlaps the sphere at a position,
    and the location of the first blocking hit of a sweep, if any. *)
Record UWorld := {
  OverlapAnyTestByChannel : FVector -> Q -> bool;
  SweepSingleByChannel : FVector -> FVector -> Q -> option FVector
}.

(** What a [WorldContextObject] resolves to. *)
Record WorldContext := {
  GEngine : bool;               (* GEngine != nullptr *)
  World : option UWorld;        (* the object's world, None when null *)
  IsSupported : bool            (* FCameraPhotographyManager::IsSupported(World) *)
}.

(** One slot per function-local [static IConsoleVariable*]. *)
Inductive StaticCVar :=
  | in_IsPhotographyAvailable
  | in_IsPhotographyAllowed
  | in_SetIsPhotographyAllowed
  | in_SetSettleFrames
  | in_SetCameraMovementSpeed
  | in_SetCameraConstraintCameraSize
  | in_SetCameraConstraintDistance
  | in_SetAutoPostprocess
  | in_SetAutoPause
  | in_ConstrainCameraByGeometry.

#[global] Instance StaticCVar_eq_dec : EqDecision StaticCVar.
Proof. solve_decision. Defined.

(** The process as the library sees it: its function-local statics ([None]
    until the declaration is first executed), the photography manager's
    provider ([None] when none was created) and the engine. *)
Record System := {
  cached : StaticCVar -> option CVarPtr;
  LastUnconfinedScreenshotCamera : option FVector;
  ActiveImpl : option Provider;
  engine : Engine
}.

Definition set_cached (x : StaticCVar -> option CVarPtr) (sys : System) : System :=
  {| cached := x; LastUnconfinedScreenshotCamera := LastUnconfinedScreenshotCamera sys;
     ActiveImpl := ActiveImpl sys; engine := engine sys |}.

Definition set_LastUnconfinedScreenshotCamera (x : option FVector) (sys : System) : System :=
  {| cached := cached sys; LastUnconfinedScreenshotCamera := x;
     ActiveImpl := ActiveImpl sys; engine := engine sys |}.

Definition set_ActiveImpl (x : option Provider) (sys : System) : System :=
  {| cached := cached sys; LastUnconfinedScreenshotCamera := LastUnconfinedScreenshotCamera sys;
     ActiveImpl := x; engine := engine sys |}.

Definition set_engine (x : Engine) (sys : System) : System :=
  {| cached := cached sys; LastUnconfinedScreenshotCamera := LastUnconfinedScreenshotCamera sys;
     ActiveImpl := ActiveImpl sys; engine := x |}.

(** [static IConsoleVariable* V = IConsoleManager::Get().FindConsoleVariable(Name);] *)
Definition static_FindConsoleVariable (slot : StaticCVar) (Name : string) (sys : System)
    : CVarPtr * System :=
  match cached sys slot with
  | Some ptr => (ptr, sys)
  | None =>
      let ptr := FindConsoleVariable Name (Console (engine sys)) in
      (ptr, set_cached (<[slot := Some ptr]> (cached sys)) sys)
  end.

(** [GetPhotographyManager] returns a manager or null. *)
Definition GetPhotographyManager (WorldContextObject : WorldContext) : bool :=
  if GEngine WorldContextObject then
    match World WorldContextObject with
    | Some _ => IsSupported WorldContextObject
    | None => false
    end
  else false.

(** The manager forwards to its provider, if it has one. *)
Definition on_provider (f : St -> St) (sys : System) : System :=
  match ActiveImpl sys with
  | Some p => let s := f (p, engine sys) in set_engine (snd s) (set_ActiveImpl (Some (fst s)) sys)
  | None => sys
  end.

Definition StartOrStopSession (bStartSession : bool) (WorldContextObject : WorldContext)
    (sys : System) : System :=
  if GetPhotographyManager WorldContextObject then
    if bStartSession then on_provider StartSession sys
    else on_provider StopSession sys
  else sys.

Definition StartSession := StartOrStopSession true.
Definition StopSession := StartOrStopSession false.

Definition GetInt_at (k : string) (con : ConsoleManager) : Z :=
  from_option GetInt 0%Z (deref k con).

Definition IsPhotographyAvailable (sys : System) : bool * System :=
  let '(CVarPhotographyAvailable, sys) :=
    static_FindConsoleVariable in_IsPhotographyAvailable "r.Photography.Available" sys in
  (match CVarPhotographyAvailable with
   | Some k => negb (GetInt_at k (Console (engine sys)) =? 0)%Z
   | None => false
   end, sys).

Definition IsPhotographyAllowed (sys : System) : bool * System :=
  let '(CVarPhotographyAllowed, sys) :=
    static_FindConsoleVariable in_IsPhotographyAllowed "r.Photography.Allow" sys in
  (match CVarPhotographyAllowed with
   | Some k => negb (GetInt_at k (Console (engine sys)) =? 0)%Z
   | None => false
   end, sys).

(** The common shape of the setters: look the variable up once, set it when
    it was found. *)
Definition set_static_cvar (slot : StaticCVar) (Name : string) (v : Q) (sys : System)
    : System :=
  let '(CVar, sys) := static_FindConsoleVariable slot Name sys in
  match CVar with
  | Some k => set_engine (do_Set v k (engine sys)) sys
  | None => sys
  end.

Definition SetIsPhotographyAllowed (bIsPhotographyAllowed : bool) : System -> System :=
  set_static_cvar in_SetIsPhotographyAllowed "r.Photography.Allow"
    (if bIsPhotographyAllowed then 1 else 0).

Definition SetSettleFrames (NumSettleFrames : Z) : System -> System :=
  set_static_cvar in_SetSettleFrames "r.Photography.SettleFrames" (inject_Z NumSettleFrames).

Definition SetCameraMovementSpeed (TranslationSpeed : Q) : System -> System :=
  set_static_cvar in_SetCameraMovementSpeed "r.Photography.TranslationSpeed" TranslationSpeed.

Definition SetCameraConstraintCameraSize (CameraSize : Q) : System -> System :=
  set_static_cvar in_SetCameraConstraintCameraSize "r.Photography.Constrain.CameraSize"
    CameraSize.

Definition SetCameraConstraintDistance (MaxCameraDistance : Q) : System -> System :=
  set_static_cvar in_SetCameraConstraintDistance "r.Photography.Constrain.MaxCameraDistance"
    MaxCameraDistance.

Definition SetAutoPostprocess (bShouldAutoPostprocess : bool) : System -> System :=
  set_static_cvar in_SetAutoPostprocess "r.Photography.AutoPostprocess"
    (if bShouldAutoPostprocess then 1 else 0).

Definition SetAutoPause (bShouldAutoPause : bool) : System -> System :=
  set_static_cvar in_SetAutoPause "r.Photography.AutoPause"
    (if bShouldAutoPause then 1 else 0).

Definition SetUIControlVisibility (WorldContextObject : WorldContext)
    (UIControlTarget : nat) (bIsVisible : bool) (sys : System) : System :=
  if GetPhotographyManager WorldContextObject
  then on_provider (SetUIControlVisibility UIControlTarget bIsVisible) sys
  else sys.

(** [ConstrainCameraByDistance]; the result is [OutCameraLocation]. *)
Definition ConstrainCameraByDistance (WorldContextObject : WorldContext)
    (NewCameraLocation PreviousCameraLocation OriginalCameraLocation : FVector)
    (MaxDistance : R) : FVector :=
  if Rlt_dec MaxDistance 0 then NewCameraLocation
  else
    let MovementVector := FVector.sub NewCameraLocation OriginalCameraLocation in
    let MovementVector := FVector.GetClampedToMaxSize MovementVector MaxDistance in
    FVector.add OriginalCameraLocation MovementVector.

(** How a call of [ConstrainCameraByGeometry] ends: it returns, or it reads
    through a null [IConsoleVariable*]; either way [OutCameraLocation] holds
    the value last stored in it. *)
Inductive GeometryResult :=
  | Returned (OutCameraLocation : FVector) (sys : System)
  | NullDereference (OutCameraLocation : FVector).

Definition Out (r : GeometryResult) : FVector :=
  match r with
  | Returned OutCameraLocation _ => OutCameraLocation
  | NullDereference OutCameraLocation => OutCameraLocation
  end.

(** The value of the static [LastUnconfinedScreenshotCamera] once its
    declaration and the reset that follows it have run. *)
Definition tracked_origin (PreviousCameraLocation OriginalCameraLocation : FVector)
    (sys : System) : FVector :=
  if FVector.eq_dec PreviousCameraLocation OriginalCameraLocation
  then OriginalCameraLocation
  else default OriginalCameraLocation (LastUnconfinedScreenshotCamera sys).

Definition ConstrainCameraByGeometry (world : UWorld)
    (NewCameraLocation PreviousCameraLocation OriginalCameraLocation : FVector)
    (sys : System) : GeometryResult :=
  let OutCameraLocation := NewCameraLocation in
  let '(CVarConstrainCameraSizeLocal, sys) :=
    static_FindConsoleVariable in_ConstrainCameraByGeometry
      "r.Photography.Constrain.CameraSize" sys in
  match CVarConstrainCameraSizeLocal with
  | None => NullDereference OutCameraLocation
  | Some k =>
      let CameraRadius := GetFloat_at k (Console (engine sys)) in
      if Qltb CameraRadius 0 then Returned OutCameraLocation sys
      else
        let OpenSpaceRadius := (2 * CameraRadius)%Q in
        let Last := tracked_origin PreviousCameraLocation OriginalCameraLocation sys in
        let sys := set_LastUnconfinedScreenshotCamera (Some Last) sys in
        let SweepStart := Last in
        let SweepEnd := NewCameraLocation in
        let CastDirection := FVector.sub SweepEnd SweepStart in
        if FVector.IsNearlyZero CastDirection then Returned OutCameraLocation sys
        else
          let OutCameraLocation :=
            if OverlapAnyTestByChannel world Last CameraRadius then NewCameraLocation
            else
              match SweepSingleByChannel world SweepStart SweepEnd CameraRadius with
              | Some HitLocation => HitLocation
              | None => OutCameraLocation
              end in
          let OutCameraLocation :=
            if Rle_dec (FVector.DotProduct
                          (FVector.sub OutCameraLocation PreviousCameraLocation)
                          (FVector.sub NewCameraLocation PreviousCameraLocation)) 0
            then PreviousCameraLocation
            else OutCameraLocation in
          let OpenSpaceCheckPos :=
            FVector.add Last (FVector.sub OutCameraLocation PreviousCameraLocation) in
          let Last :=
            if negb (OverlapAnyTestByChannel world OpenSpaceCheckPos OpenSpaceRadius)
            then OpenSpaceCheckPos
            else if negb (OverlapAnyTestByChannel world OutCameraLocation OpenSpaceRadius)
                 then OutCameraLocation
                 else Last in
          Returned OutCameraLocation (set_LastUnconfinedScreenshotCamera (Some Last) sys)
  end.

End UAnselFunctionLibrary.

(** [FNVAnselCameraPhotographyPrivate::DefaultConstrainCamera]: first by
    distance, then against collision geometry. *)
Definition DefaultConstrainCamera (world : UAnselFunctionLibrary.UWorld)
    (PCMgr : UAnselFunctionLibrary.WorldContext)
    (NewCameraLocation PreviousCameraLocation OriginalCameraLocation : FVector)
    (sys : UAnselFunctionLibrary.System) : UAnselFunctionLibrary.GeometryResult :=
  let MaxDistance := CVarConstrainCameraDistance (Console (UAnselFunctionLibrary.engine sys)) in
  let ConstrainedLocation :=
    UAnselFunctionLibrary.ConstrainCameraByDistance PCMgr NewCameraLocation
      PreviousCameraLocation OriginalCameraLocation (Q2R MaxDistance) in
  UAnselFunctionLibrary.ConstrainCameraByGeometry world ConstrainedLocation
    PreviousCameraLocation OriginalCameraLocation sys.

(* ===================================================================== *)
(** * Sample states *)
(* ===================================================================== *)

(** A provider whose storage is all zeroes, and the provider the constructor
    makes of it. *)
Definition zero_settings : FPostProcessSettings :=
  {| bOverride := fun _ => false; Value := fun _ => 0%Q |}.

Definition zero_provider : Provider :=
  {| flag := fun _ => false;
     AnselCaptureInfo := kCaptureType360Mono;
     fTimeDilationBeforeSession := 0;
     RequiredFovType := kHorizontalFov;
     CurrentlyConfiguredFovType := kHorizontalFov;
     RequiredWorldToMeters := 0;
     CurrentlyConfiguredWorldToMeters := 0;
     NumFramesSinceSessionStart := 0;
     bEffectUIAllowed := fun _ => false;
     userControlId := fun _ => 0%Z;
     float_val := fun _ => 0%Q;
     bool_val := fun _ => false;
     UIControlRangeLower := fun _ => 0%Q;
     UIControlRangeUpper := fun _ => 0%Q;
     UEPostProcessingOriginal := zero_settings;
     InitialCVarMap := ∅ |}.

Definition registered (v : Q) (setby : Z) : ConsoleVariable :=
  {| cv_value := v; cv_setby := setby |}.

(** A console with the plugin's own variables at their defaults and a few of
    the engine's; the screen percentage was typed on the console. *)
Definition sample_console : ConsoleManager :=
  list_to_map [
    ("r.photography.allow", registered 1 ECVF_SetByConstructor);
    ("r.photography.enablemultipart", registered 1 ECVF_SetByConstructor);
    ("r.photography.settleframes", registered 10 ECVF_SetByConstructor);
    ("r.photography.translationspeed", registered 300 ECVF_SetByConstructor);
    ("r.photography.constrain.camerasize", registered 14 ECVF_SetByConstructor);
    ("r.photography.constrain.maxcameradistance", registered 2500 ECVF_SetByConstructor);
    ("r.photography.autopostprocess", registered 1 ECVF_SetByConstructor);
    ("r.photography.autopause", registered 1 ECVF_SetByConstructor);
    ("r.photography.allowhighquality", registered 1 ECVF_SetByConstructor);
    ("r.photography.extreme", registered 0 ECVF_SetByConstructor);
    ("r.photography.available", registered 1 ECVF_SetByConstructor);
    ("r.oneframethreadlag", registered 0 ECVF_SetByConstructor);
    ("r.motionblurquality", registered 4 ECVF_SetByConstructor);
    ("r.streaming.boost", registered 0.5 ECVF_SetByConstructor);
    ("r.screenpercentage", registered 80 ECVF_SetByConsole);
    ("r.viewdistancescale", registered 1 ECVF_SetByConstructor);
    ("r.shadowquality", registered 3 ECVF_SetByConstructor);
    ("r.disablelodfade", registered 0 ECVF_SetByConstructor)
  ].

Definition sample_engine : Engine :=
  {| Console := sample_console;
     Paused := false;
     TimeDilation := 1;
     bIsCameraMoveableWhenPaused := false;
     GAreScreenMessagesEnabled := true;
     MyHUD := Some true;
     SubtitlesEnabled := true;
     bEnableFading := true;
     GIsEditor := false;
     RayTracingEnabled := false;
     Effects := [] |}.

Definition loaded_module : FAnselModule.Statics :=
  {| FAnselModule.AnselSDKDLLHandle := 4096; FAnselModule.bAnselDLLLoaded := true |}.

Definition fresh_provider : Provider :=
  fst (FAnselModule.constructor loaded_module zero_provider sample_engine).

Definition sample_frame : FrameEnv :=
  {| Orthographic := false;
     GameViewport := Some ESplitScreenType_None;
     IsStereoscopic3D := false;
     WorldToMeters := Some 100%Q;
     LocalPlayerView := Some (1920, 1080, AspectRatio_MaintainXFOV)%Z;
     CursorValid := true |}.

Definition splitscreen_frame : FrameEnv :=
  {| Orthographic := true;
     GameViewport := Some TwoPlayer_Horizontal;
     IsStereoscopic3D := false;
     WorldToMeters := Some 100%Q;
     LocalPlayerView := Some (1920, 1080, AspectRatio_MaintainXFOV)%Z;
     CursorValid := true |}.

Definition no_settings : SessionConfiguration :=
  {| isTranslationAllowed := false; isFovChangeAllowed := false; isRotationAllowed := false;
     isPauseAllowed := false; isHighresAllowed := false; is360MonoAllowed := false;
     is360StereoAllowed := false |}.

(* ===================================================================== *)
(** * Observations used by the statements *)
(* ===================================================================== *)

(** Flags that stay fixed while a session runs: the session flags themselves
    and what the session start saved. *)
Definition stable (f : Flag) : bool :=
  match f with
  | bAnselSessionActive | bAnselSessionNewlyActive | bAnselSessionWantDeactivate
  | bWasMovableCameraBeforeSession | bWasPausedBeforeSession
  | bWasShowingHUDBeforeSession | bWereSubtitlesEnabledBeforeSession
  | bWasFadingEnabledBeforeSession | bWasScreenMessagesEnabledBeforeSession
  | bAutoPostprocess | bAutoPause => true
  | _ => false
  end.

(** The calls by which a session shows on the engine: its two notifications
    and the calls that change pausing, time, HUD and subtitles. *)
Definition significant (x : Effect) : bool :=
  match x with
  | OnPhotographySessionStart | OnPhotographySessionEnd
  | SetPause _ | SetTimeDilation _ | ShowHUD | SetSubtitlesEnabled _ => true
  | _ => false
  end.

Definition calls (e : Engine) : list Effect := List.filter significant (Effects e).

Definition session_notification (x : Effect) : bool :=
  match x with
  | OnPhotographySessionStart | OnPhotographySessionEnd => true
  | _ => false
  end.

Definition pause_call (x : Effect) : bool :=
  match x with
  | SetPause _ | SetTimeDilation _ => true
  | _ => false
  end.

Definition is_frame (ev : Event) : bool :=
  match ev with
  | EvUpdateCamera _ => true
  | _ => false
  end.

(** Number of [UpdateCamera] calls in a trace. *)
Definition frames (evs : list Event) : Z :=
  Z.of_nat (length (List.filter is_frame evs)).

(** The engine state a session is expected to leave as it found it. *)
Record EngineView := {
  vPaused : bool;
  vTimeDilation : Q;
  vMoveable : bool;
  vScreenMessages : bool;
  vHUD : option bool;
  vSubtitles : bool;
  vFading : bool
}.

Definition view (e : Engine) : EngineView :=
  {| vPaused := Paused e;
     vTimeDilation := TimeDilation e;
     vMoveable := bIsCameraMoveableWhenPaused e;
     vScreenMessages := GAreScreenMessagesEnabled e;
     vHUD := MyHUD e;
     vSubtitles := SubtitlesEnabled e;
     vFading := bEnableFading e |}.

(** Every entry of [InitialCVarMap] sits under the name of the variable it
    points to and holds that variable's value in [con0]; variables without an
    entry are as in [con0]. *)
Definition captured_ok (con0 : ConsoleManager) (M : gmap string CVarInfo)
    (con : ConsoleManager) : Prop :=
  forall k,
    match M !! k with
    | Some info =>
        cvar info = Some k /\
        exists c0 c, con0 !! k = Some c0 /\ con !! k = Some c /\ fInitialVal info = cv_value c0
    | None => con !! k = con0 !! k
    end.

(** What a statement may do between two frames of a running session without
    disturbing it. *)
Record quiet (s s' : St) : Prop := {
  quiet_flags : forall f, stable f = true -> flag (fst s') f = flag (fst s) f;
  quiet_dilation : fTimeDilationBeforeSession (fst s') = fTimeDilationBeforeSession (fst s);
  quiet_frames : NumFramesSinceSessionStart (fst s') = NumFramesSinceSessionStart (fst s);
  quiet_view : view (snd s') = view (snd s);
  quiet_editor : GIsEditor (snd s') = GIsEditor (snd s);
  quiet_calls : calls (snd s') = calls (snd s);
  quiet_cvars : forall con0,
      captured_ok con0 (InitialCVarMap (fst s)) (Console (snd s)) ->
      captured_ok con0 (InitialCVarMap (fst s')) (Console (snd s'))
}.

(** Statements that are quiet from every state. *)
Definition quiet_stmt (f : St -> St) : Prop := forall s, quiet s (f s).

(** A change of the provider that leaves the session's own members alone. *)
Definition unrelated (g : Provider -> Provider) : Prop :=
  forall p,
    (forall f, stable f = true -> flag (g p) f = flag p f) /\
    fTimeDilationBeforeSession (g p) = fTimeDilationBeforeSession p /\
    NumFramesSinceSessionStart (g p) = NumFramesSinceSessionStart p /\
    InitialCVarMap (g p) = InitialCVarMap p.

Definition running (s : St) : Prop :=
  flag (fst s) bAnselSessionActive = true /\
  flag (fst s) bAnselSessionNewlyActive = false /\
  flag (fst s) bAnselSessionWantDeactivate = false.

(** The frame counter advanced by one. *)
Definition tick (s : St) : St :=
  (set_NumFramesSinceSessionStart (wrap32 (NumFramesSinceSessionStart (fst s) + 1)) (fst s),
   snd s).

Definition pausing (p : Provider) : bool :=
  (NumFramesSinceSessionStart p =? 2)%Z && flag p bAutoPause
  && negb (flag p bWasPausedBeforeSession).

Definition with_Paused (b : bool) (v : EngineView) : EngineView :=
  {| vPaused := b; vTimeDilation := vTimeDilation v; vMoveable := vMoveable v;
     vScreenMessages := vScreenMessages v; vHUD := vHUD v; vSubtitles := vSubtitles v;
     vFading := vFading v |}.

(** What a frame of a running session does. *)
Record frame_effect (s s' : St) : Prop := {
  fe_flags : forall f, stable f = true -> flag (fst s') f = flag (fst s) f;
  fe_dilation : fTimeDilationBeforeSession (fst s') = fTimeDilationBeforeSession (fst s);
  fe_frames : NumFramesSinceSessionStart (fst s') = NumFramesSinceSessionStart (fst s);
  fe_editor : GIsEditor (snd s') = GIsEditor (snd s);
  fe_console : Console (snd s') = Console (snd s);
  fe_map : InitialCVarMap (fst s') = InitialCVarMap (fst s);
  fe_view : view (snd s') =
            (if pausing (fst s) then with_Paused true (view (snd s)) else view (snd s));
  fe_calls : calls (snd s') = calls (snd s) ++ (if pausing (fst s) then [SetPause true] else [])
}.

(** What the first frame of a session does, in terms of the engine [e] it
    found. *)
Record start_effect (s s' : St) : Prop := {
  se_active : flag (fst s') bAnselSessionActive = flag (fst s) bAnselSessionActive;
  se_want : flag (fst s') bAnselSessionWantDeactivate = flag (fst s) bAnselSessionWantDeactivate;
  se_newly : flag (fst s') bAnselSessionNewlyActive = false;
  se_paused : flag (fst s') bWasPausedBeforeSession = Paused (snd s);
  se_moveable : flag (fst s') bWasMovableCameraBeforeSession = bIsCameraMoveableWhenPaused (snd s);
  se_messages : flag (fst s') bWasScreenMessagesEnabledBeforeSession
                = GAreScreenMessagesEnabled (snd s);
  se_fading : flag (fst s') bWasFadingEnabledBeforeSession = bEnableFading (snd s);
  se_hud : flag (fst s') bWasShowingHUDBeforeSession = default false (MyHUD (snd s));
  se_subtitles : flag (fst s') bWereSubtitlesEnabledBeforeSession = SubtitlesEnabled (snd s);
  se_autopause : flag (fst s') bAutoPause
                 = negb (CVarPhotographyAutoPause (Console (snd s)) =? 0)%Z;
  se_autopostprocess : flag (fst s') bAutoPostprocess
                       = negb (CVarPhotographyAutoPostprocess (Console (snd s)) =? 0)%Z;
  se_frames : NumFramesSinceSessionStart (fst s') = 0%Z;
  se_dilation : flag (fst s') bAutoPause && negb (Paused (snd s)) = true ->
                fTimeDilationBeforeSession (fst s') = TimeDilation (snd s);
  se_view : view (snd s') =
    {| vPaused := Paused (snd s);
       vTimeDilation := if flag (fst s') bAutoPause && negb (Paused (snd s))
                        then 0%Q else TimeDilation (snd s);
       vMoveable := true;
       vScreenMessages := false;
       vHUD := if flag (fst s') bAutoPostprocess && default false (MyHUD (snd s))
               then negb <$> MyHUD (snd s) else MyHUD (snd s);
       vSubtitles := if flag (fst s') bAutoPostprocess then false else SubtitlesEnabled (snd s);
       vFading := if flag (fst s') bAutoPostprocess then false else bEnableFading (snd s) |};
  se_editor : GIsEditor (snd s') = GIsEditor (snd s);
  se_cvars : forall con0,
      captured_ok con0 (InitialCVarMap (fst s)) (Console (snd s)) ->
      captured_ok con0 (InitialCVarMap (fst s')) (Console (snd s'));
  se_calls : calls (snd s') =
    calls (snd s) ++ [OnPhotographySessionStart]
    ++ (if flag (fst s') bAutoPause && negb (Paused (snd s)) then [SetTimeDilation 0] else [])
    ++ (if flag (fst s') bAutoPostprocess
        then (if default false (MyHUD (snd s)) then [ShowHUD] else [])
             ++ [SetSubtitlesEnabled false]
        else [])
}.

(** Every entry of the map points to the variable it is filed under. *)
Definition filed (M : gmap string CVarInfo) : Prop :=
  forall k i, M !! k = Some i -> cvar i = Some k.

(** What the last frame of a session does. *)
Record end_effect (env : FrameEnv) (s s' : St) : Prop := {
  ee_active : flag (fst s') bAnselSessionActive = false;
  ee_want : flag (fst s') bAnselSessionWantDeactivate = false;
  ee_newly : flag (fst s') bAnselSessionNewlyActive = flag (fst s) bAnselSessionNewlyActive;
  ee_map : InitialCVarMap (fst s') = ∅;
  ee_console : filed (InitialCVarMap (fst s)) ->
    forall k, Console (snd s') !! k =
              match InitialCVarMap (fst s) !! k with
              | Some i => cvSetWithCurrentPriority (fInitialVal i) <$> Console (snd s) !! k
              | None => Console (snd s) !! k
              end;
  ee_editor : GIsEditor (snd s') = GIsEditor (snd s);
  ee_view : view (snd s') =
    let p := fst s in
    let e := snd s in
    let unpause := flag p bAutoPause && negb (flag p bWasPausedBeforeSession) in
    {| vPaused := if unpause then false else Paused e;
       vTimeDilation := if unpause then fTimeDilationBeforeSession p else TimeDilation e;
       vMoveable := flag p bWasMovableCameraBeforeSession;
       vScreenMessages := flag p bWasScreenMessagesEnabledBeforeSession;
       vHUD := if flag p bAutoPostprocess && flag p bWasShowingHUDBeforeSession
               then negb <$> MyHUD e else MyHUD e;
       vSubtitles := if flag p bAutoPostprocess && flag p bWereSubtitlesEnabledBeforeSession
                     then true else SubtitlesEnabled e;
       vFading := if flag p bAutoPostprocess && flag p bWasFadingEnabledBeforeSession
                  then true else bEnableFading e |};
  ee_calls : calls (snd s') =
    let p := fst s in
    calls (snd s)
    ++ (if flag p bAutoPostprocess
        then (if flag p bWasShowingHUDBeforeSession then [ShowHUD] else [])
             ++ (if flag p bWereSubtitlesEnabledBeforeSession
                 then [SetSubtitlesEnabled true] else [])
        else [])
    ++ (if flag p bAutoPause && negb (flag p bWasPausedBeforeSession)
        then [SetTimeDilation (fTimeDilationBeforeSession p); SetPause false] else [])
    ++ [OnPhotographySessionEnd]
}.

(** How often the frame counter, a 32-bit unsigned, has read 2 after [n]
    frames. *)
Definition pauses (n : Z) : nat := Z.to_nat ((n + 2 ^ 32 - 2) / 2 ^ 32).

(** A session that runs: what holds [n] frames after its first frame, for a
    session that found the engine as [v0] and the significant calls so far
    as [c0]. *)
Record session_inv (v0 : EngineView) (c0 : list Effect) (n : Z) (s : St) : Prop := {
  si_running : running s;
  si_paused : flag (fst s) bWasPausedBeforeSession = vPaused v0;
  si_moveable : flag (fst s) bWasMovableCameraBeforeSession = vMoveable v0;
  si_messages : flag (fst s) bWasScreenMessagesEnabledBeforeSession = vScreenMessages v0;
  si_fading : flag (fst s) bWasFadingEnabledBeforeSession = vFading v0;
  si_hud : flag (fst s) bWasShowingHUDBeforeSession = default false (vHUD v0);
  si_subtitles : flag (fst s) bWereSubtitlesEnabledBeforeSession = vSubtitles v0;
  si_frames : NumFramesSinceSessionStart (fst s) = wrap32 n;
  si_dilation : flag (fst s) bAutoPause && negb (vPaused v0) = true ->
                fTimeDilationBeforeSession (fst s) = vTimeDilation v0;
  si_view : view (snd s) =
    {| vPaused := if flag (fst s) bAutoPause && negb (vPaused v0)
                  then bool_decide (pauses n <> 0%nat) else vPaused v0;
       vTimeDilation := if flag (fst s) bAutoPause && negb (vPaused v0)
                        then 0%Q else vTimeDilation v0;
       vMoveable := true;
       vScreenMessages := false;
       vHUD := if flag (fst s) bAutoPostprocess && default false (vHUD v0)
               then negb <$> vHUD v0 else vHUD v0;
       vSubtitles := if flag (fst s) bAutoPostprocess then false else vSubtitles v0;
       vFading := if flag (fst s) bAutoPostprocess then false else vFading v0 |};
  si_calls : calls (snd s) =
    c0 ++ [OnPhotographySessionStart]
    ++ (if flag (fst s) bAutoPause && negb (vPaused v0) then [SetTimeDilation 0] else [])
    ++ (if flag (fst s) bAutoPostprocess
        then (if default false (vHUD v0) then [ShowHUD] else []) ++ [SetSubtitlesEnabled false]
        else [])
    ++ (if flag (fst s) bAutoPause && negb (vPaused v0)
        then repeat (SetPause true) (pauses n) else [])
}.

(** What the provider knows of a multi-part capture, and the statements
    that leave it alone. *)
Definition capture_state (p : Provider) : bool * CaptureType :=
  (flag p bAnselCaptureActive, AnselCaptureInfo p).

Definition keeps_capture (f : St -> St) : Prop :=
  forall s, capture_state (fst (f s)) = capture_state (fst s).

(** The pausing and time-dilation calls made so far, and the session
    notifications made so far. *)
Definition pause_calls (e : Engine) : list Effect := List.filter pause_call (Effects e).

Definition notifications (e : Engine) : list Effect :=
  List.filter session_notification (Effects e).

(** A provider on which the SDK just started a session, and what then
    happens in one: a post-processing update, frames, a toggled UI control
    and a stereo capture. *)
Definition sample_started : St :=
  snd (AnselStartSessionCallback no_settings (fresh_provider, sample_engine)).

Definition sample_session : list Event :=
  [EvUpdatePostProcessing zero_settings;
   EvUpdateCamera sample_frame;
   EvBoolCallback control_OLDSettings true;
   EvUpdatePostProcessing zero_settings;
   EvUpdateCamera sample_frame;
   EvChangeQualityCallback true;
   EvUpdatePostProcessing zero_settings;
   EvStartCaptureCallback kCaptureTypeStereo;
   EvUpdateCamera sample_frame;
   EvUpdatePostProcessing zero_settings;
   EvStopCaptureCallback;
   EvUpdateCamera sample_frame].

(** Traces from a provider fresh from its constructor.  In the first, the
    SDK starts a session, switches the high quality on and, after the game
    updated its post-processing, stops the session before any frame.  In the
    second, the SDK twice stops a session and starts the next between two
    frames.  In the last, the frame that ends a session sees a split screen
    and an orthographic projection. *)
Definition dropped_session : list Event :=
  [EvStartSessionCallback no_settings;
   EvChangeQualityCallback true;
   EvUpdatePostProcessing zero_settings;
   EvStopSessionCallback].

Definition restarted_sessions : list Event :=
  [EvStartSessionCallback no_settings; EvUpdateCamera sample_frame;
   EvStopSessionCallback; EvStartSessionCallback no_settings; EvUpdateCamera sample_frame;
   EvStopSessionCallback; EvStartSessionCallback no_settings; EvUpdateCamera sample_frame].

Definition session_ended_in_splitscreen : St :=
  run [EvStartSessionCallback no_settings; EvUpdateCamera sample_frame;
       EvStopSessionCallback; EvUpdateCamera splitscreen_frame]
      (fresh_provider, sample_engine).

(** A session in which a stereo capture is under way. *)
Definition sample_capturing : St :=
  run [EvUpdateCamera sample_frame; EvUpdatePostProcessing zero_settings;
       EvStartCaptureCallback kCaptureTypeStereo; EvUpdateCamera sample_frame]
      sample_started.

(** ** Observations on the function library *)

(** A library function that, at most, writes console variables: it leaves
    the provider and the tracked camera origin alone, and the engine it leaves
    differs from the one it found in the console only. *)
Definition cvar_only (f : UAnselFunctionLibrary.System -> UAnselFunctionLibrary.System)
    : Prop :=
  forall sys,
    UAnselFunctionLibrary.ActiveImpl (f sys) = UAnselFunctionLibrary.ActiveImpl sys /\
    UAnselFunctionLibrary.LastUnconfinedScreenshotCamera (f sys)
    = UAnselFunctionLibrary.LastUnconfinedScreenshotCamera sys /\
    UAnselFunctionLibrary.engine (f sys)
    = set_Console (Console (UAnselFunctionLibrary.engine (f sys)))
        (UAnselFunctionLibrary.engine sys).

(** The function-local static behind [slot] holds no variable: its
    declaration has not run yet, or the lookup it ran returned null. *)
Definition unresolved_static (slot : UAnselFunctionLibrary.StaticCVar)
    (sys : UAnselFunctionLibrary.System) : Prop :=
  UAnselFunctionLibrary.cached sys slot = None \/
  UAnselFunctionLibrary.cached sys slot = Some None.

(** A library function that does nothing when the variable [Name] behind
    its static [slot] is unknown to the console manager, apart from leaving
    the static null. *)
Definition skips_missing (slot : UAnselFunctionLibrary.StaticCVar) (Name : string)
    (f : UAnselFunctionLibrary.System -> UAnselFunctionLibrary.System) : Prop :=
  forall sys,
    Console (UAnselFunctionLibrary.engine sys) !! lower Name = None ->
    unresolved_static slot sys ->
    UAnselFunctionLibrary.engine (f sys) = UAnselFunctionLibrary.engine sys /\
    UAnselFunctionLibrary.ActiveImpl (f sys) = UAnselFunctionLibrary.ActiveImpl sys /\
    UAnselFunctionLibrary.LastUnconfinedScreenshotCamera (f sys)
    = UAnselFunctionLibrary.LastUnconfinedScreenshotCamera sys /\
    UAnselFunctionLibrary.cached (f sys) slot = Some None.

(** A world without geometry, a context that resolves to it, a process with
    a provider and the sample console, and one whose console knows no
    variable. *)
Definition open_world : UAnselFunctionLibrary.UWorld :=
  {| UAnselFunctionLibrary.OverlapAnyTestByChannel := fun _ _ => false;
     UAnselFunctionLibrary.SweepSingleByChannel := fun _ _ _ => None |}.

Definition sample_origin : FVector := FVector.ZeroVector.
Definition sample_target : FVector := FVector.mk 100 0 0.

Definition occupied_world : UAnselFunctionLibrary.UWorld :=
  {| UAnselFunctionLibrary.OverlapAnyTestByChannel := fun _ _ => true;
     UAnselFunctionLibrary.SweepSingleByChannel := fun _ _ _ => None |}.

Definition sample_context : UAnselFunctionLibrary.WorldContext :=
  {| UAnselFunctionLibrary.GEngine := true;
     UAnselFunctionLibrary.World := Some open_world;
     UAnselFunctionLibrary.IsSupported := true |}.

Definition sample_system : UAnselFunctionLibrary.System :=
  {| UAnselFunctionLibrary.cached := fun _ => None;
     UAnselFunctionLibrary.LastUnconfinedScreenshotCamera := None;
     UAnselFunctionLibrary.ActiveImpl := Some fresh_provider;
     UAnselFunctionLibrary.engine := sample_engine |}.

Definition bare_system : UAnselFunctionLibrary.System :=
  {| UAnselFunctionLibrary.cached := fun _ => None;
     UAnselFunctionLibrary.LastUnconfinedScreenshotCamera := None;
     UAnselFunctionLibrary.ActiveImpl := Some fresh_provider;
     UAnselFunctionLibrary.engine := set_Console ∅ sample_engine |}.

(** The sample process after [r.Photography.Constrain.CameraSize] was
    unregistered from the console manager. *)
Definition unregistered_system : UAnselFunctionLibrary.System :=
  UAnselFunctionLibrary.set_engine
    (set_Console (delete "r.photography.constrain.camerasize" sample_console) sample_engine)
    sample_system.

(** ** The console-variable sink *)

(** The delegate the constructor registers as a console-variable sink.  Its
    two function-local statics remember the translation speed and the settle
    frames it last saw; they start at -1. *)
Record SinkStatics := {
  LastTranslationSpeed : Q;
  LastSettleFrames : Z
}.

Definition sink_initial : SinkStatics :=
  {| LastTranslationSpeed := -1; LastSettleFrames := -1 |}.

Definition CVarDelegate (st : SinkStatics) (s : St) : SinkStatics * St :=
  let ThisTranslationSpeed := CVarPhotographyTranslationSpeed (Console (snd s)) in
  let ThisSettleFrames := CVarPhotographySettleFrames (Console (snd s)) in
  if negb (Qeq_bool ThisTranslationSpeed (LastTranslationSpeed st))
     || negb (ThisSettleFrames =? LastSettleFrames st)%Z
  then
    let s := ReconfigureAnsel s in
    ({| LastTranslationSpeed := ThisTranslationSpeed;
        LastSettleFrames := ThisSettleFrames |}, s)
  else (st, s).

(** ** Further observations *)

(** The calls that configure the SDK and register with the console manager,
    in order. *)
Definition registration (x : Effect) : bool :=
  match x with
  | ansel_setConfiguration _ _ _ _ | ansel_setConfiguration_cleared
  | RegisterConsoleVariableSink | UnregisterConsoleVariableSink => true
  | _ => false
  end.

Definition registrations (e : Engine) : list Effect := List.filter registration (Effects e).

(** The function-local static behind [slot] is still to be initialised, or
    holds the variable [Name]. *)
Definition resolves (slot : UAnselFunctionLibrary.StaticCVar) (Name : string)
    (sys : UAnselFunctionLibrary.System) : Prop :=
  UAnselFunctionLibrary.cached sys slot = None \/
  UAnselFunctionLibrary.cached sys slot = Some (Some (lower Name)).

(** A setter can take effect: its static is still to be initialised or
    holds the variable, the console manager knows the variable, and nothing
    of a higher priority than code has set it. *)
Definition settable (slot : UAnselFunctionLibrary.StaticCVar) (Name : string)
    (sys : UAnselFunctionLibrary.System) : Prop :=
  resolves slot Name sys /\
  exists c, Console (UAnselFunctionLibrary.engine sys) !! lower Name = Some c /\
            (cv_setby c <= ECVF_SetByCode)%Z.

(** A session started after [SetAutoPause(false)]. *)
Definition sample_started_unpaused : St :=
  snd (AnselStartSessionCallback no_settings
         (fresh_provider,
          UAnselFunctionLibrary.engine (UAnselFunctionLibrary.SetAutoPause false sample_system))).

(** A process in which [SetCameraConstraintCameraSize(-1)] disabled the
    geometry constraint. *)
Definition unconstrained_system : UAnselFunctionLibrary.System :=
  UAnselFunctionLibrary.SetCameraConstraintCameraSize (-1) sample_system.

(** Two providers that agree on everything but their flags and their map of
    captured variables. *)
Definition same_frame (p p' : Provider) : Prop :=
  set_InitialCVarMap ∅ (set_flag (fun _ => false) p')
  = set_InitialCVarMap ∅ (set_flag (fun _ => false) p).

(** A statement that brings [IsSetup] in line with [Desired] and leaves
    the rest of the provider's flags and fields alone; it does nothing at all
    when the two agree already. *)
Definition applies_toggle (IsSetup Desired : Flag) (f : St -> St) : Prop :=
  forall s,
    same_frame (fst s) (fst (f s)) /\
    (forall g, g <> IsSetup -> flag (fst (f s)) g = flag (fst s) g) /\
    flag (fst (f s)) IsSetup = flag (fst s) Desired /\
    (flag (fst s) IsSetup = flag (fst s) Desired -> f s = s).

(** The five quality toggles of the Ansel UI: the control, the flag it sets
    and the flag that records what is set up. *)
Definition quality_toggles : list (econtrols * Flag * Flag) :=
  [(control_OLDSettings, bHighLodDesired, bHighLodIsSetup);
   (control_LumenSettings, bHighLumenDesired, bHighLumenIsSetup);
   (control_SkylightSettings, bHighSkyLightDesired, bHighSkyLightIsSetup);
   (control_AntiAliasing, bHighAntiAliasingDesired, bHighAntiAliasingIsSetup);
   (control_sgQuality, bHighSgQualityDesired, bHighSgQualityIsSetup)].

(** Whether the rebuild of the controls declares a slider for a member of
    the post-process settings. *)
Definition slider_shown (allowed : nat -> bool) (PP : FPostProcessSettings)
    (F : PPField) : bool :=
  match F with
  | DepthOfFieldSensorWidth | DepthOfFieldFocalDistance
  | DepthOfFieldDepthBlurAmount | DepthOfFieldDepthBlurRadius =>
      allowed DepthOfField
      && (Qltb 0 (Value PP DepthOfFieldFstop) && Qltb 0 (Value PP DepthOfFieldFocalDistance))
  | BloomIntensity | BloomSizeScale => allowed Bloom && Qltb 0 (Value PP BloomIntensity)
  | SceneFringeIntensity =>
      allowed ChromaticAberration && Qltb 0 (Value PP SceneFringeIntensity)
  | _ => false
  end.

(** The condition that guards the high-quality block of
    [ConfigureRenderingSettingsForPhotography]. *)
Definition high_quality_gate (s : St) : bool :=
  negb (CVarAllowHighQuality (Console (snd s)) =? 0)%Z
  && differ bHighQualityModeIsSetup bHighQualityModeDesired s
  && (flag (fst s) bPausedInternally || negb (flag (fst s) bAutoPause)).

(** A session, outside a capture, whose post-processing has nothing left to
    do: the controls are built, every quality group is set up as its toggle
    says, and the high-quality block has nothing to change. *)
Definition settled (s : St) : Prop :=
  flag (fst s) bAnselSessionActive = true /\
  flag (fst s) bAnselCaptureActive = false /\
  flag (fst s) bUIControlsNeedRebuild = false /\
  Forall (fun '(c, Desired, IsSetup) =>
            flag (fst s) Desired = bool_val (fst s) c /\
            flag (fst s) IsSetup = bool_val (fst s) c) quality_toggles /\
  high_quality_gate s = false.

(** The variable under [k] as the quality groups may leave it, measured
    against the console [con0]: either it is not captured and is as in
    [con0]; or it is captured, registered with the priority it has in [con0],
    and its entry holds the value it has in [con0]. *)
Definition tracks (con0 : ConsoleManager) (k : string) (s : St) : Prop :=
  match InitialCVarMap (fst s) !! k with
  | None => Console (snd s) !! k = con0 !! k
  | Some info =>
      exists c c0, Console (snd s) !! k = Some c /\ con0 !! k = Some c0 /\
                   cv_setby c = cv_setby c0 /\ fInitialVal info = cv_value c0
  end.

(** The statements of a quality group: each sets one console variable to its
    boost value, or back to the captured value when the group's flag is off;
    a group may also write to the log. *)
Inductive group_stmt (Desired : Flag) : (St -> St) -> Prop :=
  | group_cvar NAME BOOSTVAL :
      group_stmt Desired
        (fun s => SetCapturedCVar NAME BOOSTVAL (negb (flag (fst s) Desired)) true s)
  | group_log x : group_stmt Desired (stmt_e (emit x)).

(** The block of [ConfigureRenderingSettingsForPhotography] that belongs to a
    toggle of the Ansel UI. *)
Definition group_block (c : econtrols) : St -> St :=
  match c with
  | control_OLDSettings => lod_settings
  | control_LumenSettings => lumen_settings
  | control_SkylightSettings => skylight_settings
  | control_AntiAliasing => antialiasing_settings
  | control_sgQuality => sg_quality_settings
  | _ => fun s => s
  end.

(** A running session, its controls built, on an engine that also has the
    variable [r.ForceLOD] of the level-of-detail group. *)
Definition sample_settled : St :=
  run [EvUpdateCamera sample_frame; EvUpdatePostProcessing zero_settings]
      (snd (AnselStartSessionCallback no_settings
              (fresh_provider,
               set_Console (<["r.forcelod" := registered (-1) ECVF_SetByConstructor]>
                              sample_console) sample_engine))).

(** The sliders [DoCustomUIControls] may declare: the control, the member of
    the post-process settings it drives, and the range it is declared with. *)
Definition sliders : list (econtrols * PPField * Q * Q) :=
  [(control_dofsensorwidth, DepthOfFieldSensorWidth, 0.1%Q, 1000%Q);
   (control_doffocaldistance, DepthOfFieldFocalDistance, 0%Q, 1000%Q);
   (control_dofdepthbluramount, DepthOfFieldDepthBlurAmount, 0.000001%Q, 1%Q);
   (control_dofdepthblurradius, DepthOfFieldDepthBlurRadius, 0%Q, 4%Q);
   (control_bloomintensity, BloomIntensity, 0%Q, 8%Q);
   (control_bloomscale, BloomSizeScale, 0%Q, 64%Q);
   (control_scenefringeintensity, SceneFringeIntensity, 0%Q, 15%Q)].

(** One slider applied to the settings [S], if it is shown, at the position
    [fv] holds for its control. *)
Definition slider_step (shown : PPField -> bool) (fv : econtrols -> Q)
    (S : FPostProcessSettings) (x : econtrols * PPField * Q * Q) : FPostProcessSettings :=
  let '(id, F, LowerBound, UpperBound) := x in
  if shown F
  then set_bOverride F true (set_Value F (Lerp LowerBound UpperBound (fv id)) S)
  else S.

(** The settings [S] with all the sliders applied. *)
Definition apply_sliders (shown : PPField -> bool) (fv : econtrols -> Q)
    (S : FPostProcessSettings) : FPostProcessSettings :=
  fold_left (slider_step shown fv) sliders S.

(** Statements that change nothing in the provider but its map of captured
    variables. *)
Definition only_captures (f : St -> St) : Prop :=
  forall s, exists M, fst (f s) = set_InitialCVarMap M (fst s).

(* ===================================================================== *)
(** * Basic facts *)
(* ===================================================================== *)

Lemma flag_set_eq f b p : flag (set f b p) f = b.
Proof. unfold set; simpl. apply fn_lookup_insert. Qed.

Lemma flag_set_ne f g b p : f <> g -> flag (set f b p) g = flag p g.
Proof. intros H. unfold set; simpl. by apply fn_lookup_insert_ne. Qed.

Lemma flag_set_stable f g b p : stable f = false -> stable g = true ->
  flag (set f b p) g = flag p g.
Proof. intros Hf Hg. apply flag_set_ne. intros ->. congruence. Qed.

Lemma calls_emit x e :
  calls (emit x e) = calls e ++ (if significant x then [x] else []).
Proof.
  unfold calls, emit; simpl. rewrite List.filter_app. simpl.
  destruct (significant x); reflexivity.
Qed.

Lemma quiet_refl s : quiet s s.
Proof. by constructor. Qed.

Lemma quiet_trans s1 s2 s3 : quiet s1 s2 -> quiet s2 s3 -> quiet s1 s3.
Proof.
  intros [A1 A2 A3 A4 A5 A6 A7] [B1 B2 B3 B4 B5 B6 B7]. constructor.
  - intros f Hf. rewrite B1, A1; auto.
  - congruence.
  - congruence.
  - congruence.
  - congruence.
  - congruence.
  - auto.
Qed.

Lemma quiet_sequence fs : Forall quiet_stmt fs -> quiet_stmt (sequence fs).
Proof.
  unfold sequence. induction 1 as [| f fs Hf _ IH]; intros s; simpl.
  - apply quiet_refl.
  - eapply quiet_trans; [apply Hf | apply IH].
Qed.

Lemma quiet_when c fs : Forall quiet_stmt fs -> quiet_stmt (when c fs).
Proof.
  intros H s. unfold when. destruct (c s); [by apply quiet_sequence | apply quiet_refl].
Qed.

Lemma quiet_emit x : significant x = false -> quiet_stmt (stmt_e (emit x)).
Proof.
  intros Hx [p e]. constructor; simpl; auto.
  rewrite calls_emit, Hx. apply app_nil_r.
Qed.

Lemma captured_ok_alter con0 M con f k :
  is_Some (M !! k) ->
  captured_ok con0 M con -> captured_ok con0 M (store_cvar f k con).
Proof.
  intros [i Hi] H k'. specialize (H k'). unfold store_cvar.
  destruct (decide (k = k')) as [<- | Hne].
  - rewrite Hi in *. destruct H as [Hc (c0 & c & H0 & H1 & H2)]. split; [done|].
    exists c0, (f c). rewrite lookup_alter_eq, H1. done.
  - rewrite lookup_alter_ne by done. exact H.
Qed.

Lemma captured_ok_capture con0 M con k c :
  M !! k = None -> con !! k = Some c ->
  captured_ok con0 M con ->
  captured_ok con0 (<[k := {| cvar := Some k; fInitialVal := GetFloat c |}]> M) con.
Proof.
  intros HM Hc H k'. destruct (decide (k = k')) as [<- | Hne].
  - rewrite lookup_insert_eq. split; [done|]. specialize (H k). rewrite HM in H.
    exists c, c. rewrite <- H. done.
  - rewrite lookup_insert_ne by done. apply H.
Qed.

Lemma quiet_SetCapturedCVarPredicated CVarName v cmp wantReset useExistingPriority :
  quiet_stmt (SetCapturedCVarPredicated CVarName v cmp wantReset useExistingPriority).
Proof.
  intros [p e]. unfold SetCapturedCVarPredicated, Contains, CaptureCVar, FindConsoleVariable.
  simpl.
  destruct (InitialCVarMap p !! lower CVarName) as [i|] eqn:HM; simpl.
  - rewrite HM. destruct i as [[k|] v0]; simpl.
    + destruct (cmp v v0); [destruct useExistingPriority|]; constructor; simpl; auto.
      all: intros con0 H; pose proof (H (lower CVarName)) as Hk; rewrite HM in Hk; simpl in Hk;
        destruct Hk as [[= ->] _]; apply captured_ok_alter; auto; by rewrite HM.
    + apply (quiet_emit (UE_LOG _) eq_refl (p, e)).
  - destruct (Console e !! lower CVarName) as [c|] eqn:Hc; simpl.
    + rewrite lookup_insert_eq. simpl.
      assert (Hcap : forall con0, captured_ok con0 (InitialCVarMap p) (Console e) ->
                captured_ok con0 (<[lower CVarName := {| cvar := Some (lower CVarName);
                   fInitialVal := GetFloat_at (lower CVarName) (Console e) |}]> (InitialCVarMap p)) (Console e)).
      { intros con0 H. unfold GetFloat_at, deref. rewrite Hc. simpl. by apply captured_ok_capture. }
      destruct (cmp v _); [destruct useExistingPriority|]; constructor; simpl; auto.
      all: intros con0 H; apply captured_ok_alter; auto; by rewrite lookup_insert_eq.
    + apply (quiet_emit (UE_LOG _) eq_refl (p, e)).
Qed.

Lemma quiet_SetCapturedCVar CVarName v wantReset useExistingPriority :
  quiet_stmt (SetCapturedCVar CVarName v wantReset useExistingPriority).
Proof. apply quiet_SetCapturedCVarPredicated. Qed.

Lemma quiet_stmt_p g : unrelated g -> quiet_stmt (stmt_p g).
Proof.
  intros H [p e]. destruct (H p) as (H1 & H2 & H3 & H4).
  constructor; simpl; auto. intros con0. by rewrite H4.
Qed.

Lemma unrelated_set f b : stable f = false -> unrelated (set f b).
Proof.
  intros Hf p. repeat split; try reflexivity.
  intros g Hg. by apply flag_set_stable.
Qed.

Lemma unrelated_set_dep f (b : Provider -> bool) :
  stable f = false -> unrelated (fun p => set f (b p) p).
Proof.
  intros Hf p. repeat split; try reflexivity.
  intros g Hg. by apply flag_set_stable.
Qed.

Lemma unrelated_compose g h : unrelated g -> unrelated h -> unrelated (fun p => h (g p)).
Proof.
  intros Hg Hh p. destruct (Hg p) as (A1 & A2 & A3 & A4), (Hh (g p)) as (B1 & B2 & B3 & B4).
  repeat split; try congruence. intros f Hf. rewrite B1, A1; auto.
Qed.

Lemma unrelated_ProcessUIBool id member :
  stable member = false -> unrelated (ProcessUIBool id member).
Proof.
  intros Hm p. unfold ProcessUIBool.
  destruct (userControlId p id <=? 0)%Z.
  - apply (unrelated_compose (set member false) (fun q => set member (bool_val q id) q));
      [by apply unrelated_set | by apply unrelated_set_dep].
  - by apply (unrelated_set_dep member (fun q => bool_val q id)).
Qed.

Ltac unrelated_tac :=
  first [ apply unrelated_set; reflexivity
        | apply unrelated_set_dep; reflexivity
        | apply unrelated_ProcessUIBool; reflexivity
        | (intros ?; repeat split; reflexivity) ].

Ltac quiet_tac :=
  repeat first
    [ apply Forall_nil
    | apply Forall_cons; [| ]
    | apply quiet_SetCapturedCVarPredicated
    | apply quiet_SetCapturedCVar
    | apply quiet_emit; reflexivity
    | apply quiet_when
    | apply quiet_sequence
    | apply quiet_stmt_p; unrelated_tac ].

Lemma quiet_DeclareSlider id lo hi v : quiet_stmt (DeclareSlider id lo hi v).
Proof. unfold DeclareSlider. quiet_tac. Qed.

Lemma quiet_DeclareBool id v : quiet_stmt (DeclareBool id v).
Proof. unfold DeclareBool. quiet_tac. Qed.

Lemma quiet_clear_control i : quiet_stmt (clear_control i).
Proof.
  intros [p e]. unfold clear_control. destruct (0 <? userControlId p i)%Z; [| apply quiet_refl].
  eapply quiet_trans.
  - apply (quiet_stmt_p (fun p => set_userControlId (<[i := 0%Z]> (userControlId p)) p)).
    unrelated_tac.
  - apply (quiet_emit (ansel_removeUserControl (userControlId p i)) eq_refl).
Qed.

Lemma quiet_rebuild_controls PP : quiet_stmt (rebuild_controls PP).
Proof.
  unfold rebuild_controls.
  apply quiet_sequence. apply Forall_cons.
  { apply quiet_sequence. unfold all_controls; simpl.
    repeat (apply Forall_cons; [apply quiet_clear_control|]). apply Forall_nil. }
  repeat lazymatch goal with
         | |- Forall _ [] => apply Forall_nil
         | |- Forall _ (_ :: _) => apply Forall_cons
         | |- quiet_stmt (DeclareBool _ _) => apply quiet_DeclareBool
         | |- quiet_stmt (DeclareSlider _ _ _ _) => apply quiet_DeclareSlider
         | |- quiet_stmt (when _ _) => apply quiet_when
         | |- quiet_stmt (stmt_p _) => apply quiet_stmt_p; unrelated_tac
         end.
Qed.

Lemma quiet_DoCustomUIControls PP b s : quiet s (snd (DoCustomUIControls PP b s)).
Proof.
  unfold DoCustomUIControls.
  set (s1 := if b then rebuild_controls PP s else s).
  assert (H1 : quiet s s1).
  { subst s1. destruct b; [apply quiet_rebuild_controls | apply quiet_refl]. }
  eapply quiet_trans; [exact H1|]. simpl.
  apply (quiet_stmt_p
    (fun p => ProcessUIBool control_sgQuality bHighSgQualityDesired
      (ProcessUIBool control_AntiAliasing bHighAntiAliasingDesired
        (ProcessUIBool control_SkylightSettings bHighSkyLightDesired
          (ProcessUIBool control_LumenSettings bHighLumenDesired
            (ProcessUIBool control_OLDSettings bHighLodDesired p))))) ).
  repeat (apply (fun g h Hg Hh => unrelated_compose g h Hg Hh); [| unrelated_tac]).
  unrelated_tac.
Qed.

Lemma quiet_copy_flag member other : stable member = false -> quiet_stmt (copy_flag member other).
Proof. intros H. apply quiet_stmt_p. by apply unrelated_set_dep. Qed.

Ltac quiet_item :=
  lazymatch goal with
  | |- quiet_stmt (copy_flag _ _) => apply quiet_copy_flag; reflexivity
  | |- quiet_stmt (stmt_e (emit _)) => apply quiet_emit; reflexivity
  | |- quiet_stmt (SetCapturedCVar _ _ _ _) => apply quiet_SetCapturedCVar
  | |- quiet_stmt (when _ _) => apply quiet_when
  | |- quiet_stmt (?m _ _) =>
      unfold m; intros ?;
      first [apply quiet_SetCapturedCVar | apply quiet_SetCapturedCVarPredicated]
  end.

Ltac quiet_list :=
  repeat lazymatch goal with
         | |- Forall _ [] => apply Forall_nil
         | |- Forall _ (_ :: _) => apply Forall_cons; [quiet_item |]
         end.

Lemma quiet_lod_settings : quiet_stmt lod_settings.
Proof. apply quiet_when. quiet_list. Qed.

Lemma quiet_lumen_settings : quiet_stmt lumen_settings.
Proof. apply quiet_when. quiet_list. Qed.

Lemma quiet_skylight_settings : quiet_stmt skylight_settings.
Proof. apply quiet_when. quiet_list. Qed.

Lemma quiet_sg_quality_settings : quiet_stmt sg_quality_settings.
Proof. apply quiet_when. quiet_list. Qed.

Lemma quiet_antialiasing_settings : quiet_stmt antialiasing_settings.
Proof. apply quiet_when. quiet_list. Qed.

Lemma quiet_raytracing_quality : Forall quiet_stmt raytracing_quality.
Proof. unfold raytracing_quality. quiet_list. Qed.

Lemma quiet_extreme_raytracing_quality : Forall quiet_stmt extreme_raytracing_quality.
Proof. unfold extreme_raytracing_quality. quiet_list. Qed.

Lemma quiet_extreme_quality : Forall quiet_stmt extreme_quality.
Proof.
  unfold extreme_quality. quiet_list. apply quiet_extreme_raytracing_quality.
Qed.

Lemma quiet_high_quality_settings : quiet_stmt high_quality_settings.
Proof.
  apply quiet_when. quiet_list.
  - apply quiet_raytracing_quality.
  - apply quiet_extreme_quality.
Qed.

Lemma quiet_capture_streaming_settings : quiet_stmt capture_streaming_settings.
Proof. apply quiet_sequence. quiet_list. Qed.

Lemma quiet_SetUpSessionCVars : quiet_stmt SetUpSessionCVars.
Proof. apply quiet_sequence. quiet_list. Qed.

Lemma quiet_ConfigureRenderingSettingsForPhotography PP s :
  quiet s (snd (ConfigureRenderingSettingsForPhotography PP s)).
Proof.
  unfold ConfigureRenderingSettingsForPhotography.
  cbv zeta. match goal with |- context [sequence ?l s] => set (s1 := sequence l s) end.
  assert (H1 : quiet s s1).
  { apply quiet_sequence.
    repeat (apply Forall_cons; [first [apply quiet_lod_settings | apply quiet_lumen_settings
      | apply quiet_skylight_settings | apply quiet_sg_quality_settings
      | apply quiet_antialiasing_settings | apply quiet_high_quality_settings]|]).
    apply Forall_nil. }
  destruct (flag (fst s1) bAnselCaptureActive); [| exact H1].
  assert (H2 : quiet s (capture_streaming_settings s1)).
  { eapply quiet_trans; [exact H1 | apply quiet_capture_streaming_settings]. }
  destruct (flag (fst (capture_streaming_settings s1)) bAutoPostprocess); exact H2.
Qed.

Lemma quiet_UpdatePostProcessing PP s : quiet s (snd (UpdatePostProcessing PP s)).
Proof.
  unfold UpdatePostProcessing.
  destruct (flag (fst s) bAnselSessionActive); [| apply quiet_refl].
  pose proof (quiet_DoCustomUIControls PP (flag (fst s) bUIControlsNeedRebuild) s) as H.
  destruct (DoCustomUIControls PP (flag (fst s) bUIControlsNeedRebuild) s) as [PP' s'].
  eapply quiet_trans; [exact H | apply quiet_ConfigureRenderingSettingsForPhotography].
Qed.

(** Every event that is neither a frame nor a session callback is quiet. *)
Lemma quiet_step ev s :
  in_session ev = true -> is_frame ev = false -> quiet s (step ev s).
Proof.
  destruct ev; simpl; try discriminate; intros _ _.
  - apply quiet_UpdatePostProcessing.
  - destruct s as [p e]. unfold AnselStartCaptureCallback.
    eapply quiet_trans; [| apply (quiet_emit (UE_LOG _) eq_refl (_, e))].
    apply (quiet_stmt_p (fun p => set_AnselCaptureInfo CaptureInfo
             (set bAnselCaptureNewlyActive true (set bAnselCaptureActive true p)))).
    intros q. repeat split; try reflexivity. intros f Hf.
    change (flag (set bAnselCaptureNewlyActive true (set bAnselCaptureActive true q)) f = flag q f).
    rewrite !flag_set_stable; auto.
  - destruct s as [p e]. unfold AnselStopCaptureCallback.
    eapply quiet_trans; [| apply (quiet_emit (UE_LOG _) eq_refl (_, e))].
    apply (quiet_stmt_p (fun p => set bAnselCaptureNewlyFinished true (set bAnselCaptureActive false p))).
    intros q. repeat split; try reflexivity. intros f Hf.
    rewrite !flag_set_stable; auto.
  - destruct s as [p e]. unfold AnselChangeQualityCallback.
    eapply quiet_trans; [| apply (quiet_emit (UE_LOG _) eq_refl (_, e))].
    apply (quiet_stmt_p (set bHighQualityModeDesired isHighQuality)). unrelated_tac.
  - apply (quiet_stmt_p (fun p => set_float_val (<[id := v]> (float_val p)) p)). unrelated_tac.
  - apply (quiet_stmt_p (fun p => set_bool_val (<[id := v]> (bool_val p)) p)). unrelated_tac.
  - apply (quiet_stmt_p (fun p => set_bEffectUIAllowed (<[UIControlTarget := bIsVisible]> (bEffectUIAllowed p)) p)).
    unrelated_tac.
Qed.

#[local] Arguments UpdateCamera_no_session : simpl never.
#[local] Arguments UpdateCamera_deactivate : simpl never.
#[local] Arguments UpdateCamera_session_start : simpl never.
#[local] Arguments UpdateCamera_session_frame : simpl never.
#[local] Arguments UpdateCamera_capture_edges : simpl never.
#[local] Arguments SetUpSessionCVars : simpl never.
#[local] Arguments wrap32 : simpl never.
#[local] Arguments calls : simpl never.
#[local] Arguments view : simpl never.

Lemma quiet_tick s s1 : quiet s s1 -> quiet (tick s) (tick s1).
Proof.
  intros [A1 A2 A3 A4 A5 A6 A7]. constructor; simpl; auto. by rewrite A3.
Qed.

Lemma quiet_capture_edges s : quiet s (fst (UpdateCamera_capture_edges s)).
Proof.
  destruct s as [p e]. unfold UpdateCamera_capture_edges.
  destruct (flag p bAnselCaptureNewlyActive);
    [destruct (flag (set bAnselCaptureNewlyActive false p) bAnselCaptureNewlyFinished) |
     destruct (flag p bAnselCaptureNewlyFinished)];
    cbn [fst snd]; try apply quiet_refl.
  all: constructor; cbn [fst snd]; try reflexivity; auto.
  all: try (intros f Hf; rewrite !flag_set_stable; auto).
  all: rewrite !calls_emit; simpl; by rewrite !app_nil_r.
Qed.

Lemma capture_edges_console s :
  Console (snd (fst (UpdateCamera_capture_edges s))) = Console (snd s) /\
  InitialCVarMap (fst (fst (UpdateCamera_capture_edges s))) = InitialCVarMap (fst s).
Proof.
  destruct s as [p e]. unfold UpdateCamera_capture_edges.
  destruct (flag p bAnselCaptureNewlyActive);
    [destruct (flag (set bAnselCaptureNewlyActive false p) bAnselCaptureNewlyFinished) |
     destruct (flag p bAnselCaptureNewlyFinished)];
    split; reflexivity.
Qed.

(** A frame of an active session: after the counter ticked and the capture
    notifications went out, the session either ends or goes on. *)
Lemma UpdateCamera_active env s :
  flag (fst s) bAnselSessionActive = true ->
  exists s3,
    quiet (tick s) s3 /\
    fst (UpdateCamera env s) =
      (if flag (fst s3) bAnselSessionWantDeactivate then UpdateCamera_deactivate env s3
       else UpdateCamera_session_frame s3) /\
    Console (snd s3) = Console (snd s) /\
    InitialCVarMap (fst s3) = InitialCVarMap (fst s).
Proof.
  destruct s as [p e]. cbn [fst snd]. intros HA. unfold UpdateCamera. cbn [fst snd].
  rewrite (flag_set_ne bForceDisallow bAnselSessionActive) by done. rewrite HA. cbn [negb].
  cbn [fst snd]. rewrite (flag_set_ne bForceDisallow bAnselSessionActive) by done. rewrite HA.
  match goal with |- context [UpdateCamera_capture_edges ?x] => set (s2 := x) end.
  pose proof (quiet_capture_edges s2) as H23.
  pose proof (capture_edges_console s2) as [HC HM].
  destruct (UpdateCamera_capture_edges s2) as [s3 cut]. cbn [fst snd] in *.
  exists s3. split; [| split; [reflexivity | split; assumption]].
  eapply quiet_trans; [| exact H23].
  apply (quiet_tick (p, e) (set bForceDisallow false p, e)).
  apply (quiet_stmt_p (set bForceDisallow false)). unrelated_tac.
Qed.

Lemma UpdateCamera_inactive env s :
  flag (fst s) bAnselSessionActive = false ->
  fst (UpdateCamera env s) = UpdateCamera_no_session env (set bForceDisallow false (fst s), snd s).
Proof.
  destruct s as [p e]. cbn [fst snd]. intros HA. unfold UpdateCamera. cbn [fst snd].
  rewrite (flag_set_ne bForceDisallow bAnselSessionActive) by done. rewrite HA. cbn [negb].
  destruct (flag (UpdateCamera_no_session env (set bForceDisallow false p, e)).1 bAnselSessionActive) eqn:E;
    [| reflexivity].
  exfalso. revert E. unfold UpdateCamera_no_session.
  repeat match goal with
         | |- context [match ?x with _ => _ end] => destruct x
         end; unfold ReconfigureAnsel; cbn [fst snd];
  repeat (rewrite ?flag_set_ne by done; cbn [flag set_RequiredFovType set_RequiredWorldToMeters
      set_CurrentlyConfiguredFovType set_CurrentlyConfiguredWorldToMeters]);
  congruence.
Qed.

Lemma calls_set_Console x e : calls (set_Console x e) = calls e.
Proof. reflexivity. Qed.
Lemma calls_set_Paused x e : calls (set_Paused x e) = calls e.
Proof. reflexivity. Qed.
Lemma calls_set_TimeDilation x e : calls (set_TimeDilation x e) = calls e.
Proof. reflexivity. Qed.
Lemma calls_set_bIsCameraMoveableWhenPaused x e :
  calls (set_bIsCameraMoveableWhenPaused x e) = calls e.
Proof. reflexivity. Qed.
Lemma calls_set_GAreScreenMessagesEnabled x e :
  calls (set_GAreScreenMessagesEnabled x e) = calls e.
Proof. reflexivity. Qed.
Lemma calls_set_MyHUD x e : calls (set_MyHUD x e) = calls e.
Proof. reflexivity. Qed.
Lemma calls_set_SubtitlesEnabled x e : calls (set_SubtitlesEnabled x e) = calls e.
Proof. reflexivity. Qed.
Lemma calls_set_bEnableFading x e : calls (set_bEnableFading x e) = calls e.
Proof. reflexivity. Qed.

Create Rewrite HintDb calls_db.
#[local] Hint Rewrite calls_emit calls_set_Console calls_set_Paused calls_set_TimeDilation
  calls_set_bIsCameraMoveableWhenPaused calls_set_GAreScreenMessagesEnabled calls_set_MyHUD
  calls_set_SubtitlesEnabled calls_set_bEnableFading : calls_db.

Ltac calls_norm :=
  unfold do_SetPause, do_SetTimeDilation, do_ShowHUD, do_SetSubtitlesEnabled;
  autorewrite with calls_db;
  cbn [significant List.app]; rewrite ?app_nil_r.

Lemma session_frame_running s :
  flag (fst s) bAnselSessionNewlyActive = false ->
  frame_effect s (UpdateCamera_session_frame s).
Proof.
  destruct s as [p e]. cbn [fst snd]. intros HN.
  unfold UpdateCamera_session_frame. cbn [fst snd]. rewrite HN.
  destruct (negb (flag p bAnselCaptureActive)),
           (NumFramesSinceSessionStart p =? 2)%Z eqn:E2,
           (flag p bAutoPause) eqn:E3, (flag p bWasPausedBeforeSession) eqn:E4;
    cbn [andb negb fst snd]; constructor; cbn [fst snd]; unfold pausing;
    rewrite ?E2, ?E3, ?E4; cbn [andb negb]; try reflexivity.
  all: try (intros f Hf; rewrite ?flag_set_stable; auto).
  all: calls_norm; reflexivity.
Qed.

Lemma view_eq e e' :
  view e' = view e ->
  Paused e' = Paused e /\ TimeDilation e' = TimeDilation e /\
  bIsCameraMoveableWhenPaused e' = bIsCameraMoveableWhenPaused e /\
  GAreScreenMessagesEnabled e' = GAreScreenMessagesEnabled e /\
  MyHUD e' = MyHUD e /\ SubtitlesEnabled e' = SubtitlesEnabled e /\
  bEnableFading e' = bEnableFading e.
Proof. unfold view. intros [= -> -> -> -> -> -> ->]. repeat split. Qed.

Ltac flags :=
  repeat first
    [ rewrite flag_set_eq
    | rewrite flag_set_ne by discriminate
    | progress cbn [flag set_fTimeDilationBeforeSession set_NumFramesSinceSessionStart
                    set_InitialCVarMap set_AnselCaptureInfo] ].

Lemma session_start_effect s : start_effect s (UpdateCamera_session_start s).
Proof.
  destruct s as [p e]. unfold UpdateCamera_session_start.
  set (ap := negb (CVarPhotographyAutoPause (Console (emit OnPhotographySessionStart e)) =? 0)%Z).
  set (app := negb (CVarPhotographyAutoPostprocess (Console (emit OnPhotographySessionStart e)) =? 0)%Z).
  cbv zeta. flags.
  change (Paused (emit OnPhotographySessionStart e)) with (Paused e).
  destruct (ap && negb (Paused e)) eqn:Hc; cbv beta iota.
  all: match goal with |- context [SetUpSessionCVars ?x] => set (s0 := x) end.
  all: pose proof (quiet_SetUpSessionCVars s0) as Hq.
  all: destruct (SetUpSessionCVars s0) as [p1 e1]; destruct Hq as [Q1 Q2 Q3 Q4 Q5 Q6 Q7].
  all: subst s0; cbn [fst snd] in *.
  all: apply view_eq in Q4; destruct Q4 as (V1 & V2 & V3 & V4 & V5 & V6 & V7).
  all: simpl in V1, V2, V3, V4, V5, V6, V7, Q2, Q3, Q5.
  all: change (MyHUD (set_GAreScreenMessagesEnabled false e1)) with (MyHUD e1).
  all: change (SubtitlesEnabled (set_GAreScreenMessagesEnabled false e1)) with (SubtitlesEnabled e1).
  all: change (bEnableFading (set_GAreScreenMessagesEnabled false e1)) with (bEnableFading e1).
  all: rewrite ?V5, ?V6, ?V7.
  all: assert (Hap : flag p1 bAutoPause = ap) by (rewrite Q1 by done; flags; reflexivity).
  all: assert (Happ : flag p1 bAutoPostprocess = app) by (rewrite Q1 by done; flags; reflexivity).
  all: assert (C1 : calls e1 = calls e ++ [OnPhotographySessionStart]
                 ++ (if ap && negb (Paused e) then [SetTimeDilation 0] else []))
         by (rewrite Q6, Hc; calls_norm; rewrite <- ?app_assoc; reflexivity).
  all: constructor; cbn [fst snd].
  all: try (flags; rewrite ?Q1 by done; flags; rewrite ?Hc; (reflexivity || congruence)).
  all: try (simpl; assumption).
  all: try (intros _; simpl; exact Q2).
  all: try (intros con0 H; apply Q7 in H; flags; rewrite ?Q1 by done; flags;
            destruct app, (MyHUD e) as [[|]|]; exact H).
  all: try (flags; rewrite ?Q1 by done; flags; rewrite ?Hc;
            unfold view; destruct app, (MyHUD e) as [[|]|] eqn:EH; cbn [default andb];
            unfold do_SetSubtitlesEnabled, do_ShowHUD; simpl;
            rewrite ?V1, ?V2, ?V3, ?V4, ?V5, ?V6, ?V7, ?EH; reflexivity).
  all: try (flags; rewrite ?Q1 by done; flags; destruct app, (MyHUD e) as [[|]|]; simpl; exact Q5).
  all: try (flags; rewrite ?Q1 by done; flags; rewrite ?Hc;
            rewrite Hc in C1; destruct app, (MyHUD e) as [[|]|]; cbn [default]; calls_norm;
            rewrite C1, <- ?app_assoc; reflexivity).
Qed.

Lemma session_frame_newly s :
  flag (fst s) bAnselSessionNewlyActive = true ->
  UpdateCamera_session_frame s = UpdateCamera_session_start s.
Proof.
  intros HN. unfold UpdateCamera_session_frame. rewrite HN.
  pose proof (se_frames _ _ (session_start_effect s)) as H0.
  destruct (UpdateCamera_session_start s) as [p' e']. cbn [fst] in H0. rewrite H0.
  reflexivity.
Qed.

Lemma captured_ok_filed con0 M con : captured_ok con0 M con -> filed M.
Proof. intros H k i Hk. specialize (H k). rewrite Hk in H. tauto. Qed.

(** The restore loop touches nothing but the console... *)
Lemma restore_loop_frame e M :
  let e' := map_fold restore_cvar e M in
  view e' = view e /\ GIsEditor e' = GIsEditor e /\ Effects e' = Effects e.
Proof.
  cbv zeta.
  apply (map_fold_weak_ind (fun e' (M : gmap string CVarInfo) =>
    view e' = view e /\ GIsEditor e' = GIsEditor e /\ Effects e' = Effects e)).
  - repeat split.
  - intros k i m r _ IH. unfold restore_cvar. destruct (cvar i); exact IH.
Qed.

(** ... where it rewrites exactly the filed variables, value only. *)
Lemma restore_loop e M :
  filed M ->
  forall k, Console (map_fold restore_cvar e M) !! k =
            match M !! k with
            | Some i => cvSetWithCurrentPriority (fInitialVal i) <$> Console e !! k
            | None => Console e !! k
            end.
Proof.
  apply (map_fold_weak_ind (fun e' M => filed M ->
    forall k, Console e' !! k =
             match M !! k with
             | Some i => cvSetWithCurrentPriority (fInitialVal i) <$> Console e !! k
             | None => Console e !! k
             end)).
  - intros _ k. by rewrite lookup_empty.
  - intros k i m r Hk IH Hf.
    assert (Hm : filed m).
    { intros k' i' Hk'. apply Hf. rewrite lookup_insert_ne; [done|]. intros ->. congruence. }
    specialize (IH Hm).
    assert (Hi : cvar i = Some k) by (apply Hf; apply lookup_insert_eq).
    unfold restore_cvar. rewrite Hi. unfold do_SetWithCurrentPriority, store_cvar.
    intros k'. cbn [Console set_Console]. destruct (decide (k = k')) as [<- | Hne].
    + rewrite lookup_alter_eq, lookup_insert_eq, IH, Hk.
      destruct (Console e !! k); reflexivity.
    + rewrite lookup_alter_ne, lookup_insert_ne by done. apply IH.
Qed.

Lemma calls_eq e e' : Effects e' = Effects e -> calls e' = calls e.
Proof. unfold calls. by intros ->. Qed.

Lemma deactivate_effect env s : end_effect env s (UpdateCamera_deactivate env s).
Proof.
  destruct s as [p e]. unfold UpdateCamera_deactivate. cbv zeta. flags.
  set (app := flag p bAutoPostprocess).
  set (hud := flag p bWasShowingHUDBeforeSession).
  set (sub := flag p bWereSubtitlesEnabledBeforeSession).
  set (fad := flag p bWasFadingEnabledBeforeSession).
  destruct (flag p bAutoPause && negb (flag p bWasPausedBeforeSession)) eqn:Hunp; cbv beta iota.
  all: match goal with |- context [map_fold restore_cvar ?x ?m] =>
         pose proof (restore_loop_frame x m) as HF; pose proof (restore_loop x m) as HC;
         cbv zeta in HF; destruct HF as (F1 & F2 & F3); apply calls_eq in F3;
         set (e6 := map_fold restore_cvar x m) in *
       end.
  all: clearbody e6.
  all: constructor; cbn [fst snd].
  all: flags; rewrite ?Hunp.
  all: try (intros Hf k; cbn [InitialCVarMap set set_flag] in HC;
            change (Console (emit OnPhotographySessionEnd e6)) with (Console e6);
            rewrite (HC Hf k);
            destruct app, hud, sub, fad, (CursorValid env); reflexivity).
  all: try (change (GIsEditor e6 = GIsEditor e); rewrite F2;
            destruct app, hud, sub, fad, (CursorValid env); reflexivity).
  all: try (change (view (emit OnPhotographySessionEnd e6)) with (view e6);
            rewrite F1; fold app hud sub fad;
            destruct app, hud, sub, fad, (CursorValid env); reflexivity).
  all: try reflexivity.
  all: rewrite calls_emit, F3; subst app hud sub fad.
  all: destruct (flag p bAutoPostprocess), (flag p bWasShowingHUDBeforeSession),
         (flag p bWereSubtitlesEnabledBeforeSession), (flag p bWasFadingEnabledBeforeSession),
         (CursorValid env); calls_norm; rewrite <- ?app_assoc; reflexivity.
Qed.


(** ** The running session *)

Lemma pauses_succ n : (0 <= n)%Z ->
  pauses (n + 1) = (pauses n + (if (wrap32 (n + 1) =? 2)%Z then 1 else 0))%nat.
Proof.
  intros Hn. unfold pauses, wrap32.
  change (2 ^ 32)%Z with 4294967296%Z.
  destruct (Z.eqb_spec ((n + 1) mod 4294967296) 2) as [E | E].
  - assert (H : ((n + 1 + 4294967296 - 2) / 4294967296
                 = (n + 4294967296 - 2) / 4294967296 + 1)%Z).
    { Z.to_euclidean_division_equations. lia. }
    rewrite H. rewrite Z2Nat.inj_add; [reflexivity | | lia].
    apply Z.div_pos; lia.
  - assert (H : ((n + 1 + 4294967296 - 2) / 4294967296
                 = (n + 4294967296 - 2) / 4294967296)%Z).
    { Z.to_euclidean_division_equations. lia. }
    rewrite H. lia.
Qed.

Lemma wrap32_succ n : wrap32 (wrap32 n + 1) = wrap32 (n + 1).
Proof. unfold wrap32. apply Zplus_mod_idemp_l. Qed.

Lemma pauses_small n :
  (0 <= n < 2 ^ 32)%Z -> pauses n = if (2 <=? n)%Z then 1%nat else 0%nat.
Proof.
  intros Hn. unfold pauses. change (2 ^ 32)%Z with 4294967296%Z in *.
  destruct (Z.leb_spec 2 n).
  - replace ((n + 4294967296 - 2) / 4294967296)%Z with 1%Z; [reflexivity|].
    Z.to_euclidean_division_equations. lia.
  - replace ((n + 4294967296 - 2) / 4294967296)%Z with 0%Z; [reflexivity|].
    Z.to_euclidean_division_equations. lia.
Qed.

Lemma pauses_zero : pauses 0 = 0%nat.
Proof. reflexivity. Qed.

Ltac vsimpl :=
  unfold view;
  cbn [vPaused vTimeDilation vMoveable vScreenMessages vHUD vSubtitles vFading].

Lemma start_frame_inv env s :
  flag (fst s) bAnselSessionActive = true ->
  flag (fst s) bAnselSessionNewlyActive = true ->
  flag (fst s) bAnselSessionWantDeactivate = false ->
  session_inv (view (snd s)) (calls (snd s)) 0 (fst (UpdateCamera env s)).
Proof.
  intros HA HN HW.
  destruct (UpdateCamera_active env s HA) as (s3 & Hq & -> & HC3 & HM3).
  destruct Hq as [Q1 Q2 Q3 Q4 Q5 Q6 Q7]. cbn [tick fst snd] in *.
  assert (HW3 : flag (fst s3) bAnselSessionWantDeactivate = false) by (rewrite Q1; auto).
  assert (HN3 : flag (fst s3) bAnselSessionNewlyActive = true) by (rewrite Q1; auto).
  assert (HA3 : flag (fst s3) bAnselSessionActive = true) by (rewrite Q1; auto).
  rewrite HW3, (session_frame_newly s3 HN3).
  destruct (session_start_effect s3) as [].
  destruct (view_eq _ _ Q4) as (V1 & V2 & V3 & V4 & V5 & V6 & V7).
  rewrite V1, V2, V5, V6, V7 in *.
  constructor; rewrite ?se_view0, ?se_calls0; vsimpl; try congruence.
  all: try (repeat split; congruence).
  all: try (rewrite se_frames0; reflexivity).
  all: try (rewrite Q6, pauses_zero; cbn [repeat];
    destruct (flag _ bAutoPause && negb (Paused (snd s))); rewrite ?app_nil_r; reflexivity).
  - exact se_dilation0.
  - destruct (flag _ bAutoPause && negb (Paused (snd s))) eqn:E; [| reflexivity].
    apply andb_true_iff in E. destruct E as [_ E]. apply negb_true_iff in E.
    rewrite E. reflexivity.
Qed.

Lemma quiet_inv v0 c0 n s s' :
  session_inv v0 c0 n s -> quiet s s' -> session_inv v0 c0 n s'.
Proof.
  intros [[HA [HN HW]] I2 I3 I4 I5 I6 I7 I8 I9 I10 I12] [Q1 Q2 Q3 Q4 Q5 Q6 Q7].
  constructor; rewrite ?Q1, ?Q2, ?Q3, ?Q4, ?Q6 by reflexivity; auto.
  repeat split; rewrite Q1 by reflexivity; assumption.
Qed.

Lemma repeat_snoc {A} (x : A) n : repeat x (n + 1) = repeat x n ++ [x].
Proof.
  induction n as [| n IH]; [reflexivity|]. cbn [Nat.add repeat]. rewrite IH. reflexivity.
Qed.

Lemma frame_inv env v0 c0 n s :
  (0 <= n)%Z ->
  session_inv v0 c0 n s ->
  session_inv v0 c0 (n + 1) (fst (UpdateCamera env s)).
Proof.
  intros Hn Hinv. pose proof Hinv as [[HA [HN HW]] I2 I3 I4 I5 I6 I7 I8 I9 I10 I12].
  destruct (UpdateCamera_active env s HA) as (s3 & Hq & -> & HC3 & HM3).
  pose proof Hq as [Q1 Q2 Q3 Q4 Q5 Q6 Q7].
  cbn [tick fst snd flag fTimeDilationBeforeSession NumFramesSinceSessionStart InitialCVarMap
       set_NumFramesSinceSessionStart] in Q1, Q2, Q3, Q4, Q5, Q6, Q7.
  assert (HW3 : flag (fst s3) bAnselSessionWantDeactivate = false) by (rewrite Q1; auto).
  assert (HN3 : flag (fst s3) bAnselSessionNewlyActive = false) by (rewrite Q1; auto).
  rewrite HW3.
  destruct (session_frame_running s3 HN3) as [F1 F2 F3 F4 F5 F6 F7 F8].
  assert (Hp : pausing (fst s3) = (wrap32 (n + 1) =? 2)%Z
                 && (flag (fst s) bAutoPause && negb (vPaused v0))).
  { unfold pausing. rewrite Q3, I8, wrap32_succ, !Q1, I2 by reflexivity.
    by rewrite andb_assoc. }
  set (s' := UpdateCamera_session_frame s3) in *.
  constructor; rewrite ?F1, ?F2, ?F3, ?Q1, ?Q2, ?Q3 by reflexivity; auto.
  - repeat split; rewrite F1, Q1 by reflexivity; assumption.
  - rewrite I8. apply wrap32_succ.
  - rewrite F7, Hp, Q4, I10, (pauses_succ n Hn).
    destruct (flag (fst s) bAutoPause && negb (vPaused v0)) eqn:E;
      destruct (wrap32 (n + 1) =? 2)%Z; unfold with_Paused;
      cbn [andb vPaused vTimeDilation vMoveable vScreenMessages vHUD vSubtitles vFading];
      rewrite ?Nat.add_0_r; try reflexivity.
    rewrite (bool_decide_eq_true_2 (pauses n + 1 <> 0)%nat) by lia. reflexivity.
  - rewrite F8, Hp, Q6, I12, (pauses_succ n Hn).
    destruct (flag (fst s) bAutoPause && negb (vPaused v0)),
             (wrap32 (n + 1) =? 2)%Z; cbn [andb]; rewrite ?Nat.add_0_r, ?app_nil_r;
      try reflexivity.
    rewrite repeat_snoc, <- !app_assoc. reflexivity.
Qed.

Lemma frames_nonneg evs : (0 <= frames evs)%Z.
Proof. unfold frames. lia. Qed.

Lemma frames_cons ev evs :
  frames (ev :: evs) = ((if is_frame ev then 1 else 0) + frames evs)%Z.
Proof. unfold frames. cbn [List.filter]. destruct (is_frame ev); cbn [length]; lia. Qed.

Lemma run_cons ev evs s : run (ev :: evs) s = run evs (step ev s).
Proof. reflexivity. Qed.

Lemma run_app evs1 evs2 s : run (evs1 ++ evs2) s = run evs2 (run evs1 s).
Proof. unfold run. apply foldl_app. Qed.

Lemma run_inv v0 c0 evs :
  forallb in_session evs = true ->
  forall n s, (0 <= n)%Z ->
    session_inv v0 c0 n s ->
    session_inv v0 c0 (n + frames evs) (run evs s).
Proof.
  induction evs as [| ev evs IH]; intros Hin n s Hn Hinv.
  - unfold frames; cbn. by rewrite Z.add_0_r.
  - cbn [forallb] in Hin. apply andb_true_iff in Hin. destruct Hin as [Hev Hin].
    rewrite run_cons, frames_cons.
    destruct (is_frame ev) eqn:Hf.
    + destruct ev; try discriminate. cbn [step].
      rewrite Z.add_assoc. apply IH; [assumption | lia |]. by apply frame_inv.
    + rewrite Z.add_0_l. apply IH; [assumption | assumption |].
      eapply quiet_inv; [exact Hinv |]. by apply quiet_step.
Qed.

Lemma stop_running s :
  flag (fst s) bAnselSessionActive = true ->
  flag (fst s) bAnselSessionNewlyActive = false ->
  AnselStopSessionCallback s
  = (set bAnselSessionWantDeactivate true (fst s),
     emit (UE_LOG "Photography camera session end") (snd s)).
Proof.
  destruct s as [p e]. cbn [fst snd]. intros HA HN. unfold AnselStopSessionCallback.
  rewrite HA, HN. reflexivity.
Qed.

Lemma negb_negb_option (o : option bool) : negb <$> (negb <$> o) = o.
Proof. destruct o as [[|]|]; reflexivity. Qed.

(** The stop callback followed by a frame ends a running session and puts
    back what the session start found. *)
Lemma stop_then_frame env v0 c0 n s :
  session_inv v0 c0 n s ->
  let s_stop := AnselStopSessionCallback s in
  let s' := fst (UpdateCamera env s_stop) in
  flag (fst s') bAnselSessionActive = false /\
  flag (fst s') bAnselSessionWantDeactivate = false /\
  InitialCVarMap (fst s') = ∅ /\
  view (snd s') = v0 /\
  GIsEditor (snd s') = GIsEditor (snd s) /\
  InitialCVarMap (fst s_stop) = InitialCVarMap (fst s) /\
  Console (snd s_stop) = Console (snd s) /\
  (filed (InitialCVarMap (fst s)) ->
   forall k, Console (snd s') !! k =
             match InitialCVarMap (fst s) !! k with
             | Some i => cvSetWithCurrentPriority (fInitialVal i) <$> Console (snd s) !! k
             | None => Console (snd s) !! k
             end) /\
  calls (snd s') =
    calls (snd s)
    ++ (if flag (fst s) bAutoPostprocess
        then (if default false (vHUD v0) then [ShowHUD] else [])
             ++ (if vSubtitles v0 then [SetSubtitlesEnabled true] else [])
        else [])
    ++ (if flag (fst s) bAutoPause && negb (vPaused v0)
        then [SetTimeDilation (vTimeDilation v0); SetPause false] else [])
    ++ [OnPhotographySessionEnd].
Proof.
  intros [[HA [HN HW]] I2 I3 I4 I5 I6 I7 I8 I9 I10 I12]. cbv zeta.
  rewrite (stop_running s HA HN).
  set (s_stop := (set bAnselSessionWantDeactivate true (fst s),
                  emit (UE_LOG "Photography camera session end") (snd s))).
  assert (HAs : flag (fst s_stop) bAnselSessionActive = true).
  { subst s_stop. cbn [fst]. rewrite flag_set_ne by discriminate. exact HA. }
  destruct (UpdateCamera_active env s_stop HAs) as (s3 & Hq & -> & HC3 & HM3).
  pose proof Hq as [Q1 Q2 Q3 Q4 Q5 Q6 Q7].
  cbn [tick fst snd flag fTimeDilationBeforeSession NumFramesSinceSessionStart InitialCVarMap
       set_NumFramesSinceSessionStart] in Q1, Q2, Q3, Q4, Q5, Q6, Q7.
  assert (Hflag : forall f, stable f = true -> f <> bAnselSessionWantDeactivate ->
                            flag (fst s3) f = flag (fst s) f).
  { intros f Hf Hne. rewrite Q1 by done. subst s_stop. cbn [fst].
    by rewrite flag_set_ne by done. }
  assert (HW3 : flag (fst s3) bAnselSessionWantDeactivate = true).
  { rewrite Q1 by done. subst s_stop. cbn [fst]. apply flag_set_eq. }
  rewrite HW3.
  destruct (deactivate_effect env s3) as [E1 E2 E3 E4 E5 E6 E7 E8].
  set (s' := UpdateCamera_deactivate env s3) in *.
  change (view (snd s_stop)) with (view (snd s)) in Q4.
  assert (Q6' : calls (snd s3) = calls (snd s)).
  { rewrite Q6. subst s_stop. cbn [snd]. rewrite calls_emit. apply app_nil_r. }
  rewrite HC3, HM3 in E5.
  cbv zeta in E7, E8.
  pose proof (Hflag bAutoPause eq_refl ltac:(discriminate)) as G1.
  pose proof (Hflag bAutoPostprocess eq_refl ltac:(discriminate)) as G2.
  pose proof (Hflag bWasPausedBeforeSession eq_refl ltac:(discriminate)) as G3.
  pose proof (Hflag bWasMovableCameraBeforeSession eq_refl ltac:(discriminate)) as G4.
  pose proof (Hflag bWasScreenMessagesEnabledBeforeSession eq_refl ltac:(discriminate)) as G5.
  pose proof (Hflag bWasShowingHUDBeforeSession eq_refl ltac:(discriminate)) as G6.
  pose proof (Hflag bWereSubtitlesEnabledBeforeSession eq_refl ltac:(discriminate)) as G7.
  pose proof (Hflag bWasFadingEnabledBeforeSession eq_refl ltac:(discriminate)) as G8.
  rewrite ?G1, ?G2, ?G3, ?G4, ?G5, ?G6, ?G7, ?G8 in E7.
  rewrite ?G1, ?G2, ?G3, ?G4, ?G5, ?G6, ?G7, ?G8 in E8.
  rewrite Q2, Q6' in E8.
  pose proof (eq_trans Q4 I10) as V. unfold view in V at 1.
  injection V as V1 V2 V3 V4 V5 V6 V7.
  rewrite Q2, V1, V2, V5, V6, V7 in E7.
  subst s_stop. cbn [fst snd fTimeDilationBeforeSession set set_flag] in E7, E8.
  repeat split; try assumption.
  - rewrite E7; vsimpl. rewrite I2, I3, I4, I5, I6, I7.
    destruct v0 as [vp vt vm vs vh vsub vf];
      cbn [vPaused vTimeDilation vMoveable vScreenMessages vHUD vSubtitles vFading] in *.
    destruct (flag (fst s) bAutoPause && negb vp) eqn:Eap.
    + rewrite (I9 eq_refl). apply andb_true_iff in Eap. destruct Eap as [_ Eap].
      apply negb_true_iff in Eap. rewrite Eap.
      destruct (flag (fst s) bAutoPostprocess), vh as [[|]|], vsub, vf; reflexivity.
    + destruct (flag (fst s) bAutoPostprocess), vh as [[|]|], vsub, vf; reflexivity.
  - rewrite E6, Q5. reflexivity.
  - rewrite E8, I2, I6, I7.
    destruct (flag (fst s) bAutoPause && negb (vPaused v0)) eqn:Eap; [| reflexivity].
    rewrite (I9 eq_refl). reflexivity.
Qed.

Lemma quiet_ReconfigureAnsel : quiet_stmt ReconfigureAnsel.
Proof.
  intros [p e]. unfold ReconfigureAnsel.
  constructor; cbn [fst snd]; try reflexivity; auto.
  calls_norm. reflexivity.
Qed.

Lemma quiet_no_session env : quiet_stmt (UpdateCamera_no_session env).
Proof.
  intros [p e]. unfold UpdateCamera_no_session.
  repeat match goal with
         | |- context [match ?x with _ => _ end] => destruct x
         end.
  all: try (eapply quiet_trans; [| apply quiet_ReconfigureAnsel]).
  all: constructor; cbn [fst snd]; try reflexivity.
  all: try (intros con0 H; exact H).
  all: intros f Hf;
       repeat first [ rewrite flag_set_stable by (reflexivity || assumption)
                    | progress cbn [flag set_RequiredFovType set_RequiredWorldToMeters] ];
       reflexivity.
Qed.

(** A frame outside a session is quiet. *)
Lemma quiet_frame_inactive env s :
  flag (fst s) bAnselSessionActive = false -> quiet s (fst (UpdateCamera env s)).
Proof.
  intros HA. rewrite (UpdateCamera_inactive env s HA).
  eapply quiet_trans; [| apply quiet_no_session].
  destruct s as [p e]. apply (quiet_stmt_p (set bForceDisallow false)). unrelated_tac.
Qed.

(** While no deactivation is pending, nothing disturbs what [captured_ok]
    says about the captured variables. *)
Lemma step_captured_ok ev s con0 :
  in_session ev = true ->
  flag (fst s) bAnselSessionWantDeactivate = false ->
  captured_ok con0 (InitialCVarMap (fst s)) (Console (snd s)) ->
  captured_ok con0 (InitialCVarMap (fst (step ev s))) (Console (snd (step ev s))).
Proof.
  intros Hin HW Hc.
  destruct (is_frame ev) eqn:Hf; [| by apply (quiet_cvars _ _ (quiet_step ev s Hin Hf))].
  destruct ev; try discriminate. cbn [step].
  destruct (flag (fst s) bAnselSessionActive) eqn:HA;
    [| by apply (quiet_cvars _ _ (quiet_frame_inactive env s HA))].
  destruct (UpdateCamera_active env s HA) as (s3 & Hq & -> & HC3 & HM3).
  pose proof (quiet_flags _ _ Hq bAnselSessionWantDeactivate eq_refl) as HW3.
  cbn [tick fst flag set_NumFramesSinceSessionStart] in HW3. rewrite HW in HW3. rewrite HW3.
  assert (Hc3 : captured_ok con0 (InitialCVarMap (fst s3)) (Console (snd s3)))
    by (rewrite HC3, HM3; exact Hc).
  destruct (flag (fst s3) bAnselSessionNewlyActive) eqn:HN.
  - rewrite (session_frame_newly s3 HN). by apply (se_cvars _ _ (session_start_effect s3)).
  - destruct (session_frame_running s3 HN) as [F1 F2 F3 F4 F5 F6 F7 F8]. by rewrite F5, F6.
Qed.

Lemma run_captured_ok v0 c0 con0 evs :
  forallb in_session evs = true ->
  forall n s, (0 <= n)%Z ->
    session_inv v0 c0 n s ->
    captured_ok con0 (InitialCVarMap (fst s)) (Console (snd s)) ->
    captured_ok con0 (InitialCVarMap (fst (run evs s))) (Console (snd (run evs s))).
Proof.
  induction evs as [| ev evs IH]; intros Hin n s Hn Hinv Hc; [exact Hc|].
  cbn [forallb] in Hin. apply andb_true_iff in Hin. destruct Hin as [Hev Hin].
  rewrite run_cons.
  apply (IH Hin (n + frames [ev])%Z).
  - pose proof (frames_nonneg [ev]). lia.
  - apply (run_inv v0 c0 [ev]); [by cbn [forallb]; rewrite Hev | exact Hn | exact Hinv].
  - apply step_captured_ok; [exact Hev | | exact Hc].
    by destruct Hinv as [(_ & _ & HW)].
Qed.

Lemma captured_ok_empty con0 : captured_ok con0 ∅ con0.
Proof. intros k. by rewrite lookup_empty. Qed.

(* ===================================================================== *)
(** * Properties of the specification *)
(* ===================================================================== *)

(** Events other than frames do not disturb a session. *)
Lemma run_no_frames evs :
  forallb in_session evs = true -> frames evs = 0%Z -> forall s, quiet s (run evs s).
Proof.
  induction evs as [| ev evs IH]; intros Hin Hf s.
  - apply quiet_refl.
  - cbn [forallb] in Hin. apply andb_true_iff in Hin. destruct Hin as [Hev Hin].
    rewrite frames_cons in Hf. pose proof (frames_nonneg evs).
    destruct (is_frame ev) eqn:E; [lia |].
    rewrite run_cons. eapply quiet_trans; [apply (quiet_step ev s Hev E) |].
    apply IH; [exact Hin | lia].
Qed.

Lemma first_frame_split evs :
  frames evs <> 0%Z ->
  exists pre env post,
    evs = pre ++ EvUpdateCamera env :: post /\ frames pre = 0%Z.
Proof.
  induction evs as [| ev evs IH]; intros Hf; [done |].
  destruct (is_frame ev) eqn:E.
  - destruct ev; try discriminate. exists [], env, evs. split; reflexivity.
  - rewrite frames_cons, E, Z.add_0_l in Hf.
    destruct (IH Hf) as (pre & env & post & -> & Hp).
    exists (ev :: pre), env, post. split; [reflexivity |].
    rewrite frames_cons, E, Hp. reflexivity.
Qed.

Lemma forallb_app_inv {A} (f : A -> bool) l1 l2 :
  forallb f (l1 ++ l2) = true -> forallb f l1 = true /\ forallb f l2 = true.
Proof. rewrite List.forallb_app. apply andb_true_iff. Qed.

(** No event of a session sets the deactivation request. *)
Lemma step_want ev s :
  in_session ev = true ->
  flag (fst s) bAnselSessionWantDeactivate = false ->
  flag (fst (step ev s)) bAnselSessionWantDeactivate = false.
Proof.
  intros Hin HW.
  destruct (is_frame ev) eqn:Hf;
    [| by rewrite (quiet_flags _ _ (quiet_step ev s Hin Hf))].
  destruct ev; try discriminate. cbn [step].
  destruct (flag (fst s) bAnselSessionActive) eqn:HA;
    [| by rewrite (quiet_flags _ _ (quiet_frame_inactive env s HA))].
  destruct (UpdateCamera_active env s HA) as (s3 & Hq & -> & _ & _).
  pose proof (quiet_flags _ _ Hq bAnselSessionWantDeactivate eq_refl) as HW3.
  cbn [tick fst flag set_NumFramesSinceSessionStart] in HW3. rewrite HW in HW3. rewrite HW3.
  destruct (flag (fst s3) bAnselSessionNewlyActive) eqn:HN.
  - rewrite (session_frame_newly s3 HN), (se_want _ _ (session_start_effect s3)). exact HW3.
  - rewrite (fe_flags _ _ (session_frame_running s3 HN)) by reflexivity. exact HW3.
Qed.

Lemma run_want_captured con0 evs :
  forallb in_session evs = true ->
  forall s,
    flag (fst s) bAnselSessionWantDeactivate = false ->
    captured_ok con0 (InitialCVarMap (fst s)) (Console (snd s)) ->
    flag (fst (run evs s)) bAnselSessionWantDeactivate = false /\
    captured_ok con0 (InitialCVarMap (fst (run evs s))) (Console (snd (run evs s))).
Proof.
  induction evs as [| ev evs IH]; intros Hin s HW Hc; [split; assumption |].
  cbn [forallb] in Hin. apply andb_true_iff in Hin. destruct Hin as [Hev Hin].
  rewrite run_cons. apply (IH Hin).
  - by apply step_want.
  - by apply step_captured_ok.
Qed.

(** X17.  A session that reaches its first frame is a round trip on the
    engine state it modifies.  Take a
    provider on which the SDK just started a session (active, newly active,
    no deactivation pending) with an empty [InitialCVarMap]; let any events
    other than frames come first, then the first frame, then any events of a
    running session (frames, post-processing updates, capture, quality and UI
    callbacks), then the stop callback and one more frame.  At every point of
    the session, a console variable without an entry in [InitialCVarMap] is
    still as the session found it, and every entry sits under its variable's
    name and holds the value the session found ([captured_ok]) - so what an
    entry holds is the value at the moment of its capture.  The last frame
    sets every captured variable to that value with [SetWithCurrentPriority]
    (the priority stays as it was just before), leaves the other variables
    alone and empties the map; so every variable reads as before the session.
    The pause state, the time dilation, the camera-movable and screen-messages
    flags, the HUD visibility, the subtitles and the fading flag are as before
    the session. *)
Theorem session_round_trip (env0 env1 : FrameEnv) (pre evs : list Event) (s0 : St) :
  flag (fst s0) bAnselSessionActive = true ->
  flag (fst s0) bAnselSessionNewlyActive = true ->
  flag (fst s0) bAnselSessionWantDeactivate = false ->
  InitialCVarMap (fst s0) = ∅ ->
  forallb in_session pre = true ->
  frames pre = 0%Z ->
  forallb in_session evs = true ->
  let session := pre ++ EvUpdateCamera env0 :: evs in
  let s_stop := run (session ++ [EvStopSessionCallback]) s0 in
  let s_end := step (EvUpdateCamera env1) s_stop in
  (forall evs1 evs2, session = evs1 ++ evs2 ->
     let s := run evs1 s0 in
     captured_ok (Console (snd s0)) (InitialCVarMap (fst s)) (Console (snd s))) /\
  (forall k i, InitialCVarMap (fst s_stop) !! k = Some i ->
     exists c0 c,
       Console (snd s0) !! k = Some c0 /\ fInitialVal i = GetFloat c0 /\
       Console (snd s_stop) !! k = Some c /\
       Console (snd s_end) !! k = Some (cvSetWithCurrentPriority (fInitialVal i) c)) /\
  (forall k, InitialCVarMap (fst s_stop) !! k = None ->
     Console (snd s_end) !! k = Console (snd s0) !! k) /\
  InitialCVarMap (fst s_end) = ∅ /\
  (forall k, GetFloat <$> Console (snd s_end) !! k = GetFloat <$> Console (snd s0) !! k) /\
  view (snd s_end) = view (snd s0) /\
  flag (fst s_end) bAnselSessionActive = false.
Proof.
  intros HA HN HW HM Hpre Hfp Hin. cbv zeta.
  set (con0 := Console (snd s0)).
  assert (Hc0 : captured_ok con0 (InitialCVarMap (fst s0)) (Console (snd s0)))
    by (rewrite HM; apply captured_ok_empty).
  assert (Hsession : forallb in_session (pre ++ EvUpdateCamera env0 :: evs) = true).
  { rewrite forallb_app, Hpre. cbn [forallb in_session]. exact Hin. }
  assert (Hprefix : forall evs1 evs2, pre ++ EvUpdateCamera env0 :: evs = evs1 ++ evs2 ->
            captured_ok con0 (InitialCVarMap (fst (run evs1 s0))) (Console (snd (run evs1 s0)))).
  { intros evs1 evs2 Heq. rewrite Heq in Hsession.
    apply forallb_app_inv in Hsession. destruct Hsession as [H1 _].
    apply (run_want_captured con0 evs1 H1 s0 HW Hc0). }
  pose proof (run_no_frames pre Hpre Hfp s0) as [Q1 _ _ Q4 _ Q6 _].
  set (s_pre := run pre s0) in *.
  assert (HA' : flag (fst s_pre) bAnselSessionActive = true) by (rewrite Q1; auto).
  assert (HN' : flag (fst s_pre) bAnselSessionNewlyActive = true) by (rewrite Q1; auto).
  assert (HW' : flag (fst s_pre) bAnselSessionWantDeactivate = false) by (rewrite Q1; auto).
  set (s1 := step (EvUpdateCamera env0) s_pre).
  assert (Hinv1 : session_inv (view (snd s0)) (calls (snd s_pre)) 0 s1)
    by (rewrite <- Q4; apply start_frame_inv; assumption).
  pose proof (run_inv _ _ evs Hin 0%Z s1 (Z.le_refl 0) Hinv1) as Hinv2.
  set (s2 := run evs s1) in *.
  assert (Hs2 : run (pre ++ EvUpdateCamera env0 :: evs) s0 = s2).
  { rewrite run_app, run_cons. reflexivity. }
  pose proof (Hprefix _ [] (eq_sym (app_nil_r _))) as Hc2. rewrite Hs2 in Hc2.
  rewrite run_app, Hs2. cbn [run foldl step].
  destruct (stop_then_frame env1 _ _ _ _ Hinv2) as (E1 & E2 & E3 & E4 & E5 & E6 & E7 & E8 & E9).
  specialize (E8 (captured_ok_filed _ _ _ Hc2)).
  rewrite E6, E7.
  assert (Hval : forall k, GetFloat <$> Console (snd (fst (UpdateCamera env1
                    (AnselStopSessionCallback s2)))) !! k = GetFloat <$> con0 !! k).
  { intros k. rewrite E8. specialize (Hc2 k).
    destruct (InitialCVarMap (fst s2) !! k) as [i|].
    - destruct Hc2 as (_ & c0 & c & H0 & Hk & Hv). rewrite H0, Hk. cbn. by rewrite Hv.
    - by rewrite Hc2. }
  repeat split; try assumption.
  - intros k i Hk. pose proof (Hc2 k) as H. rewrite Hk in H.
    destruct H as (_ & c0 & c & H0 & Hc & Hv).
    exists c0, c. repeat split; try assumption. rewrite E8, Hk, Hc. reflexivity.
  - intros k Hk. rewrite E8, Hk. pose proof (Hc2 k) as H. by rewrite Hk in H.
Qed.

Lemma session_round_trip_witness :
  let session := [EvUpdatePostProcessing zero_settings] ++ EvUpdateCamera sample_frame
                 :: sample_session in
  let s_stop := run (session ++ [EvStopSessionCallback]) sample_started in
  let s_end := step (EvUpdateCamera sample_frame) s_stop in
  InitialCVarMap (fst s_end) = ∅ /\ view (snd s_end) = view (snd sample_started).
Proof.
  pose proof (session_round_trip sample_frame sample_frame
                [EvUpdatePostProcessing zero_settings] sample_session sample_started
                ltac:(vm_compute; reflexivity) ltac:(vm_compute; reflexivity)
                ltac:(vm_compute; reflexivity) ltac:(vm_compute; reflexivity)
                ltac:(vm_compute; reflexivity) ltac:(vm_compute; reflexivity)
                ltac:(vm_compute; reflexivity)) as H.
  split; apply H.
Defined.

(** C1. A session is not always a round trip.  On a provider fresh from its
    constructor the SDK starts a session and switches the high quality on,
    the game updates its post-processing, and the SDK stops the session
    before [UpdateCamera] ran: the update has captured and raised
    [r.ShadowQuality] and [r.ViewDistanceScale], the stop callback drops the
    session without a deactivation request, and the frames that follow are
    frames outside a session.  So the two variables keep the values of the
    high quality, their entries stay in [InitialCVarMap], and no session
    start or end was notified. *)
Theorem dropped_session_keeps_changes :
  let s0 := (fresh_provider, sample_engine) in
  let s := run (dropped_session
                ++ [EvUpdateCamera sample_frame; EvUpdateCamera sample_frame]) s0 in
  fst (fst (AnselStartSessionCallback no_settings s0)) = kAllowed /\
  flag (fst s) bAnselSessionActive = false /\
  flag (fst s) bAnselSessionWantDeactivate = false /\
  GetFloat <$> Console (snd s0) !! "r.shadowquality" = Some 3%Q /\
  GetFloat <$> Console (snd s) !! "r.shadowquality" = Some 5%Q /\
  GetFloat <$> Console (snd s0) !! "r.viewdistancescale" = Some 1%Q /\
  GetFloat <$> Console (snd s) !! "r.viewdistancescale" = Some 50%Q /\
  fInitialVal <$> InitialCVarMap (fst s) !! "r.shadowquality" = Some 3%Q /\
  fInitialVal <$> InitialCVarMap (fst s) !! "r.viewdistancescale" = Some 1%Q /\
  notifications (snd s) = [].
Proof. vm_compute. repeat split; reflexivity. Qed.

Lemma filter_pause_significant l :
  List.filter pause_call (List.filter significant l) = List.filter pause_call l.
Proof.
  induction l as [| x l IH]; [reflexivity |].
  destruct x; cbn [List.filter significant pause_call]; rewrite ?IH; reflexivity.
Qed.

Lemma pause_calls_calls e : pause_calls e = List.filter pause_call (calls e).
Proof. unfold pause_calls, calls. symmetry. apply filter_pause_significant. Qed.

Lemma filter_notification_significant l :
  List.filter session_notification (List.filter significant l)
  = List.filter session_notification l.
Proof.
  induction l as [| x l IH]; [reflexivity |].
  destruct x; cbn [List.filter significant session_notification]; rewrite ?IH; reflexivity.
Qed.

Lemma notifications_calls e : notifications e = List.filter session_notification (calls e).
Proof. unfold notifications, calls. symmetry. apply filter_notification_significant. Qed.

Lemma filter_pause_repeat n :
  List.filter pause_call (repeat (SetPause true) n) = repeat (SetPause true) n.
Proof. induction n as [| n IH]; [reflexivity |]. cbn. by rewrite IH. Qed.

Lemma filter_notification_repeat n :
  List.filter session_notification (repeat (SetPause true) n) = [].
Proof. induction n as [| n IH]; [reflexivity |]. cbn. exact IH. Qed.

(** The first frame of a session reads the two cvars that decide whether the
    session pauses the game and whether it adjusts post-processing. *)
Lemma start_frame_auto env s :
  flag (fst s) bAnselSessionActive = true ->
  flag (fst s) bAnselSessionNewlyActive = true ->
  flag (fst s) bAnselSessionWantDeactivate = false ->
  flag (fst (fst (UpdateCamera env s))) bAutoPause
    = negb (CVarPhotographyAutoPause (Console (snd s)) =? 0)%Z /\
  flag (fst (fst (UpdateCamera env s))) bAutoPostprocess
    = negb (CVarPhotographyAutoPostprocess (Console (snd s)) =? 0)%Z.
Proof.
  intros HA HN HW.
  destruct (UpdateCamera_active env s HA) as (s3 & Hq & -> & HC3 & HM3).
  destruct Hq as [Q1 Q2 Q3 Q4 Q5 Q6 Q7]. cbn [tick fst snd] in *.
  assert (HW3 : flag (fst s3) bAnselSessionWantDeactivate = false) by (rewrite Q1; auto).
  assert (HN3 : flag (fst s3) bAnselSessionNewlyActive = true) by (rewrite Q1; auto).
  rewrite HW3, (session_frame_newly s3 HN3).
  rewrite (se_autopause _ _ (session_start_effect s3)),
    (se_autopostprocess _ _ (session_start_effect s3)), HC3.
  split; reflexivity.
Qed.

(** The flags a session decides on its first frame stay as they are while it
    runs. *)
Lemma step_stable ev s :
  in_session ev = true -> running s ->
  running (step ev s) /\
  forall f, stable f = true -> flag (fst (step ev s)) f = flag (fst s) f.
Proof.
  intros Hin (HA & HN & HW).
  assert (forall f, stable f = true -> flag (fst (step ev s)) f = flag (fst s) f) as H.
  { destruct (is_frame ev) eqn:Hf.
    - destruct ev; try discriminate. cbn [step].
      destruct (UpdateCamera_active env s HA) as (s3 & Hq & -> & _ & _).
      destruct Hq as [Q1 _ _ _ _ _ _]. cbn [tick fst snd] in Q1.
      assert (HW3 : flag (fst s3) bAnselSessionWantDeactivate = false) by (rewrite Q1; auto).
      assert (HN3 : flag (fst s3) bAnselSessionNewlyActive = false) by (rewrite Q1; auto).
      rewrite HW3. destruct (session_frame_running s3 HN3) as [F1 _ _ _ _ _ _ _].
      intros f Hs. rewrite F1, Q1 by exact Hs. reflexivity.
    - apply (quiet_flags _ _ (quiet_step ev s Hin Hf)). }
  split; [| exact H].
  repeat split; rewrite H by reflexivity; assumption.
Qed.

Lemma run_stable evs :
  forallb in_session evs = true ->
  forall s, running s ->
    running (run evs s) /\
    forall f, stable f = true -> flag (fst (run evs s)) f = flag (fst s) f.
Proof.
  induction evs as [| ev evs IH]; intros Hin s Hr.
  - split; [exact Hr | reflexivity].
  - cbn [forallb] in Hin. apply andb_true_iff in Hin. destruct Hin as [Hev Hin].
    rewrite run_cons. destruct (step_stable ev s Hev Hr) as [Hr1 H1].
    destruct (IH Hin _ Hr1) as [Hr2 H2]. split; [exact Hr2 |].
    intros f Hs. rewrite H2, H1 by exact Hs. reflexivity.
Qed.

Ltac no_member H :=
  lazymatch type of H with
  | In _ (_ ++ _) => apply in_app_or in H; destruct H as [H | H]; no_member H
  | In _ (if ?b then _ else _) => destruct b; no_member H
  | In _ (_ :: _) => destruct H as [H | H]; [discriminate H | no_member H]
  | In _ [] => destruct H
  end.

(** Whatever the state, a frame that asks the engine to pause leaves the
    frame counter at 2. *)
Lemma SetPause_only_at_two env s :
  exists d,
    calls (snd (step (EvUpdateCamera env) s)) = calls (snd s) ++ d /\
    (In (SetPause true) d ->
     NumFramesSinceSessionStart (fst (step (EvUpdateCamera env) s)) = 2%Z).
Proof.
  cbn [step]. destruct (flag (fst s) bAnselSessionActive) eqn:HA.
  - destruct (UpdateCamera_active env s HA) as (s3 & Hq & -> & _ & _).
    destruct Hq as [Q1 _ Q3 _ _ Q6 _]. cbn [tick fst snd] in Q1, Q3, Q6.
    destruct (flag (fst s3) bAnselSessionWantDeactivate) eqn:HW3.
    + destruct (deactivate_effect env s3) as [_ _ _ _ _ _ _ E]. cbv zeta in E.
      rewrite Q6 in E. eexists. split; [exact E |].
      intros Hin. exfalso. no_member Hin.
    + destruct (flag (fst s3) bAnselSessionNewlyActive) eqn:HN3.
      * rewrite (session_frame_newly s3 HN3).
        pose proof (se_calls _ _ (session_start_effect s3)) as E. rewrite Q6 in E.
        eexists. split; [exact E |].
        intros Hin. exfalso. no_member Hin.
      * destruct (session_frame_running s3 HN3) as [_ _ F3 _ _ _ _ F8].
        rewrite Q6 in F8. eexists. split; [exact F8 |].
        intros Hin. rewrite F3. unfold pausing in Hin.
        destruct (NumFramesSinceSessionStart (fst s3) =? 2)%Z eqn:E2.
        -- apply Z.eqb_eq in E2. exact E2.
        -- cbn [andb] in Hin. destruct Hin.
  - exists []. rewrite app_nil_r. split; [| intros []].
    apply (quiet_calls _ _ (quiet_frame_inactive env s HA)).
Qed.

Ltac split_ifs :=
  repeat match goal with |- context [if ?b then _ else _] => destruct b end.



(** A frame outside a session leaves the console and the captured values
    alone. *)
Lemma frame_inactive_console env s :
  flag (fst s) bAnselSessionActive = false ->
  Console (snd (fst (UpdateCamera env s))) = Console (snd s) /\
  InitialCVarMap (fst (fst (UpdateCamera env s))) = InitialCVarMap (fst s).
Proof.
  intros HA. rewrite (UpdateCamera_inactive env s HA).
  destruct s as [p e]. unfold UpdateCamera_no_session. cbn [fst snd].
  repeat match goal with
         | |- context [match ?x with _ => _ end] => destruct x
         end.
  all: unfold ReconfigureAnsel; cbn [fst snd]; split; reflexivity.
Qed.

(** The stop callback on a session whose first frame has not run drops the
    session; the frame after it finds no session and restores nothing. *)
Lemma stop_dropped env s :
  flag (fst s) bAnselSessionActive = true ->
  flag (fst s) bAnselSessionNewlyActive = true ->
  let s_stop := AnselStopSessionCallback s in
  let s_end := fst (UpdateCamera env s_stop) in
  fst s_stop = set bAnselSessionActive false (fst s) /\
  flag (fst s_end) bAnselSessionActive = false /\
  Console (snd s_end) = Console (snd s) /\
  InitialCVarMap (fst s_end) = InitialCVarMap (fst s) /\
  view (snd s_end) = view (snd s) /\
  calls (snd s_end) = calls (snd s).
Proof.
  intros HA HN. cbv zeta.
  assert (Hs : AnselStopSessionCallback s
               = (set bAnselSessionActive false (fst s),
                  emit (UE_LOG "Photography camera session end") (snd s))).
  { destruct s as [p e]. cbn [fst snd] in *. unfold AnselStopSessionCallback.
    rewrite HA, HN. reflexivity. }
  rewrite Hs.
  set (s_stop := (set bAnselSessionActive false (fst s),
                  emit (UE_LOG "Photography camera session end") (snd s))).
  assert (HAs : flag (fst s_stop) bAnselSessionActive = false).
  { subst s_stop. cbn [fst]. apply flag_set_eq. }
  destruct (quiet_frame_inactive env s_stop HAs) as [Q1 _ _ Q4 _ Q6 _].
  destruct (frame_inactive_console env s_stop HAs) as [C1 C2].
  repeat split.
  - rewrite Q1 by reflexivity. exact HAs.
  - rewrite C1. reflexivity.
  - rewrite C2. reflexivity.
  - rewrite Q4. reflexivity.
  - rewrite Q6. subst s_stop. cbn [snd]. rewrite calls_emit. apply app_nil_r.
Qed.

(** The stop callback on a session whose first frame has run asks for the
    deactivation; the frame after it runs the restore path. *)
Lemma stop_then_restore env s :
  flag (fst s) bAnselSessionActive = true ->
  flag (fst s) bAnselSessionNewlyActive = false ->
  let s_stop := AnselStopSessionCallback s in
  let s_end := fst (UpdateCamera env s_stop) in
  fst s_stop = set bAnselSessionWantDeactivate true (fst s) /\
  flag (fst s_end) bAnselSessionActive = false /\
  flag (fst s_end) bAnselSessionWantDeactivate = false /\
  InitialCVarMap (fst s_end) = ∅ /\
  (filed (InitialCVarMap (fst s)) ->
   forall k, Console (snd s_end) !! k =
             match InitialCVarMap (fst s) !! k with
             | Some i => cvSetWithCurrentPriority (fInitialVal i) <$> Console (snd s) !! k
             | None => Console (snd s) !! k
             end) /\
  notifications (snd s_end) = notifications (snd s) ++ [OnPhotographySessionEnd].
Proof.
  intros HA HN. cbv zeta. rewrite (stop_running s HA HN).
  set (s_stop := (set bAnselSessionWantDeactivate true (fst s),
                  emit (UE_LOG "Photography camera session end") (snd s))).
  assert (HAs : flag (fst s_stop) bAnselSessionActive = true).
  { subst s_stop. cbn [fst]. rewrite flag_set_ne by discriminate. exact HA. }
  destruct (UpdateCamera_active env s_stop HAs) as (s3 & Hq & -> & HC3 & HM3).
  pose proof Hq as [Q1 _ _ _ _ Q6 _]. cbn [tick fst snd] in Q1, Q6.
  assert (HW3 : flag (fst s3) bAnselSessionWantDeactivate = true).
  { rewrite Q1 by done. subst s_stop. cbn [fst]. apply flag_set_eq. }
  rewrite HW3.
  destruct (deactivate_effect env s3) as [E1 E2 _ E4 E5 _ _ E8].
  assert (Q6' : calls (snd s3) = calls (snd s)).
  { rewrite Q6. subst s_stop. cbn [snd]. rewrite calls_emit. apply app_nil_r. }
  rewrite HC3, HM3 in E5. cbv zeta in E8. rewrite Q6' in E8.
  subst s_stop. cbn [fst snd InitialCVarMap set set_flag] in E5.
  repeat split; try assumption.
  rewrite !notifications_calls, E8, !List.filter_app.
  split_ifs; cbn; rewrite ?app_nil_r; reflexivity.
Qed.

(** A session from the start callback to the frame after the stop callback
    notifies the game of a start and an end when a frame ran in between, and
    of nothing otherwise. *)
Lemma session_notifications env evs s0 :
  flag (fst s0) bAnselSessionActive = true ->
  flag (fst s0) bAnselSessionNewlyActive = true ->
  flag (fst s0) bAnselSessionWantDeactivate = false ->
  forallb in_session evs = true ->
  let s_end := run (evs ++ [EvStopSessionCallback; EvUpdateCamera env]) s0 in
  flag (fst s_end) bAnselSessionActive = false /\
  notifications (snd s_end)
  = notifications (snd s0)
    ++ (if (frames evs =? 0)%Z then []
        else [OnPhotographySessionStart; OnPhotographySessionEnd]).
Proof.
  intros HA HN HW Hin. cbv zeta. rewrite run_app, !run_cons. cbn [run foldl step].
  destruct (Z.eqb_spec (frames evs) 0) as [Hf | Hf].
  - destruct (run_no_frames evs Hin Hf s0) as [Q1 _ _ _ _ Q6 _].
    set (s := run evs s0) in *.
    assert (HA' : flag (fst s) bAnselSessionActive = true) by (rewrite Q1; auto).
    assert (HN' : flag (fst s) bAnselSessionNewlyActive = true) by (rewrite Q1; auto).
    destruct (stop_dropped env s HA' HN') as (_ & H1 & _ & _ & _ & H2).
    split; [exact H1 |].
    rewrite !notifications_calls, H2, Q6, app_nil_r. reflexivity.
  - destruct (first_frame_split evs Hf) as (pre & env0 & post & -> & Hp).
    apply forallb_app_inv in Hin. destruct Hin as [Hpre Hpost].
    cbn [forallb] in Hpost. apply andb_true_iff in Hpost. destruct Hpost as [_ Hpost].
    rewrite run_app, run_cons.
    destruct (run_no_frames pre Hpre Hp s0) as [Q1 _ _ _ _ Q6 _].
    set (s_pre := run pre s0) in *.
    assert (HA' : flag (fst s_pre) bAnselSessionActive = true) by (rewrite Q1; auto).
    assert (HN' : flag (fst s_pre) bAnselSessionNewlyActive = true) by (rewrite Q1; auto).
    assert (HW' : flag (fst s_pre) bAnselSessionWantDeactivate = false) by (rewrite Q1; auto).
    pose proof (start_frame_inv env0 s_pre HA' HN' HW') as Hinv1.
    pose proof (run_inv _ _ post Hpost 0%Z _ (Z.le_refl 0) Hinv1) as Hinv2.
    cbn [step].
    set (s := run post (fst (UpdateCamera env0 s_pre))) in *.
    pose proof (stop_then_frame env _ _ _ s Hinv2) as Hend. cbv zeta in Hend.
    destruct Hend as (H1 & _ & _ & _ & _ & _ & _ & _ & Hc).
    split; [exact H1 |].
    rewrite !notifications_calls, Hc, (si_calls _ _ _ _ Hinv2), Q6.
    split_ifs; rewrite !List.filter_app, ?filter_notification_repeat; cbn;
      rewrite ?app_nil_r, <- ?app_assoc; reflexivity.
Qed.

(** X18. The stop callback on an active session: if the session is still
    newly active, it only clears [bAnselSessionActive], and the next frame
    touches no cvar, no captured value, no engine state and makes no call;
    otherwise it only sets [bAnselSessionWantDeactivate], and the next frame
    ends the session, restores the captured cvars, empties the map and
    notifies the session end. Over a whole session that starts with no
    deactivation pending, the end is notified exactly when the start was. *)
Theorem stop_callback_paths (env : FrameEnv) (evs : list Event) (s s0 : St) :
  (flag (fst s) bAnselSessionActive = true ->
   let s_stop := step EvStopSessionCallback s in
   let s_end := step (EvUpdateCamera env) s_stop in
   if flag (fst s) bAnselSessionNewlyActive then
     fst s_stop = set bAnselSessionActive false (fst s) /\
     flag (fst s_end) bAnselSessionActive = false /\
     Console (snd s_end) = Console (snd s) /\
     InitialCVarMap (fst s_end) = InitialCVarMap (fst s) /\
     view (snd s_end) = view (snd s) /\
     calls (snd s_end) = calls (snd s)
   else
     fst s_stop = set bAnselSessionWantDeactivate true (fst s) /\
     flag (fst s_end) bAnselSessionActive = false /\
     flag (fst s_end) bAnselSessionWantDeactivate = false /\
     InitialCVarMap (fst s_end) = ∅ /\
     (filed (InitialCVarMap (fst s)) ->
      forall k, Console (snd s_end) !! k =
                match InitialCVarMap (fst s) !! k with
                | Some i => cvSetWithCurrentPriority (fInitialVal i) <$> Console (snd s) !! k
                | None => Console (snd s) !! k
                end) /\
     notifications (snd s_end) = notifications (snd s) ++ [OnPhotographySessionEnd]) /\
  (flag (fst s0) bAnselSessionActive = true ->
   flag (fst s0) bAnselSessionNewlyActive = true ->
   flag (fst s0) bAnselSessionWantDeactivate = false ->
   forallb in_session evs = true ->
   let s_end := run (evs ++ [EvStopSessionCallback; EvUpdateCamera env]) s0 in
   flag (fst s_end) bAnselSessionActive = false /\
   notifications (snd s_end)
   = notifications (snd s0)
     ++ (if (frames evs =? 0)%Z then []
         else [OnPhotographySessionStart; OnPhotographySessionEnd])).
Proof.
  split.
  - intros HA. cbv zeta. cbn [step].
    destruct (flag (fst s) bAnselSessionNewlyActive) eqn:HN.
    + apply (stop_dropped env s HA HN).
    + apply (stop_then_restore env s HA HN).
  - apply session_notifications.
Qed.

Lemma stop_callback_paths_witness :
  calls (snd (step (EvUpdateCamera sample_frame) (step EvStopSessionCallback sample_started)))
  = calls (snd sample_started) /\
  notifications
    (snd (run (sample_session ++ [EvStopSessionCallback; EvUpdateCamera sample_frame])
              sample_started))
  = notifications (snd sample_started)
    ++ [OnPhotographySessionStart; OnPhotographySessionEnd].
Proof.
  pose proof (stop_callback_paths sample_frame sample_session sample_started sample_started)
    as [H1 H2].
  specialize (H1 ltac:(vm_compute; reflexivity)).
  specialize (H2 ltac:(vm_compute; reflexivity) ltac:(vm_compute; reflexivity)
                 ltac:(vm_compute; reflexivity) ltac:(vm_compute; reflexivity)).
  cbv zeta in H1, H2.
  assert (E : flag (fst sample_started) bAnselSessionNewlyActive = true)
    by (vm_compute; reflexivity).
  rewrite E in H1. destruct H1 as (_ & _ & _ & _ & _ & H1). destruct H2 as [_ H2].
  split; [exact H1 | exact H2].
Defined.

(** C9. The restore path can run for a session whose start path never ran.
    On a provider fresh from its constructor the SDK runs three sessions and
    twice stops one and starts the next between two frames.  The frame after
    the first such pair ends the first session and leaves the second one
    inactive but newly active; the stop callback of the second session then
    only files a deactivation request, and the first frame of the third
    session takes the restore path.  Each of the three start callbacks
    answers kAllowed; the session end is notified twice after one session
    start, and the second restore toggles the HUD, shown before the sessions,
    off. *)
Theorem restore_without_start :
  let s0 := (fresh_provider, sample_engine) in
  let s := run restarted_sessions s0 in
  fst (fst (AnselStartSessionCallback no_settings s0)) = kAllowed /\
  fst (fst (AnselStartSessionCallback no_settings (run (take 3 restarted_sessions) s0)))
  = kAllowed /\
  fst (fst (AnselStartSessionCallback no_settings (run (take 6 restarted_sessions) s0)))
  = kAllowed /\
  notifications (snd s)
  = [OnPhotographySessionStart; OnPhotographySessionEnd; OnPhotographySessionEnd] /\
  calls (snd s)
  = [OnPhotographySessionStart; SetTimeDilation 0; ShowHUD; SetSubtitlesEnabled false;
     ShowHUD; SetSubtitlesEnabled true; SetTimeDilation 1; SetPause false;
     OnPhotographySessionEnd;
     ShowHUD; SetSubtitlesEnabled true; SetTimeDilation 1; SetPause false;
     OnPhotographySessionEnd] /\
  MyHUD (snd s0) = Some true /\
  MyHUD (snd s) = Some false /\
  flag (fst s) bAnselSessionActive = false.
Proof. vm_compute. repeat split; reflexivity. Qed.

(** The stop callback files its request outside a session as well: the
    first frame of the next session then takes the restore path. *)
Remark stale_deactivation_request :
  notifications
    (snd (run [EvStopSessionCallback; EvStartSessionCallback no_settings;
               EvUpdateCamera sample_frame] (fresh_provider, sample_engine)))
  = [OnPhotographySessionEnd].
Proof. vm_compute. reflexivity. Qed.

(** What a frame outside a session records for the start callback. *)
Lemma no_session_gate env s :
  flag (fst s) bAnselSessionActive = false ->
  let s1 := fst (UpdateCamera env s) in
  flag (fst s1) bForceDisallow
  = match GameViewport env with
    | Some cfg => negb (bool_decide (cfg = ESplitScreenType_None))
    | None => false
    end || IsStereoscopic3D env /\
  flag (fst s1) bIsOrthoProjection = Orthographic env /\
  flag (fst s1) bAnselSessionActive = false /\
  Console (snd s1) = Console (snd s) /\
  GIsEditor (snd s1) = GIsEditor (snd s).
Proof.
  intros HA. cbv zeta. rewrite (UpdateCamera_inactive env s HA).
  destruct s as [p e]. cbn [fst snd] in *. unfold UpdateCamera_no_session.
  repeat match goal with
         | |- context [match ?x with _ => _ end] => destruct x
         end.
  all: unfold ReconfigureAnsel; cbn [fst snd].
  all: repeat first
         [ rewrite flag_set_eq
         | rewrite flag_set_ne by discriminate
         | progress cbn [flag set_RequiredFovType set_RequiredWorldToMeters
                         set_CurrentlyConfiguredFovType set_CurrentlyConfiguredWorldToMeters] ].
  all: repeat split; try reflexivity; try exact HA.
Qed.

(** The start callback: refused, it changes neither the provider nor the
    configuration it was handed; allowed, it fills the configuration in. *)
Lemma start_callback_cases settings s :
  let '(status, settings', s') := AnselStartSessionCallback settings s in
  if flag (fst s) bForceDisallow
     || (CVarPhotographyAllow (Console (snd s)) =? 0)%Z
     || GIsEditor (snd s)
  then status = kDisallowed /\ settings' = settings /\ fst s' = fst s
  else status = kAllowed /\
       isFovChangeAllowed settings' = negb (flag (fst s) bIsOrthoProjection) /\
       isHighresAllowed settings'
       = negb (CVarPhotographyEnableMultipart (Console (snd s)) =? 0)%Z /\
       is360MonoAllowed settings'
       = negb (CVarPhotographyEnableMultipart (Console (snd s)) =? 0)%Z /\
       is360StereoAllowed settings'
       = negb (CVarPhotographyEnableMultipart (Console (snd s)) =? 0)%Z /\
       flag (fst s') bAnselSessionActive = true /\
       flag (fst s') bAnselSessionNewlyActive = true.
Proof.
  destruct s as [p e]. unfold AnselStartSessionCallback. cbn [fst snd].
  destruct (flag p bForceDisallow), (CVarPhotographyAllow (Console e) =? 0)%Z, (GIsEditor e);
    cbn [negb andb orb fst snd isFovChangeAllowed isHighresAllowed is360MonoAllowed
         is360StereoAllowed];
    repeat split; flags; reflexivity.
Qed.

(** C10. A frame outside a session sets [bForceDisallow] exactly when the
    viewport is in split-screen or the engine renders in stereo, and records
    whether the projection is orthographic. The start callback answers
    kDisallowed, leaving the provider and the configuration as they were,
    whenever [bForceDisallow] is set, [r.Photography.Allow] reads 0 or
    [GIsEditor] holds; otherwise it answers kAllowed, allows the FOV change
    exactly when the projection is not orthographic and gives the high-res and
    both 360 permissions the value of [r.Photography.EnableMultipart]. So a
    start callback that follows a frame outside a session that saw
    split-screen or stereo is refused. *)
Theorem session_start_gate (env : FrameEnv) (settings : SessionConfiguration) (s s' : St) :
  (flag (fst s) bAnselSessionActive = false ->
   let s1 := step (EvUpdateCamera env) s in
   flag (fst s1) bForceDisallow
   = match GameViewport env with
     | Some cfg => negb (bool_decide (cfg = ESplitScreenType_None))
     | None => false
     end || IsStereoscopic3D env /\
   flag (fst s1) bIsOrthoProjection = Orthographic env /\
   (flag (fst s1) bForceDisallow = true ->
    AnselStartSessionCallback settings s1
    = (kDisallowed, settings, (fst s1, emit (log_session_attempt kDisallowed (fst s1)) (snd s1)))
    /\ flag (fst s1) bAnselSessionActive = false)) /\
  (let '(status, settings', s'') := AnselStartSessionCallback settings s' in
   if flag (fst s') bForceDisallow
      || (CVarPhotographyAllow (Console (snd s')) =? 0)%Z
      || GIsEditor (snd s')
   then status = kDisallowed /\ settings' = settings /\ fst s'' = fst s'
   else status = kAllowed /\
        isFovChangeAllowed settings' = negb (flag (fst s') bIsOrthoProjection) /\
        isHighresAllowed settings'
        = negb (CVarPhotographyEnableMultipart (Console (snd s')) =? 0)%Z /\
        is360MonoAllowed settings'
        = negb (CVarPhotographyEnableMultipart (Console (snd s')) =? 0)%Z /\
        is360StereoAllowed settings'
        = negb (CVarPhotographyEnableMultipart (Console (snd s')) =? 0)%Z /\
        flag (fst s'') bAnselSessionActive = true /\
        flag (fst s'') bAnselSessionNewlyActive = true).
Proof.
  split.
  - intros HA. cbv zeta. cbn [step].
    destruct (no_session_gate env s HA) as (H1 & H2 & H3 & _).
    split; [exact H1 |]. split; [exact H2 |].
    intros HF. split; [| exact H3].
    destruct (fst (UpdateCamera env s)) as [p1 e1]. cbn [fst snd] in *.
    unfold AnselStartSessionCallback. rewrite HF. reflexivity.
  - apply start_callback_cases.
Qed.

Lemma session_start_gate_witness :
  fst (AnselStartSessionCallback no_settings
         (step (EvUpdateCamera splitscreen_frame) (fresh_provider, sample_engine)))
  = (kDisallowed, no_settings).
Proof.
  pose proof (session_start_gate splitscreen_frame no_settings
                (fresh_provider, sample_engine) (fresh_provider, sample_engine)) as [H _].
  specialize (H ltac:(vm_compute; reflexivity)). cbv zeta in H.
  destruct H as (H1 & _ & H3).
  destruct (H3 ltac:(rewrite H1; reflexivity)) as [-> _]. reflexivity.
Defined.

(** C10 as stated fails: a frame that begins inside a session clears
    [bForceDisallow] and records nothing, so after a frame that ends a
    session in split-screen and with an orthographic projection the start
    callback allows the session and the change of the FOV. *)
Lemma start_allowed_in_splitscreen :
  let s := session_ended_in_splitscreen in
  GameViewport splitscreen_frame = Some TwoPlayer_Horizontal /\
  Orthographic splitscreen_frame = true /\
  flag (fst s) bAnselSessionActive = false /\
  fst (fst (AnselStartSessionCallback no_settings s)) = kAllowed /\
  isFovChangeAllowed (snd (fst (AnselStartSessionCallback no_settings s))) = true.
Proof. vm_compute. repeat split; reflexivity. Qed.

(** C3. When the platform returns no handle for the SDK's DLL,
    [bAnselDLLLoaded] is false, [IsSupported] answers false whatever the SDK
    would say, [CreateCameraPhotography] returns the null provider, and all
    that reaches the engine is the two log lines: no console-variable sink is
    registered and no Ansel configuration is set. *)
Theorem dll_load_failure (m : FAnselModule.Statics) (isAnselAvailable : bool)
    (uninit : Provider) (e : Engine) :
  let m1 := fst (FAnselModule.StartupModule 0 m e) in
  let e1 := snd (FAnselModule.StartupModule 0 m e) in
  let created := FAnselModule.CreateCameraPhotography m1 isAnselAvailable uninit e1 in
  FAnselModule.bAnselDLLLoaded m1 = false /\
  FAnselModule.IsSupported m1 isAnselAvailable = false /\
  fst created = None /\
  Effects (snd created)
  = Effects e ++ [UE_LOG "Tried to load : success=0";
                  UE_LOG "Ansel DLL was not successfully loaded."] /\
  Console (snd created) = Console e /\
  view (snd created) = view e.
Proof.
  cbv zeta. unfold FAnselModule.CreateCameraPhotography, FAnselModule.IsSupported,
    FAnselModule.StartupModule, FAnselModule.constructor, FAnselModule.destructor.
  cbn [fst snd FAnselModule.bAnselDLLLoaded Z.eqb negb andb].
  repeat split. cbn [Effects emit]. rewrite <- app_assoc. reflexivity.
Qed.

(** ** Statements that leave the capture alone *)

Lemma keeps_sequence fs : Forall keeps_capture fs -> keeps_capture (sequence fs).
Proof.
  unfold sequence. induction 1 as [| f fs Hf _ IH]; intros s; simpl; [reflexivity |].
  rewrite IH. apply Hf.
Qed.

Lemma keeps_when c fs : Forall keeps_capture fs -> keeps_capture (when c fs).
Proof.
  intros H s. unfold when. destruct (c s); [by apply keeps_sequence | reflexivity].
Qed.

Lemma keeps_stmt_e f : keeps_capture (stmt_e f).
Proof. intros s. reflexivity. Qed.

Lemma keeps_stmt_p g :
  (forall p, capture_state (g p) = capture_state p) -> keeps_capture (stmt_p g).
Proof. intros H s. apply H. Qed.

Lemma capture_state_set f b p :
  f <> bAnselCaptureActive -> capture_state (set f b p) = capture_state p.
Proof. intros H. unfold capture_state. rewrite flag_set_ne by exact H. reflexivity. Qed.

Lemma capture_state_ProcessUIBool id member p :
  member <> bAnselCaptureActive -> capture_state (ProcessUIBool id member p) = capture_state p.
Proof.
  intros H. unfold ProcessUIBool. destruct (userControlId p id <=? 0)%Z;
    rewrite ?capture_state_set by exact H; reflexivity.
Qed.

Lemma keeps_SetCapturedCVarPredicated CVarName v cmp wantReset useExistingPriority :
  keeps_capture (SetCapturedCVarPredicated CVarName v cmp wantReset useExistingPriority).
Proof.
  intros [p e]. unfold SetCapturedCVarPredicated, Contains, CaptureCVar, FindConsoleVariable.
  simpl.
  destruct (InitialCVarMap p !! lower CVarName) as [i|] eqn:HM; simpl.
  - rewrite HM. destruct i as [[k|] v0]; simpl; [| reflexivity].
    destruct (cmp v v0); [destruct useExistingPriority |]; reflexivity.
  - destruct (Console e !! lower CVarName) as [c|] eqn:Hc; simpl; [| reflexivity].
    rewrite lookup_insert_eq. simpl.
    destruct (cmp v _); [destruct useExistingPriority |]; reflexivity.
Qed.

Lemma keeps_SetCapturedCVar CVarName v wantReset useExistingPriority :
  keeps_capture (SetCapturedCVar CVarName v wantReset useExistingPriority).
Proof. apply keeps_SetCapturedCVarPredicated. Qed.

Lemma keeps_copy_flag member other :
  member <> bAnselCaptureActive -> keeps_capture (copy_flag member other).
Proof. intros H s. unfold copy_flag, stmt_p. cbn [fst]. apply capture_state_set. exact H. Qed.

Ltac keeps_item :=
  lazymatch goal with
  | |- keeps_capture (copy_flag _ _) => apply keeps_copy_flag; discriminate
  | |- keeps_capture (stmt_e _) => apply keeps_stmt_e
  | |- keeps_capture (stmt_p (set _ _)) =>
      apply keeps_stmt_p; intros ?; apply capture_state_set; discriminate
  | |- keeps_capture (stmt_p _) => apply keeps_stmt_p; intros ?; reflexivity
  | |- keeps_capture (SetCapturedCVar _ _ _ _) => apply keeps_SetCapturedCVar
  | |- keeps_capture (when _ _) => apply keeps_when
  | |- keeps_capture (sequence _) => apply keeps_sequence
  | |- keeps_capture (?m _ _ _ _) => unfold m
  | |- keeps_capture (?m _ _) =>
      unfold m;
      first [ intros ?; first [apply keeps_SetCapturedCVar
                              | apply keeps_SetCapturedCVarPredicated]
            | idtac ]
  end.

Ltac keeps_list :=
  repeat lazymatch goal with
         | |- Forall _ [] => apply Forall_nil
         | |- Forall _ (_ :: _) => apply Forall_cons
         | |- Forall _ ?l => unfold l
         | |- keeps_capture _ => keeps_item
         end.

Lemma keeps_clear_control i : keeps_capture (clear_control i).
Proof.
  intros [p e]. unfold clear_control. destruct (0 <? userControlId p i)%Z; reflexivity.
Qed.

Lemma keeps_rebuild_controls PP : keeps_capture (rebuild_controls PP).
Proof.
  unfold rebuild_controls. apply keeps_sequence. apply Forall_cons.
  { apply keeps_sequence. unfold all_controls; simpl.
    repeat (apply Forall_cons; [apply keeps_clear_control |]). apply Forall_nil. }
  keeps_list.
Qed.

Lemma keeps_DoCustomUIControls PP b s :
  capture_state (fst (snd (DoCustomUIControls PP b s))) = capture_state (fst s).
Proof.
  unfold DoCustomUIControls. cbv zeta.
  set (s1 := if b then rebuild_controls PP s else s). cbn [fst snd].
  rewrite !capture_state_ProcessUIBool by discriminate.
  subst s1. destruct b; [exact (keeps_rebuild_controls PP s) | reflexivity].
Qed.

Lemma keeps_rendering_settings :
  keeps_capture (sequence [lod_settings; lumen_settings; skylight_settings;
                           sg_quality_settings; antialiasing_settings;
                           high_quality_settings]).
Proof.
  apply keeps_sequence.
  repeat (apply Forall_cons; [| ]); try apply Forall_nil.
  all: lazymatch goal with |- keeps_capture ?f => unfold f end.
  all: apply keeps_when; keeps_list.
Qed.

Lemma keeps_capture_streaming_settings : keeps_capture capture_streaming_settings.
Proof. apply keeps_sequence. keeps_list. Qed.

(** With a session, a capture and auto-postprocess on, [UpdatePostProcessing]
    returns what [capture_postprocess] makes of the settings the UI controls
    produced. *)
Lemma UpdatePostProcessing_capture PP s :
  flag (fst s) bAnselSessionActive = true ->
  flag (fst s) bAnselCaptureActive = true ->
  flag (fst s) bAutoPostprocess = true ->
  fst (UpdatePostProcessing PP s)
  = capture_postprocess (AnselCaptureInfo (fst s))
      (fst (DoCustomUIControls PP (flag (fst s) bUIControlsNeedRebuild) s)).
Proof.
  intros HA HC HP. unfold UpdatePostProcessing. rewrite HA.
  pose proof (quiet_flags _ _ (quiet_DoCustomUIControls PP (flag (fst s) bUIControlsNeedRebuild) s)
                bAutoPostprocess eq_refl) as Hq.
  pose proof (keeps_DoCustomUIControls PP (flag (fst s) bUIControlsNeedRebuild) s) as Hk.
  destruct (DoCustomUIControls PP (flag (fst s) bUIControlsNeedRebuild) s) as [PP' s'].
  cbn [fst snd] in Hq, Hk |- *. unfold ConfigureRenderingSettingsForPhotography. cbv zeta.
  match goal with |- context [sequence ?l s'] => set (s1 := sequence l s') end.
  assert (Hq1 : flag (fst s1) bAutoPostprocess = flag (fst s') bAutoPostprocess).
  { apply quiet_flags; [| reflexivity]. apply quiet_sequence.
    repeat (apply Forall_cons; [first [apply quiet_lod_settings | apply quiet_lumen_settings
      | apply quiet_skylight_settings | apply quiet_sg_quality_settings
      | apply quiet_antialiasing_settings | apply quiet_high_quality_settings]|]).
    apply Forall_nil. }
  pose proof (keeps_rendering_settings s') as Hk1. fold s1 in Hk1. clearbody s1.
  pose proof (quiet_flags _ _ (quiet_capture_streaming_settings s1) bAutoPostprocess eq_refl)
    as Hq2.
  pose proof (keeps_capture_streaming_settings s1) as Hk2.
  set (s2 := capture_streaming_settings s1) in *. clearbody s2.
  rewrite Hk in Hk1. rewrite Hk1 in Hk2.
  unfold capture_state in Hk1, Hk2.
  injection Hk1 as Hc1 Hi1. injection Hk2 as Hc2 Hi2.
  rewrite Hc1, HC, Hq2, Hq1, Hq, HP. cbn [fst]. rewrite Hi2. reflexivity.
Qed.

Lemma Qltb_lt a b : Qltb a b = true <-> (a < b)%Q.
Proof.
  unfold Qltb. rewrite negb_true_iff. split.
  - intros H. apply Qnot_le_lt. intros Hle. apply Qle_bool_iff in Hle. congruence.
  - intros H. destruct (Qle_bool b a) eqn:E; [| reflexivity].
    apply Qle_bool_iff in E. exfalso. exact (Qlt_not_le _ _ H E).
Qed.

(** What [capture_postprocess] leaves in a field, by the capture type and by
    whether the incoming screen percentage is below 100. *)
Lemma capture_postprocess_fields c base :
  let out := capture_postprocess c base in
  let stereo := match c with kCaptureType360Stereo | kCaptureTypeStereo => true | _ => false end in
  let superres := match c with kCaptureTypeSuperResolution => true | _ => false end in
  let below := Qltb (Value base ScreenPercentage_DEPRECATED) 100 in
  (forall f, In f [MotionBlurAmount; BloomDirtMaskIntensity; LensFlareIntensity;
                   VignetteIntensity; SceneFringeIntensity] ->
     bOverride out f = true /\ Value out f = 0%Q) /\
  (bOverride out ScreenPercentage_DEPRECATED
   = if below then true else bOverride base ScreenPercentage_DEPRECATED) /\
  (Value out ScreenPercentage_DEPRECATED
   = if below then 100%Q else Value base ScreenPercentage_DEPRECATED) /\
  (forall f, In f [DepthOfFieldScale; DepthOfFieldNearBlurSize; DepthOfFieldFarBlurSize;
                   DepthOfFieldDepthBlurRadius] ->
     if stereo then bOverride out f = true /\ Value out f = 0%Q
     else bOverride out f = bOverride base f /\ Value out f = Value base f) /\
  (if superres
   then bOverride out ScreenSpaceReflectionIntensity
        = bOverride base ScreenSpaceReflectionIntensity /\
        Value out ScreenSpaceReflectionIntensity = Value base ScreenSpaceReflectionIntensity
   else bOverride out ScreenSpaceReflectionIntensity = true /\
        Value out ScreenSpaceReflectionIntensity = 0%Q).
Proof.
  cbv zeta. unfold capture_postprocess. cbv zeta.
  lazymatch goal with
  | |- context [Qltb ?x 100] =>
      change x with (Value base ScreenPercentage_DEPRECATED)
  end.
  destruct (Qltb (Value base ScreenPercentage_DEPRECATED) 100); destruct c;
    cbv iota beta; cbn [negb].
  all: (split; [| split; [| split; [| split]]]).
  all: try (intros f Hf; cbn [In] in Hf;
            repeat (destruct Hf as [<- | Hf]; [split; reflexivity |]); destruct Hf).
  all: try split; reflexivity.
Qed.

(** C7. With a session, a multi-part capture and auto-postprocess on,
    [UpdatePostProcessing] returns settings in which motion blur, bloom dirt
    mask, lens flare, vignette and scene fringe are overridden to 0; the
    screen percentage is overridden to 100 if the UI controls left it below
    100, and is as they left it otherwise; the four depth-of-field blur
    parameters are overridden to 0 in a stereo or 360-stereo capture, and are
    as the UI controls left them in any other; screen-space reflection is
    overridden to 0 unless the capture is a super-resolution one, in which
    it is as the UI controls left it. *)
Theorem capture_postprocess_overrides (PP : FPostProcessSettings) (s : St) :
  flag (fst s) bAnselSessionActive = true ->
  flag (fst s) bAnselCaptureActive = true ->
  flag (fst s) bAutoPostprocess = true ->
  let base := fst (DoCustomUIControls PP (flag (fst s) bUIControlsNeedRebuild) s) in
  let out := fst (UpdatePostProcessing PP s) in
  let stereo := match AnselCaptureInfo (fst s) with
                | kCaptureType360Stereo | kCaptureTypeStereo => true
                | _ => false
                end in
  let superres := match AnselCaptureInfo (fst s) with
                  | kCaptureTypeSuperResolution => true
                  | _ => false
                  end in
  (forall f, In f [MotionBlurAmount; BloomDirtMaskIntensity; LensFlareIntensity;
                   VignetteIntensity; SceneFringeIntensity] ->
     bOverride out f = true /\ Value out f = 0%Q) /\
  ((Value base ScreenPercentage_DEPRECATED < 100)%Q ->
     bOverride out ScreenPercentage_DEPRECATED = true /\
     Value out ScreenPercentage_DEPRECATED = 100%Q) /\
  (~ (Value base ScreenPercentage_DEPRECATED < 100)%Q ->
     bOverride out ScreenPercentage_DEPRECATED = bOverride base ScreenPercentage_DEPRECATED /\
     Value out ScreenPercentage_DEPRECATED = Value base ScreenPercentage_DEPRECATED) /\
  (forall f, In f [DepthOfFieldScale; DepthOfFieldNearBlurSize; DepthOfFieldFarBlurSize;
                   DepthOfFieldDepthBlurRadius] ->
     if stereo then bOverride out f = true /\ Value out f = 0%Q
     else bOverride out f = bOverride base f /\ Value out f = Value base f) /\
  (if superres
   then bOverride out ScreenSpaceReflectionIntensity
        = bOverride base ScreenSpaceReflectionIntensity /\
        Value out ScreenSpaceReflectionIntensity = Value base ScreenSpaceReflectionIntensity
   else bOverride out ScreenSpaceReflectionIntensity = true /\
        Value out ScreenSpaceReflectionIntensity = 0%Q).
Proof.
  intros HA HC HP. cbv zeta. rewrite (UpdatePostProcessing_capture PP s HA HC HP).
  set (base := fst (DoCustomUIControls PP (flag (fst s) bUIControlsNeedRebuild) s)).
  clearbody base.
  destruct (capture_postprocess_fields (AnselCaptureInfo (fst s)) base)
    as (H1 & H2 & H3 & H4 & H5).
  split; [exact H1 |]. split; [| split; [| split; [exact H4 | exact H5]]].
  - intros Hlt. apply Qltb_lt in Hlt. rewrite H2, H3, Hlt. split; reflexivity.
  - intros Hge. destruct (Qltb (Value base ScreenPercentage_DEPRECATED) 100) eqn:E.
    + apply Qltb_lt in E. contradiction.
    + rewrite H2, H3. split; reflexivity.
Qed.

Lemma capture_postprocess_overrides_witness :
  let out := fst (UpdatePostProcessing zero_settings sample_capturing) in
  Value out ScreenPercentage_DEPRECATED = 100%Q /\
  bOverride out DepthOfFieldScale = true /\
  Value out ScreenSpaceReflectionIntensity = 0%Q.
Proof.
  pose proof (capture_postprocess_overrides zero_settings sample_capturing
                ltac:(vm_compute; reflexivity) ltac:(vm_compute; reflexivity)
                ltac:(vm_compute; reflexivity)) as H.
  cbv zeta in H. destruct H as (_ & H2 & _ & H4 & H5).
  assert (E : AnselCaptureInfo (fst sample_capturing) = kCaptureTypeStereo)
    by (vm_compute; reflexivity).
  rewrite E in H4, H5.
  cbv zeta. split; [apply H2; vm_compute; reflexivity |].
  split; [apply (H4 DepthOfFieldScale); left; reflexivity | apply H5].
Defined.

(** ** The function library *)

Lemma SetCapturedCVarPredicated_missing CVarName v cmp wantReset useExistingPriority p e :
  InitialCVarMap p !! lower CVarName = None ->
  Console e !! lower CVarName = None ->
  SetCapturedCVarPredicated CVarName v cmp wantReset useExistingPriority (p, e)
  = (p, emit (UE_LOG ("CVar used by Ansel not found: " +:+ CVarName)) e).
Proof.
  intros HM HC. unfold SetCapturedCVarPredicated, Contains, CaptureCVar, FindConsoleVariable.
  cbn [fst snd]. rewrite HM, HC. reflexivity.
Qed.

Lemma static_lookup_missing slot Name sys :
  Console (UAnselFunctionLibrary.engine sys) !! lower Name = None ->
  unresolved_static slot sys ->
  fst (UAnselFunctionLibrary.static_FindConsoleVariable slot Name sys) = None /\
  UAnselFunctionLibrary.engine (snd (UAnselFunctionLibrary.static_FindConsoleVariable slot Name sys))
  = UAnselFunctionLibrary.engine sys /\
  UAnselFunctionLibrary.ActiveImpl
    (snd (UAnselFunctionLibrary.static_FindConsoleVariable slot Name sys))
  = UAnselFunctionLibrary.ActiveImpl sys /\
  UAnselFunctionLibrary.LastUnconfinedScreenshotCamera
    (snd (UAnselFunctionLibrary.static_FindConsoleVariable slot Name sys))
  = UAnselFunctionLibrary.LastUnconfinedScreenshotCamera sys /\
  UAnselFunctionLibrary.cached
    (snd (UAnselFunctionLibrary.static_FindConsoleVariable slot Name sys)) slot
  = Some None.
Proof.
  intros HC [Hs | Hs]; unfold UAnselFunctionLibrary.static_FindConsoleVariable; rewrite Hs.
  - unfold FindConsoleVariable. rewrite HC. cbn. repeat split. apply fn_lookup_insert.
  - cbn. repeat split. exact Hs.
Qed.

Lemma static_lookup_found slot Name sys c :
  resolves slot Name sys ->
  Console (UAnselFunctionLibrary.engine sys) !! lower Name = Some c ->
  fst (UAnselFunctionLibrary.static_FindConsoleVariable slot Name sys) = Some (lower Name) /\
  UAnselFunctionLibrary.engine (snd (UAnselFunctionLibrary.static_FindConsoleVariable slot Name sys))
  = UAnselFunctionLibrary.engine sys /\
  UAnselFunctionLibrary.cached
    (snd (UAnselFunctionLibrary.static_FindConsoleVariable slot Name sys)) slot
  = Some (Some (lower Name)).
Proof.
  intros [Hs | Hs] Hc; unfold UAnselFunctionLibrary.static_FindConsoleVariable; rewrite Hs.
  - unfold FindConsoleVariable. rewrite Hc. cbn. repeat split. apply fn_lookup_insert.
  - cbn. repeat split. exact Hs.
Qed.

Lemma set_static_cvar_missing slot Name v :
  skips_missing slot Name (UAnselFunctionLibrary.set_static_cvar slot Name v).
Proof.
  intros sys HC Hs. destruct (static_lookup_missing slot Name sys HC Hs) as (H1 & H2).
  unfold UAnselFunctionLibrary.set_static_cvar.
  destruct (UAnselFunctionLibrary.static_FindConsoleVariable slot Name sys) as [ptr sys1].
  cbn [fst snd] in *. subst ptr. exact H2.
Qed.




Lemma static_lookup_frame slot Name sys :
  let sys1 := snd (UAnselFunctionLibrary.static_FindConsoleVariable slot Name sys) in
  UAnselFunctionLibrary.engine sys1 = UAnselFunctionLibrary.engine sys /\
  UAnselFunctionLibrary.ActiveImpl sys1 = UAnselFunctionLibrary.ActiveImpl sys /\
  UAnselFunctionLibrary.LastUnconfinedScreenshotCamera sys1
  = UAnselFunctionLibrary.LastUnconfinedScreenshotCamera sys.
Proof.
  cbv zeta. unfold UAnselFunctionLibrary.static_FindConsoleVariable.
  destruct (UAnselFunctionLibrary.cached sys slot); repeat split.
Qed.

Lemma set_Console_same e : e = set_Console (Console e) e.
Proof. destruct e. reflexivity. Qed.

Lemma cvar_only_set_static_cvar slot Name v :
  cvar_only (UAnselFunctionLibrary.set_static_cvar slot Name v).
Proof.
  intros sys. destruct (static_lookup_frame slot Name sys) as (H1 & H2 & H3).
  unfold UAnselFunctionLibrary.set_static_cvar.
  destruct (UAnselFunctionLibrary.static_FindConsoleVariable slot Name sys) as [[k|] sys1];
    cbn [fst snd] in *.
  - cbn. rewrite H1, H2, H3. repeat split.
  - rewrite H1, H2, H3. repeat split. apply set_Console_same.
Qed.

Lemma cvar_only_query slot Name (f : UAnselFunctionLibrary.System -> bool * UAnselFunctionLibrary.System) :
  (forall sys, snd (f sys) = snd (UAnselFunctionLibrary.static_FindConsoleVariable slot Name sys)) ->
  cvar_only (fun sys => snd (f sys)).
Proof.
  intros Hf sys. rewrite Hf. destruct (static_lookup_frame slot Name sys) as (H1 & H2 & H3).
  rewrite H1, H2, H3. repeat split. apply set_Console_same.
Qed.

(** A setter writes no variable other than the one it names. *)
Lemma set_static_cvar_others slot Name v sys k :
  UAnselFunctionLibrary.cached sys slot = None ->
  k <> lower Name ->
  Console (UAnselFunctionLibrary.engine (UAnselFunctionLibrary.set_static_cvar slot Name v sys))
    !! k
  = Console (UAnselFunctionLibrary.engine sys) !! k.
Proof.
  intros Hs Hk. unfold UAnselFunctionLibrary.set_static_cvar,
    UAnselFunctionLibrary.static_FindConsoleVariable, FindConsoleVariable.
  rewrite Hs. destruct (Console (UAnselFunctionLibrary.engine sys) !! lower Name); cbn.
  - unfold store_cvar. rewrite lookup_alter_ne by congruence. reflexivity.
  - reflexivity.
Qed.

Lemma on_provider_console f sys :
  (forall s, Console (snd (f s)) = Console (snd s)) ->
  Console (UAnselFunctionLibrary.engine (UAnselFunctionLibrary.on_provider f sys))
  = Console (UAnselFunctionLibrary.engine sys).
Proof.
  intros Hf. unfold UAnselFunctionLibrary.on_provider.
  destruct (UAnselFunctionLibrary.ActiveImpl sys) as [p|]; [| reflexivity].
  cbn. apply Hf.
Qed.




(** ** Camera constraints *)

Section Vectors.

Local Open Scope R_scope.

Lemma sub_add_cancel (O v : FVector) : FVector.sub (FVector.add O v) O = v.
Proof.
  destruct O, v. unfold FVector.sub, FVector.add. cbn. f_equal; ring.
Qed.

Lemma add_sub_cancel (O v : FVector) : FVector.add O (FVector.sub v O) = v.
Proof.
  destruct O, v. unfold FVector.sub, FVector.add. cbn. f_equal; ring.
Qed.

Lemma SizeSquared_nonneg (v : FVector) : 0 <= FVector.SizeSquared v.
Proof. unfold FVector.SizeSquared. nra. Qed.

Lemma Size_ZeroVector : FVector.Size FVector.ZeroVector = 0.
Proof.
  unfold FVector.Size, FVector.SizeSquared, FVector.ZeroVector. cbn.
  replace (0 * 0 + 0 * 0 + 0 * 0) with 0 by ring. apply sqrt_0.
Qed.

Lemma Size_le_square (v : FVector) (m : R) :
  0 <= m -> (FVector.Size v <= m <-> FVector.SizeSquared v <= m * m).
Proof.
  intros Hm. unfold FVector.Size. pose proof (SizeSquared_nonneg v) as Hq. split.
  - intros H. pose proof (sqrt_pos (FVector.SizeSquared v)) as Hs.
    rewrite <- (sqrt_sqrt (FVector.SizeSquared v)) by exact Hq. nra.
  - intros H. rewrite <- (sqrt_square m) by exact Hm. apply sqrt_le_1_alt. exact H.
Qed.

(** The clamped vector is no longer than the bound. *)
Lemma Size_GetClampedToMaxSize (v : FVector) (m : R) :
  0 <= m -> FVector.Size (FVector.GetClampedToMaxSize v m) <= m.
Proof.
  intros Hm. unfold FVector.GetClampedToMaxSize.
  destruct (Rlt_dec m FVector.UE_KINDA_SMALL_NUMBER) as [_ | _].
  { rewrite Size_ZeroVector. exact Hm. }
  cbv zeta. destruct (Rgt_dec (FVector.SizeSquared v) (m * m)) as [Hgt | Hle].
  - pose proof (SizeSquared_nonneg v) as Hq.
    assert (Hpos : 0 < FVector.SizeSquared v) by nra.
    pose proof (sqrt_lt_R0 _ Hpos) as Hs.
    pose proof (sqrt_sqrt _ Hq) as Hss.
    set (q := FVector.SizeSquared v) in *. set (r := sqrt q) in *.
    unfold FVector.Size.
    replace (FVector.SizeSquared _) with (q * (m * / r) * (m * / r)).
    + replace (q * (m * / r) * (m * / r)) with (m * m).
      * rewrite sqrt_square by exact Hm. lra.
      * rewrite <- Hss. field. lra.
    + subst q. unfold FVector.SizeSquared. cbn. ring.
  - apply Size_le_square; [exact Hm |]. lra.
Qed.

(** A vector within the bound is left as it is. *)
Lemma GetClampedToMaxSize_within (v : FVector) (m : R) :
  FVector.UE_KINDA_SMALL_NUMBER <= m -> FVector.Size v <= m ->
  FVector.GetClampedToMaxSize v m = v.
Proof.
  intros Hs Hv. unfold FVector.GetClampedToMaxSize.
  destruct (Rlt_dec m FVector.UE_KINDA_SMALL_NUMBER) as [Hlt | _]; [lra |].
  cbv zeta. destruct (Rgt_dec (FVector.SizeSquared v) (m * m)) as [Hgt | _]; [| reflexivity].
  assert (Hm : 0 <= m) by (unfold FVector.UE_KINDA_SMALL_NUMBER in Hs; lra).
  apply (Size_le_square v m Hm) in Hv. lra.
Qed.

Lemma dot_self_nonpos (a b : FVector) :
  FVector.DotProduct (FVector.sub a b) (FVector.sub a b) <= 0 -> a = b.
Proof.
  destruct a as [x1 y1 z1], b as [x2 y2 z2].
  unfold FVector.DotProduct, FVector.sub. cbn. intros H.
  pose proof (Rle_0_sqr (x1 - x2)) as Hx. pose proof (Rle_0_sqr (y1 - y2)) as Hy.
  pose proof (Rle_0_sqr (z1 - z2)) as Hz. unfold Rsqr in Hx, Hy, Hz.
  assert (Ex : (x1 - x2) * (x1 - x2) = 0) by lra.
  assert (Ey : (y1 - y2) * (y1 - y2) = 0) by lra.
  assert (Ez : (z1 - z2) * (z1 - z2) = 0) by lra.
  apply Rsqr_0_uniq in Ex, Ey, Ez. f_equal; lra.
Qed.

End Vectors.

(** C6. [ConstrainCameraByDistance]: a negative [MaxDistance] returns the new
    location as it is; otherwise the result is the original location plus the
    movement clamped to [MaxDistance], which lies no farther than
    [MaxDistance] from the original location, and is the new location itself
    when that is within [MaxDistance] (for a [MaxDistance] the clamp does not
    take for zero); the previous location plays no part. *)
Theorem distance_clamp (ctx : UAnselFunctionLibrary.WorldContext)
    (New Prev Orig : FVector) (MaxDistance : R) :
  let out := UAnselFunctionLibrary.ConstrainCameraByDistance ctx New Prev Orig MaxDistance in
  ((MaxDistance < 0)%R -> out = New) /\
  ((0 <= MaxDistance)%R ->
   out = FVector.add Orig (FVector.GetClampedToMaxSize (FVector.sub New Orig) MaxDistance) /\
   (FVector.Size (FVector.sub out Orig) <= MaxDistance)%R /\
   ((FVector.UE_KINDA_SMALL_NUMBER <= MaxDistance)%R ->
    (FVector.Size (FVector.sub New Orig) <= MaxDistance)%R -> out = New)) /\
  (forall Prev',
     UAnselFunctionLibrary.ConstrainCameraByDistance ctx New Prev' Orig MaxDistance = out).
Proof.
  cbv zeta. unfold UAnselFunctionLibrary.ConstrainCameraByDistance.
  destruct (Rlt_dec MaxDistance 0) as [Hlt | Hge].
  - split; [reflexivity |]. split; [lra | reflexivity].
  - split; [intros H; contradiction |]. split; [| reflexivity].
    intros Hm. cbv zeta. split; [reflexivity |]. split.
    + rewrite sub_add_cancel. apply Size_GetClampedToMaxSize. exact Hm.
    + intros Hs Hv. rewrite (GetClampedToMaxSize_within _ _ Hs Hv).
      apply add_sub_cancel.
Qed.

Lemma distance_clamp_witness :
  UAnselFunctionLibrary.ConstrainCameraByDistance sample_context sample_target sample_origin
    sample_origin (-1)
  = sample_target /\
  (FVector.Size
     (FVector.sub
        (UAnselFunctionLibrary.ConstrainCameraByDistance sample_context sample_target
           sample_origin sample_origin 50) sample_origin) <= 50)%R.
Proof.
  split.
  - destruct (distance_clamp sample_context sample_target sample_origin sample_origin (-1))
      as (H & _).
    apply H. lra.
  - destruct (distance_clamp sample_context sample_target sample_origin sample_origin 50)
      as (_ & H & _).
    apply H. lra.
Defined.

(** C5. [ConstrainCameraByGeometry] with its camera-size variable at hand:
    the result is the new location when the camera size is negative, when
    the sweep from the tracked origin to the new location is nearly zero, and
    when the tracked origin is occupied; in all cases the result is the new
    location, the previous location, or the location of a blocking hit of the
    sweep, and it differs from the new location only when the sweep was made
    (or was skipped for no reason above) and it is that hit or the previous
    location. *)
Theorem geometry_defaults_to_new (world : UAnselFunctionLibrary.UWorld)
    (New Prev Orig : FVector) (sys sys1 : UAnselFunctionLibrary.System) (k : string) :
  UAnselFunctionLibrary.static_FindConsoleVariable
    UAnselFunctionLibrary.in_ConstrainCameraByGeometry
    "r.Photography.Constrain.CameraSize" sys = (Some k, sys1) ->
  let r := UAnselFunctionLibrary.ConstrainCameraByGeometry world New Prev Orig sys in
  let CameraRadius := GetFloat_at k (Console (UAnselFunctionLibrary.engine sys1)) in
  let Last := UAnselFunctionLibrary.tracked_origin Prev Orig sys1 in
  ((CameraRadius < 0)%Q -> r = UAnselFunctionLibrary.Returned New sys1) /\
  (FVector.IsNearlyZero (FVector.sub New Last) = true -> UAnselFunctionLibrary.Out r = New) /\
  (UAnselFunctionLibrary.OverlapAnyTestByChannel world Last CameraRadius = true ->
   UAnselFunctionLibrary.Out r = New) /\
  (UAnselFunctionLibrary.Out r <> New ->
   ~ (CameraRadius < 0)%Q /\
   FVector.IsNearlyZero (FVector.sub New Last) = false /\
   UAnselFunctionLibrary.OverlapAnyTestByChannel world Last CameraRadius = false /\
   (UAnselFunctionLibrary.SweepSingleByChannel world Last New CameraRadius
    = Some (UAnselFunctionLibrary.Out r) \/
    UAnselFunctionLibrary.Out r = Prev)).
Proof.
  intros Hlook. cbv zeta. unfold UAnselFunctionLibrary.ConstrainCameraByGeometry.
  rewrite Hlook. cbv zeta.
  set (CameraRadius := GetFloat_at k (Console (UAnselFunctionLibrary.engine sys1))).
  set (Last := UAnselFunctionLibrary.tracked_origin Prev Orig sys1).
  destruct (Qltb CameraRadius 0) eqn:Eneg.
  { cbn [UAnselFunctionLibrary.Out].
    split; [intros; reflexivity |]. split; [intros; reflexivity |].
    split; [intros; reflexivity |]. intros Hne. contradiction. }
  assert (Hneg : ~ (CameraRadius < 0)%Q).
  { intros H. apply Qltb_lt in H. congruence. }
  split; [intros H; contradiction |].
  destruct (FVector.IsNearlyZero (FVector.sub New Last)) eqn:Ezero.
  { cbn [UAnselFunctionLibrary.Out].
    split; [intros; reflexivity |]. split; [intros; reflexivity |].
    intros Hne. contradiction. }
  split; [discriminate |].
  destruct (UAnselFunctionLibrary.OverlapAnyTestByChannel world Last CameraRadius) eqn:Eocc.
  - cbn [UAnselFunctionLibrary.Out].
    destruct (Rle_dec (FVector.DotProduct (FVector.sub New Prev) (FVector.sub New Prev)) 0)
      as [Hle | Hgt].
    + pose proof (dot_self_nonpos New Prev Hle) as <-.
      split; [intros; reflexivity |]. intros Hne. contradiction.
    + split; [intros; reflexivity |]. intros Hne. contradiction.
  - cbn [UAnselFunctionLibrary.Out]. split; [discriminate |].
    destruct (UAnselFunctionLibrary.SweepSingleByChannel world Last New CameraRadius)
      as [HitLocation |] eqn:Esweep.
    + destruct (Rle_dec _ 0); intros Hne;
        (split; [exact Hneg |]); (split; [reflexivity |]); (split; [reflexivity |]);
        [right | left]; reflexivity.
    + destruct (Rle_dec _ 0); intros Hne; [| contradiction].
      split; [exact Hneg |]. split; [reflexivity |]. split; [reflexivity |].
      right. reflexivity.
Qed.

Lemma geometry_defaults_to_new_witness :
  UAnselFunctionLibrary.Out
    (UAnselFunctionLibrary.ConstrainCameraByGeometry occupied_world sample_target
       sample_origin sample_origin sample_system)
  = sample_target.
Proof.
  pose proof (geometry_defaults_to_new occupied_world sample_target sample_origin
                sample_origin sample_system
                (snd (UAnselFunctionLibrary.static_FindConsoleVariable
                        UAnselFunctionLibrary.in_ConstrainCameraByGeometry
                        "r.Photography.Constrain.CameraSize" sample_system))
                "r.photography.constrain.camerasize"
                ltac:(vm_compute; reflexivity)) as H.
  cbv zeta in H. destruct H as (_ & _ & H & _). apply H. reflexivity.
Defined.

(* ===================================================================== *)
(** * Further properties of the code *)
(* ===================================================================== *)

(** ** A frame of a running session *)

Lemma frames_set f b p :
  NumFramesSinceSessionStart (set f b p) = NumFramesSinceSessionStart p.
Proof. reflexivity. Qed.

(** X1. A frame of a running session, in full: it reports a camera cut
    exactly when a capture started or finished since the previous frame,
    notifies the start before the end, updates the SDK camera, hands the
    camera to the game's [PhotographyCameraModify] unless a capture is
    active, and pauses when the advanced frame counter reads 2; it clears both
    capture edges and [bForceDisallow], and leaves the console alone. *)
Theorem running_frame_trace (env : FrameEnv) (s : St) :
  running s ->
  let r := UpdateCamera env s in
  let p := fst s in
  let n := wrap32 (NumFramesSinceSessionStart p + 1) in
  snd r = flag p bAnselCaptureNewlyActive || flag p bAnselCaptureNewlyFinished /\
  Effects (snd (fst r))
  = Effects (snd s)
    ++ (if flag p bAnselCaptureNewlyActive then [OnPhotographyMultiPartCaptureStart] else [])
    ++ (if flag p bAnselCaptureNewlyFinished then [OnPhotographyMultiPartCaptureEnd] else [])
    ++ [ansel_updateCamera]
    ++ (if flag p bAnselCaptureActive then [] else [PhotographyCameraModify])
    ++ (if (n =? 2)%Z && flag p bAutoPause && negb (flag p bWasPausedBeforeSession)
        then [SetPause true] else []) /\
  flag (fst (fst r)) bAnselCaptureNewlyActive = false /\
  flag (fst (fst r)) bAnselCaptureNewlyFinished = false /\
  flag (fst (fst r)) bForceDisallow = false /\
  NumFramesSinceSessionStart (fst (fst r)) = n /\
  Console (snd (fst r)) = Console (snd s).
Proof.
  destruct s as [p e]. intros (HA & HN & HW). cbn [fst snd] in *. cbv zeta.
  unfold UpdateCamera. cbn [fst snd].
  rewrite (flag_set_ne bForceDisallow bAnselSessionActive) by done. rewrite HA. cbn [negb].
  cbn [fst snd]. rewrite (flag_set_ne bForceDisallow bAnselSessionActive) by done. rewrite HA.
  unfold UpdateCamera_capture_edges, UpdateCamera_session_frame.
  cbn [fst snd flag set_NumFramesSinceSessionStart NumFramesSinceSessionStart].
  rewrite !(flag_set_ne bForceDisallow) by done. rewrite !frames_set.
  destruct (flag p bAnselCaptureNewlyActive) eqn:E1,
           (flag p bAnselCaptureNewlyFinished) eqn:E2,
           (flag p bAnselCaptureActive) eqn:E3,
           (wrap32 (NumFramesSinceSessionStart p + 1) =? 2)%Z eqn:E4,
           (flag p bAutoPause) eqn:E5,
           (flag p bWasPausedBeforeSession) eqn:E6;
    cbn [fst snd flag set_NumFramesSinceSessionStart NumFramesSinceSessionStart negb andb orb];
    repeat first
      [ rewrite flag_set_eq
      | rewrite flag_set_ne by discriminate
      | rewrite frames_set
      | rewrite E1 | rewrite E2 | rewrite E3 | rewrite E4 | rewrite E5 | rewrite E6
      | rewrite HW | rewrite HN
      | progress cbn [fst snd flag set_NumFramesSinceSessionStart NumFramesSinceSessionStart
                      negb andb orb] ];
    (split; [reflexivity |]);
    (split; [cbn; rewrite <- ?app_assoc; reflexivity |]);
    repeat split; flags; auto.
Qed.


Lemma running_frame_trace_witness :
  snd (UpdateCamera sample_frame
         (step (EvStartCaptureCallback kCaptureTypeStereo)
               (step (EvUpdateCamera sample_frame) sample_started))) = true.
Proof.
  destruct (running_frame_trace sample_frame
              (step (EvStartCaptureCallback kCaptureTypeStereo)
                    (step (EvUpdateCamera sample_frame) sample_started))
              ltac:(vm_compute; repeat split; reflexivity)) as (H & _).
  rewrite H. vm_compute. reflexivity.
Defined.
(** ** The engine during a session *)





(** ** The setters of the function library *)

Lemma set_static_cvar_found slot Name v sys c :
  resolves slot Name sys ->
  Console (UAnselFunctionLibrary.engine sys) !! lower Name = Some c ->
  Console (UAnselFunctionLibrary.engine (UAnselFunctionLibrary.set_static_cvar slot Name v sys))
  = alter (cvSet v) (lower Name) (Console (UAnselFunctionLibrary.engine sys)).
Proof.
  intros Hs Hc. destruct (static_lookup_found slot Name sys c Hs Hc) as (H1 & H2 & _).
  unfold UAnselFunctionLibrary.set_static_cvar.
  destruct (UAnselFunctionLibrary.static_FindConsoleVariable slot Name sys) as [ptr sys1].
  cbn [fst snd] in *. subst ptr. cbn. rewrite H2. reflexivity.
Qed.

Lemma set_static_cvar_value slot Name v sys :
  settable slot Name sys ->
  Console (UAnselFunctionLibrary.engine (UAnselFunctionLibrary.set_static_cvar slot Name v sys))
    !! lower Name
  = Some {| cv_value := v; cv_setby := ECVF_SetByCode |}.
Proof.
  intros (Hs & c & Hc & Hp). rewrite (set_static_cvar_found slot Name v sys c Hs Hc).
  rewrite lookup_alter_eq, Hc. cbn. unfold cvSet.
  destruct (Z.leb_spec (cv_setby c) ECVF_SetByCode); [reflexivity | lia].
Qed.

Lemma GetInt_inject_Z n setby : GetInt {| cv_value := inject_Z n; cv_setby := setby |} = n.
Proof. unfold GetInt. cbn. apply Z.quot_1_r. Qed.

(** X4. Each setter of the library writes the value the engine-side
    variable then reads: after the setter, the plugin's own view of
    [r.Photography.Allow], [.SettleFrames], [.TranslationSpeed],
    [.Constrain.CameraSize], [.Constrain.MaxCameraDistance],
    [.AutoPostprocess] and [.AutoPause] is the value that was set, and
    [IsPhotographyAllowed] answers what [SetIsPhotographyAllowed] was given -
    provided the console manager knows the variable and nothing above code
    priority has set it. *)
Theorem setters_take_effect (sys : UAnselFunctionLibrary.System) :
  (forall b,
     settable UAnselFunctionLibrary.in_SetIsPhotographyAllowed "r.Photography.Allow" sys ->
     let sys' := UAnselFunctionLibrary.SetIsPhotographyAllowed b sys in
     CVarPhotographyAllow (Console (UAnselFunctionLibrary.engine sys'))
     = (if b then 1 else 0)%Z /\
     (resolves UAnselFunctionLibrary.in_IsPhotographyAllowed "r.Photography.Allow" sys ->
      fst (UAnselFunctionLibrary.IsPhotographyAllowed sys') = b)) /\
  (forall n,
     settable UAnselFunctionLibrary.in_SetSettleFrames "r.Photography.SettleFrames" sys ->
     CVarPhotographySettleFrames
       (Console (UAnselFunctionLibrary.engine (UAnselFunctionLibrary.SetSettleFrames n sys)))
     = n) /\
  (forall v,
     settable UAnselFunctionLibrary.in_SetCameraMovementSpeed
       "r.Photography.TranslationSpeed" sys ->
     CVarPhotographyTranslationSpeed
       (Console (UAnselFunctionLibrary.engine
                   (UAnselFunctionLibrary.SetCameraMovementSpeed v sys)))
     = v) /\
  (forall v,
     settable UAnselFunctionLibrary.in_SetCameraConstraintCameraSize
       "r.Photography.Constrain.CameraSize" sys ->
     CVarConstrainCameraSize
       (Console (UAnselFunctionLibrary.engine
                   (UAnselFunctionLibrary.SetCameraConstraintCameraSize v sys)))
     = v) /\
  (forall v,
     settable UAnselFunctionLibrary.in_SetCameraConstraintDistance
       "r.Photography.Constrain.MaxCameraDistance" sys ->
     CVarConstrainCameraDistance
       (Console (UAnselFunctionLibrary.engine
                   (UAnselFunctionLibrary.SetCameraConstraintDistance v sys)))
     = v) /\
  (forall b,
     settable UAnselFunctionLibrary.in_SetAutoPostprocess "r.Photography.AutoPostprocess" sys ->
     CVarPhotographyAutoPostprocess
       (Console (UAnselFunctionLibrary.engine (UAnselFunctionLibrary.SetAutoPostprocess b sys)))
     = (if b then 1 else 0)%Z) /\
  (forall b,
     settable UAnselFunctionLibrary.in_SetAutoPause "r.Photography.AutoPause" sys ->
     CVarPhotographyAutoPause
       (Console (UAnselFunctionLibrary.engine (UAnselFunctionLibrary.SetAutoPause b sys)))
     = (if b then 1 else 0)%Z).
Proof.
  split; [| split; [| split; [| split; [| split; [| split]]]]].
  - intros b Hs. cbv zeta. split.
    + unfold CVarPhotographyAllow, auto_GetInt,
        UAnselFunctionLibrary.SetIsPhotographyAllowed.
      rewrite (set_static_cvar_value _ _ _ sys Hs). destruct b; reflexivity.
    + intros Hr.
      pose proof (set_static_cvar_value _ _ (if b then 1 else 0)%Q sys Hs) as Hv.
      destruct Hs as (Hs0 & c & Hc & Hp).
      fold (UAnselFunctionLibrary.SetIsPhotographyAllowed b) in Hv.
      set (sys' := UAnselFunctionLibrary.SetIsPhotographyAllowed b sys) in *.
      assert (Hr' : resolves UAnselFunctionLibrary.in_IsPhotographyAllowed
                      "r.Photography.Allow" sys').
      { subst sys'. unfold resolves, UAnselFunctionLibrary.SetIsPhotographyAllowed,
          UAnselFunctionLibrary.set_static_cvar,
          UAnselFunctionLibrary.static_FindConsoleVariable in *.
        destruct (UAnselFunctionLibrary.cached sys
                    UAnselFunctionLibrary.in_SetIsPhotographyAllowed) as [[k|]|];
          cbn; try exact Hr.
        unfold FindConsoleVariable. rewrite Hc. cbn.
        rewrite fn_lookup_insert_ne by discriminate. exact Hr. }
      destruct (static_lookup_found _ _ sys' _ Hr' Hv) as (H1 & H2 & _).
      unfold UAnselFunctionLibrary.IsPhotographyAllowed.
      destruct (UAnselFunctionLibrary.static_FindConsoleVariable _ _ sys') as [ptr sys2].
      cbn [fst snd] in *. subst ptr. cbn [fst].
      unfold UAnselFunctionLibrary.GetInt_at, deref. rewrite H2, Hv. destruct b; reflexivity.
  - intros n Hs. unfold CVarPhotographySettleFrames, auto_GetInt,
      UAnselFunctionLibrary.SetSettleFrames.
    rewrite (set_static_cvar_value _ _ _ sys Hs). apply GetInt_inject_Z.
  - intros v Hs. unfold CVarPhotographyTranslationSpeed, auto_GetFloat,
      UAnselFunctionLibrary.SetCameraMovementSpeed.
    rewrite (set_static_cvar_value _ _ _ sys Hs). reflexivity.
  - intros v Hs. unfold CVarConstrainCameraSize, auto_GetFloat,
      UAnselFunctionLibrary.SetCameraConstraintCameraSize.
    rewrite (set_static_cvar_value _ _ _ sys Hs). reflexivity.
  - intros v Hs. unfold CVarConstrainCameraDistance, auto_GetFloat,
      UAnselFunctionLibrary.SetCameraConstraintDistance.
    rewrite (set_static_cvar_value _ _ _ sys Hs). reflexivity.
  - intros b Hs. unfold CVarPhotographyAutoPostprocess, auto_GetInt,
      UAnselFunctionLibrary.SetAutoPostprocess.
    rewrite (set_static_cvar_value _ _ _ sys Hs). destruct b; reflexivity.
  - intros b Hs. unfold CVarPhotographyAutoPause, auto_GetInt,
      UAnselFunctionLibrary.SetAutoPause.
    rewrite (set_static_cvar_value _ _ _ sys Hs). destruct b; reflexivity.
Qed.

Lemma setters_take_effect_witness :
  fst (UAnselFunctionLibrary.IsPhotographyAllowed
         (UAnselFunctionLibrary.SetIsPhotographyAllowed false sample_system)) = false /\
  CVarPhotographySettleFrames
    (Console (UAnselFunctionLibrary.engine
                (UAnselFunctionLibrary.SetSettleFrames 3 sample_system))) = 3%Z.
Proof.
  destruct (setters_take_effect sample_system) as (H1 & H2 & _).
  split.
  - apply (H1 false).
    + split; [left; reflexivity |].
      exists (registered 1 ECVF_SetByConstructor). split; [vm_compute; reflexivity |].
      vm_compute. discriminate.
    + left. reflexivity.
  - apply (H2 3%Z). split; [left; reflexivity |].
    exists (registered 10 ECVF_SetByConstructor). split; [vm_compute; reflexivity |].
    vm_compute. discriminate.
Defined.

(** X5. A variable that the console (or anything above code priority) has
    set is out of the setters' reach: the setter leaves the whole console as
    it was. *)
Theorem console_outranks_setters (sys : UAnselFunctionLibrary.System) (c : ConsoleVariable) :
  (ECVF_SetByCode < cv_setby c)%Z ->
  (forall b,
     resolves UAnselFunctionLibrary.in_SetIsPhotographyAllowed "r.Photography.Allow" sys ->
     Console (UAnselFunctionLibrary.engine sys) !! lower "r.Photography.Allow" = Some c ->
     Console (UAnselFunctionLibrary.engine (UAnselFunctionLibrary.SetIsPhotographyAllowed b sys))
     = Console (UAnselFunctionLibrary.engine sys)) /\
  (forall n,
     resolves UAnselFunctionLibrary.in_SetSettleFrames "r.Photography.SettleFrames" sys ->
     Console (UAnselFunctionLibrary.engine sys) !! lower "r.Photography.SettleFrames" = Some c ->
     Console (UAnselFunctionLibrary.engine (UAnselFunctionLibrary.SetSettleFrames n sys))
     = Console (UAnselFunctionLibrary.engine sys)) /\
  (forall v,
     resolves UAnselFunctionLibrary.in_SetCameraMovementSpeed
       "r.Photography.TranslationSpeed" sys ->
     Console (UAnselFunctionLibrary.engine sys) !! lower "r.Photography.TranslationSpeed"
     = Some c ->
     Console (UAnselFunctionLibrary.engine (UAnselFunctionLibrary.SetCameraMovementSpeed v sys))
     = Console (UAnselFunctionLibrary.engine sys)) /\
  (forall v,
     resolves UAnselFunctionLibrary.in_SetCameraConstraintCameraSize
       "r.Photography.Constrain.CameraSize" sys ->
     Console (UAnselFunctionLibrary.engine sys) !! lower "r.Photography.Constrain.CameraSize"
     = Some c ->
     Console (UAnselFunctionLibrary.engine
                (UAnselFunctionLibrary.SetCameraConstraintCameraSize v sys))
     = Console (UAnselFunctionLibrary.engine sys)) /\
  (forall v,
     resolves UAnselFunctionLibrary.in_SetCameraConstraintDistance
       "r.Photography.Constrain.MaxCameraDistance" sys ->
     Console (UAnselFunctionLibrary.engine sys)
       !! lower "r.Photography.Constrain.MaxCameraDistance" = Some c ->
     Console (UAnselFunctionLibrary.engine
                (UAnselFunctionLibrary.SetCameraConstraintDistance v sys))
     = Console (UAnselFunctionLibrary.engine sys)) /\
  (forall b,
     resolves UAnselFunctionLibrary.in_SetAutoPostprocess "r.Photography.AutoPostprocess" sys ->
     Console (UAnselFunctionLibrary.engine sys) !! lower "r.Photography.AutoPostprocess"
     = Some c ->
     Console (UAnselFunctionLibrary.engine (UAnselFunctionLibrary.SetAutoPostprocess b sys))
     = Console (UAnselFunctionLibrary.engine sys)) /\
  (forall b,
     resolves UAnselFunctionLibrary.in_SetAutoPause "r.Photography.AutoPause" sys ->
     Console (UAnselFunctionLibrary.engine sys) !! lower "r.Photography.AutoPause" = Some c ->
     Console (UAnselFunctionLibrary.engine (UAnselFunctionLibrary.SetAutoPause b sys))
     = Console (UAnselFunctionLibrary.engine sys)).
Proof.
  intros Hp.
  assert (H : forall slot Name v,
             resolves slot Name sys ->
             Console (UAnselFunctionLibrary.engine sys) !! lower Name = Some c ->
             Console (UAnselFunctionLibrary.engine
                        (UAnselFunctionLibrary.set_static_cvar slot Name v sys))
             = Console (UAnselFunctionLibrary.engine sys)).
  { intros slot Name v Hs Hc. rewrite (set_static_cvar_found slot Name v sys c Hs Hc).
    apply alter_id. intros x Hx. rewrite Hc in Hx. injection Hx as <-.
    unfold cvSet. destruct (Z.leb_spec (cv_setby c) ECVF_SetByCode); [lia | reflexivity]. }
  split; [| split; [| split; [| split; [| split; [| split]]]]]; intros ?; apply H.
Qed.

Lemma console_outranks_setters_witness :
  Console (UAnselFunctionLibrary.engine
             (UAnselFunctionLibrary.SetAutoPause false
                (UAnselFunctionLibrary.set_engine
                   (set_Console (<["r.photography.autopause" := registered 1 ECVF_SetByConsole]>
                                   sample_console) sample_engine) sample_system)))
  = <["r.photography.autopause" := registered 1 ECVF_SetByConsole]> sample_console.
Proof.
  destruct (console_outranks_setters
              (UAnselFunctionLibrary.set_engine
                 (set_Console (<["r.photography.autopause" := registered 1 ECVF_SetByConsole]>
                                 sample_console) sample_engine) sample_system)
              (registered 1 ECVF_SetByConsole) ltac:(vm_compute; reflexivity))
    as (_ & _ & _ & _ & _ & _ & H).
  apply (H false); [left; reflexivity | vm_compute; reflexivity].
Defined.

Lemma setters_allow_value (sys : UAnselFunctionLibrary.System) :
  settable UAnselFunctionLibrary.in_SetIsPhotographyAllowed "r.Photography.Allow" sys ->
  CVarPhotographyAllow
    (Console (UAnselFunctionLibrary.engine
                (UAnselFunctionLibrary.SetIsPhotographyAllowed false sys))) = 0%Z /\
  CVarPhotographyAllow
    (Console (UAnselFunctionLibrary.engine
                (UAnselFunctionLibrary.SetIsPhotographyAllowed true sys))) = 1%Z /\
  GIsEditor (UAnselFunctionLibrary.engine
               (UAnselFunctionLibrary.SetIsPhotographyAllowed false sys))
  = GIsEditor (UAnselFunctionLibrary.engine sys) /\
  GIsEditor (UAnselFunctionLibrary.engine
               (UAnselFunctionLibrary.SetIsPhotographyAllowed true sys))
  = GIsEditor (UAnselFunctionLibrary.engine sys).
Proof.
  intros Hs.
  assert (Hv : forall b,
             CVarPhotographyAllow
               (Console (UAnselFunctionLibrary.engine
                           (UAnselFunctionLibrary.SetIsPhotographyAllowed b sys)))
             = (if b then 1 else 0)%Z).
  { intros b. unfold CVarPhotographyAllow, auto_GetInt,
      UAnselFunctionLibrary.SetIsPhotographyAllowed.
    rewrite (set_static_cvar_value _ _ _ sys Hs). destruct b; reflexivity. }
  assert (He : forall b,
             GIsEditor (UAnselFunctionLibrary.engine
                          (UAnselFunctionLibrary.SetIsPhotographyAllowed b sys))
             = GIsEditor (UAnselFunctionLibrary.engine sys)).
  { intros b. destruct (cvar_only_set_static_cvar
                          UAnselFunctionLibrary.in_SetIsPhotographyAllowed
                          "r.Photography.Allow" (if b then 1 else 0)%Q sys) as (_ & _ & H).
    unfold UAnselFunctionLibrary.SetIsPhotographyAllowed. rewrite H. reflexivity. }
  split; [apply (Hv false) |]. split; [apply (Hv true) |]. split; apply He.
Qed.

(** X6. After [SetIsPhotographyAllowed(false)] has taken effect, the SDK's
    start callback is refused whatever the provider's state, and changes
    neither the provider nor the configuration; after
    [SetIsPhotographyAllowed(true)] it is allowed exactly when the last frame
    saw neither split-screen nor stereo and the game does not run in the
    editor. *)
Theorem allow_setter_gates_start (sys : UAnselFunctionLibrary.System) (p : Provider)
    (settings : SessionConfiguration) :
  settable UAnselFunctionLibrary.in_SetIsPhotographyAllowed "r.Photography.Allow" sys ->
  let off := UAnselFunctionLibrary.engine
               (UAnselFunctionLibrary.SetIsPhotographyAllowed false sys) in
  let on := UAnselFunctionLibrary.engine
              (UAnselFunctionLibrary.SetIsPhotographyAllowed true sys) in
  (fst (AnselStartSessionCallback settings (p, off)) = (kDisallowed, settings) /\
   fst (snd (AnselStartSessionCallback settings (p, off))) = p) /\
  (fst (fst (AnselStartSessionCallback settings (p, on))) = kAllowed <->
   flag p bForceDisallow = false /\ GIsEditor (UAnselFunctionLibrary.engine sys) = false).
Proof.
  intros Hs. cbv zeta.
  destruct (setters_allow_value sys Hs) as (Hoff & Hon & Hed_off & Hed_on).
  unfold AnselStartSessionCallback. rewrite Hoff, Hon, Hed_on. cbn [Z.eqb negb andb].
  rewrite andb_false_r. cbn [andb fst snd]. split; [split; reflexivity |].
  destruct (flag p bForceDisallow), (GIsEditor (UAnselFunctionLibrary.engine sys));
    cbn; split; intros H; try discriminate; try reflexivity; try (split; reflexivity);
    destruct H; discriminate.
Qed.

Lemma allow_setter_gates_start_witness :
  fst (AnselStartSessionCallback no_settings
         (fresh_provider,
          UAnselFunctionLibrary.engine
            (UAnselFunctionLibrary.SetIsPhotographyAllowed false sample_system)))
  = (kDisallowed, no_settings).
Proof.
  assert (Hs : settable UAnselFunctionLibrary.in_SetIsPhotographyAllowed
                 "r.Photography.Allow" sample_system).
  { split; [left; reflexivity |].
    exists (registered 1 ECVF_SetByConstructor). split; [vm_compute; reflexivity |].
    vm_compute. discriminate. }
  destruct (allow_setter_gates_start sample_system fresh_provider no_settings Hs)
    as ((H & _) & _).
  exact H.
Defined.

(** ** Loading the SDK and creating the provider *)

(** X7. With the SDK's DLL loaded, [CreateCameraPhotography] returns a
    provider exactly when the SDK reports Ansel available. The provider it
    returns is outside a session, has captured no variable, allows every
    effect's UI, and is configured for the FOV type and world scale it
    requires; the console-variable sink is registered and the SDK is
    configured once. When the SDK is not available, the provider is
    destroyed again: the sink is unregistered and the configuration cleared,
    in that order after their counterparts. [ShutdownModule] returns the
    statics to unloaded. *)
Theorem provider_creation (h : Z) (m : FAnselModule.Statics) (isAnselAvailable : bool)
    (uninit : Provider) (e : Engine) :
  h <> 0%Z ->
  let m1 := fst (FAnselModule.StartupModule h m e) in
  let e1 := snd (FAnselModule.StartupModule h m e) in
  let created := FAnselModule.CreateCameraPhotography m1 isAnselAvailable uninit e1 in
  let configured :=
    ansel_setConfiguration kHorizontalFov 100
      (CVarPhotographyTranslationSpeed (Console e)) (CVarPhotographySettleFrames (Console e)) in
  FAnselModule.IsSupported m1 isAnselAvailable = isAnselAvailable /\
  (isAnselAvailable = true ->
   exists p,
     fst created = Some p /\
     flag p bAnselSessionActive = false /\
     flag p bAnselSessionWantDeactivate = false /\
     flag p bAnselCaptureActive = false /\
     flag p bForceDisallow = false /\
     InitialCVarMap p = ∅ /\
     (forall target, bEffectUIAllowed p target = true) /\
     CurrentlyConfiguredFovType p = RequiredFovType p /\
     CurrentlyConfiguredWorldToMeters p = RequiredWorldToMeters p /\
     registrations (snd created)
     = registrations e ++ [RegisterConsoleVariableSink; configured]) /\
  (isAnselAvailable = false ->
   fst created = None /\
   registrations (snd created)
   = registrations e ++ [RegisterConsoleVariableSink; configured;
                         UnregisterConsoleVariableSink; ansel_setConfiguration_cleared]) /\
  Console (snd created) = Console e /\
  FAnselModule.ShutdownModule m1 = FAnselModule.initial /\
  FAnselModule.ShutdownModule (FAnselModule.ShutdownModule m1) = FAnselModule.initial.
Proof.
  intros Hh. apply Z.eqb_neq in Hh. cbv zeta.
  unfold FAnselModule.CreateCameraPhotography, FAnselModule.IsSupported,
    FAnselModule.StartupModule, FAnselModule.constructor, FAnselModule.destructor,
    FAnselModule.ShutdownModule, registrations.
  cbn [fst snd FAnselModule.bAnselDLLLoaded]. rewrite Hh. cbn [negb andb].
  unfold ReconfigureAnsel, DeconfigureAnsel.
  split; [reflexivity |]. split; [| split; [| split; [| split]]].
  - intros ->. cbn [fst snd]. eexists. split; [reflexivity |].
    cbn [flag RequiredFovType CurrentlyConfiguredFovType RequiredWorldToMeters
         CurrentlyConfiguredWorldToMeters InitialCVarMap bEffectUIAllowed
         set_CurrentlyConfiguredFovType set_CurrentlyConfiguredWorldToMeters
         set_RequiredFovType set_RequiredWorldToMeters set_InitialCVarMap
         set_bEffectUIAllowed].
    do 4 (split; [flags; reflexivity |]).
    split; [reflexivity |]. split; [intros; reflexivity |].
    split; [reflexivity |]. split; [reflexivity |].
    cbn [Effects emit Console]. rewrite !List.filter_app. cbn. rewrite <- !app_assoc.
    reflexivity.
  - intros ->. cbn [fst snd]. split; [reflexivity |].
    cbn [Effects emit Console]. rewrite !List.filter_app. cbn. rewrite <- !app_assoc.
    reflexivity.
  - destruct isAnselAvailable; reflexivity.
  - reflexivity.
  - reflexivity.
Qed.

Lemma provider_creation_witness :
  fst (FAnselModule.CreateCameraPhotography
         (fst (FAnselModule.StartupModule 4096 FAnselModule.initial sample_engine)) false
         zero_provider
         (snd (FAnselModule.StartupModule 4096 FAnselModule.initial sample_engine)))
  = None.
Proof.
  destruct (provider_creation 4096 FAnselModule.initial false zero_provider sample_engine
              ltac:(lia)) as (_ & _ & H & _).
  apply H. reflexivity.
Defined.

(** ** Keeping the SDK configured *)

Lemma Qeq_bool_refl' (q : Q) : Qeq_bool q q = true.
Proof. apply Qeq_bool_iff. reflexivity. Qed.

Lemma no_session_shape env p e :
  exists q,
    UpdateCamera_no_session env (p, e)
    = (if negb (Qeq_bool (CurrentlyConfiguredWorldToMeters q) (RequiredWorldToMeters q))
          || match CurrentlyConfiguredFovType q, RequiredFovType q with
             | kHorizontalFov, kHorizontalFov | kVerticalFov, kVerticalFov => false
             | _, _ => true
             end
       then ReconfigureAnsel (q, e) else (q, e)) /\
    CurrentlyConfiguredFovType q = CurrentlyConfiguredFovType p /\
    CurrentlyConfiguredWorldToMeters q = CurrentlyConfiguredWorldToMeters p /\
    RequiredWorldToMeters q
    = match WorldToMeters env with
      | Some w => if Qeq_bool w 0 then RequiredWorldToMeters p else w
      | None => RequiredWorldToMeters p
      end /\
    RequiredFovType q
    = match LocalPlayerView env with
      | Some (SizeX, SizeY, AspectRatioAxisConstraint) =>
          if ((SizeY <? SizeX)%Z
              && match AspectRatioAxisConstraint with
                 | AspectRatio_MajorAxisFOV => true | _ => false end)
             || match AspectRatioAxisConstraint with
                | AspectRatio_MaintainXFOV => true | _ => false end
             || Orthographic env
          then kHorizontalFov else kVerticalFov
      | None => RequiredFovType p
      end /\
    flag q bAnselSessionActive = flag p bAnselSessionActive.
Proof.
  unfold UpdateCamera_no_session. eexists. split; [reflexivity |].
  repeat match goal with
         | |- context [match ?x with _ => _ end] => destruct x
         end;
    repeat split; flags; reflexivity.
Qed.

Lemma fov_synced (a b : FovType) :
  match a, b with
  | kHorizontalFov, kHorizontalFov | kVerticalFov, kVerticalFov => false
  | _, _ => true
  end = false <-> a = b.
Proof. destruct a, b; split; intros H; try discriminate; reflexivity. Qed.

(** X8. A frame outside a session leaves the SDK configured for the FOV
    type and the world scale it has just determined, and reconfigures only
    when one of them changed: a second frame over the same view does nothing
    to the engine - no further [setConfiguration] - and leaves the provider's
    requirements as they are. *)
Theorem idle_frames_configure_once (env : FrameEnv) (s : St) :
  flag (fst s) bAnselSessionActive = false ->
  let s1 := step (EvUpdateCamera env) s in
  let s2 := step (EvUpdateCamera env) s1 in
  CurrentlyConfiguredFovType (fst s1) = RequiredFovType (fst s1) /\
  Qeq_bool (CurrentlyConfiguredWorldToMeters (fst s1)) (RequiredWorldToMeters (fst s1)) = true /\
  snd s2 = snd s1 /\
  RequiredFovType (fst s2) = RequiredFovType (fst s1) /\
  RequiredWorldToMeters (fst s2) = RequiredWorldToMeters (fst s1) /\
  flag (fst s2) bAnselSessionActive = false.
Proof.
  intros HA. cbv zeta. cbn [step].
  destruct (no_session_gate env s HA) as (_ & _ & HA1 & _).
  rewrite (UpdateCamera_inactive env _ HA1).
  rewrite (UpdateCamera_inactive env s HA) in *.
  destruct s as [p e]. cbn [fst snd] in *.
  assert (Hsync : forall q e0,
    let s1 := UpdateCamera_no_session env (q, e0) in
    CurrentlyConfiguredFovType (fst s1) = RequiredFovType (fst s1) /\
    Qeq_bool (CurrentlyConfiguredWorldToMeters (fst s1)) (RequiredWorldToMeters (fst s1)) = true /\
    RequiredWorldToMeters (fst s1)
    = match WorldToMeters env with
      | Some w => if Qeq_bool w 0 then RequiredWorldToMeters q else w
      | None => RequiredWorldToMeters q
      end /\
    RequiredFovType (fst s1)
    = match LocalPlayerView env with
      | Some (SizeX, SizeY, AspectRatioAxisConstraint) =>
          if ((SizeY <? SizeX)%Z
              && match AspectRatioAxisConstraint with
                 | AspectRatio_MajorAxisFOV => true | _ => false end)
             || match AspectRatioAxisConstraint with
                | AspectRatio_MaintainXFOV => true | _ => false end
             || Orthographic env
          then kHorizontalFov else kVerticalFov
      | None => RequiredFovType q
      end).
  { intros q e0. cbv zeta.
    destruct (no_session_shape env q e0) as (q1 & -> & _ & _ & Hw & Hf & _).
    rewrite <- Hw, <- Hf.
    match goal with |- context [if ?c then _ else _] => destruct c eqn:Ec end.
    - unfold ReconfigureAnsel. cbn. repeat split. apply Qeq_bool_refl'.
    - apply orb_false_iff in Ec. destruct Ec as [Ew Ef]. apply negb_false_iff in Ew.
      apply fov_synced in Ef. cbn [fst]. repeat split; assumption. }
  destruct (Hsync (set bForceDisallow false p) e) as (Hf & Hw & Hrw & Hrf).
  split; [exact Hf |]. split; [exact Hw |].
  set (s1 := UpdateCamera_no_session env (set bForceDisallow false p, e)) in *.
  clearbody s1. destruct s1 as [p1 e1]. cbn [fst snd] in *.
  destruct (no_session_shape env (set bForceDisallow false p1) e1)
    as (q & -> & Hcf & Hcw & Hqw & Hqf & Hqa).
  change (CurrentlyConfiguredFovType (set bForceDisallow false p1))
    with (CurrentlyConfiguredFovType p1) in Hcf.
  change (CurrentlyConfiguredWorldToMeters (set bForceDisallow false p1))
    with (CurrentlyConfiguredWorldToMeters p1) in Hcw.
  assert (Ef : RequiredFovType q = RequiredFovType p1).
  { rewrite Hqf. destruct (LocalPlayerView env) as [[[? ?] ?]|];
      [rewrite Hrf |]; reflexivity. }
  assert (Ew : RequiredWorldToMeters q = RequiredWorldToMeters p1).
  { rewrite Hqw. destruct (WorldToMeters env) as [w|]; [| reflexivity].
    destruct (Qeq_bool w 0); [| rewrite Hrw]; reflexivity. }
  rewrite Hcf, Hcw, Ef, Ew, Hw, Hf.
  replace (match RequiredFovType p1 with
           | kHorizontalFov => match RequiredFovType p1 with
                               | kHorizontalFov => false | kVerticalFov => true end
           | kVerticalFov => match RequiredFovType p1 with
                             | kHorizontalFov => true | kVerticalFov => false end
           end) with false by (destruct (RequiredFovType p1); reflexivity).
  cbn [negb orb fst snd]. repeat split; try assumption.
  rewrite Hqa. rewrite flag_set_ne by discriminate. exact HA1.
Qed.

Lemma idle_frames_configure_once_witness :
  let s1 := step (EvUpdateCamera splitscreen_frame) (fresh_provider, sample_engine) in
  snd (step (EvUpdateCamera splitscreen_frame) s1) = snd s1.
Proof.
  destruct (idle_frames_configure_once splitscreen_frame (fresh_provider, sample_engine)
              ltac:(vm_compute; reflexivity)) as (_ & _ & H & _).
  exact H.
Defined.

(** X9. The console-variable sink: after it ran, its statics hold the
    current translation speed and settle frames, and the console is as it
    was. It reconfigures the SDK - with the current speed and settle frames -
    exactly when one of the two differs from what the previous run saw, and
    running it again straight away does nothing. *)
Theorem sink_reconfigures_on_change (st : SinkStatics) (s : St) :
  let r := CVarDelegate st s in
  let speed := CVarPhotographyTranslationSpeed (Console (snd s)) in
  let settle := CVarPhotographySettleFrames (Console (snd s)) in
  let unchanged := Qeq_bool speed (LastTranslationSpeed st)
                   && (settle =? LastSettleFrames st)%Z in
  Qeq_bool speed (LastTranslationSpeed (fst r)) = true /\
  LastSettleFrames (fst r) = settle /\
  Console (snd (snd r)) = Console (snd s) /\
  (unchanged = true -> r = (st, s)) /\
  (unchanged = false ->
   snd r = ReconfigureAnsel s /\
   registrations (snd (snd r))
   = registrations (snd s)
     ++ [ansel_setConfiguration (RequiredFovType (fst s)) (RequiredWorldToMeters (fst s))
           speed settle]) /\
  CVarDelegate (fst r) (snd r) = r.
Proof.
  cbv zeta. unfold CVarDelegate. cbv zeta.
  set (speed := CVarPhotographyTranslationSpeed (Console (snd s))).
  set (settle := CVarPhotographySettleFrames (Console (snd s))).
  destruct (Qeq_bool speed (LastTranslationSpeed st)) eqn:E1;
    destruct (Z.eqb_spec settle (LastSettleFrames st)) as [E2 | E2];
    cbn [negb orb andb fst snd].
  1: { fold speed settle. rewrite E1, <- E2, Z.eqb_refl. cbn [negb orb].
       repeat split; try reflexivity; try discriminate; auto. }
  all: destruct s as [p e]; unfold ReconfigureAnsel; cbn [fst snd Console emit] in *;
    fold speed settle; rewrite Qeq_bool_refl', Z.eqb_refl; cbn [negb orb];
    (split; [reflexivity |]); (split; [reflexivity |]); (split; [reflexivity |]);
    (split; [discriminate |]); (split; [| reflexivity]);
    intros _; split; [reflexivity |];
    unfold registrations; cbn [Effects emit]; rewrite !List.filter_app;
    cbn [List.filter registration]; rewrite !app_nil_r; reflexivity.
Qed.

Lemma sink_reconfigures_on_change_witness :
  snd (CVarDelegate sink_initial (fresh_provider, sample_engine))
  = ReconfigureAnsel (fresh_provider, sample_engine).
Proof.
  destruct (sink_reconfigures_on_change sink_initial (fresh_provider, sample_engine))
    as (_ & _ & _ & _ & H & _).
  apply H. vm_compute. reflexivity.
Defined.


(** ** The default camera constraints *)



Lemma distance_negative ctx New Prev Orig MaxDistance :
  (MaxDistance < 0)%R ->
  UAnselFunctionLibrary.ConstrainCameraByDistance ctx New Prev Orig MaxDistance = New.
Proof.
  intros H. unfold UAnselFunctionLibrary.ConstrainCameraByDistance.
  destruct (Rlt_dec MaxDistance 0); [reflexivity | contradiction].
Qed.

Lemma distance_within ctx New Prev Orig MaxDistance :
  (0 <= MaxDistance)%R ->
  (FVector.Size
     (FVector.sub (UAnselFunctionLibrary.ConstrainCameraByDistance ctx New Prev Orig MaxDistance)
        Orig) <= MaxDistance)%R.
Proof.
  intros H. unfold UAnselFunctionLibrary.ConstrainCameraByDistance.
  destruct (Rlt_dec MaxDistance 0) as [Hlt | _]; [lra |].
  cbv zeta. rewrite sub_add_cancel. apply Size_GetClampedToMaxSize. exact H.
Qed.

Lemma geometry_disabled world New Prev Orig sys sys1 k :
  UAnselFunctionLibrary.static_FindConsoleVariable
    UAnselFunctionLibrary.in_ConstrainCameraByGeometry
    "r.Photography.Constrain.CameraSize" sys = (Some k, sys1) ->
  (GetFloat_at k (Console (UAnselFunctionLibrary.engine sys1)) < 0)%Q ->
  UAnselFunctionLibrary.ConstrainCameraByGeometry world New Prev Orig sys
  = UAnselFunctionLibrary.Returned New sys1.
Proof.
  intros Hlook Hneg. unfold UAnselFunctionLibrary.ConstrainCameraByGeometry.
  rewrite Hlook. cbv zeta. apply Qltb_lt in Hneg. rewrite Hneg. reflexivity.
Qed.

Lemma geometry_moved world New Prev Orig sys sys1 k :
  UAnselFunctionLibrary.static_FindConsoleVariable
    UAnselFunctionLibrary.in_ConstrainCameraByGeometry
    "r.Photography.Constrain.CameraSize" sys = (Some k, sys1) ->
  let r := UAnselFunctionLibrary.ConstrainCameraByGeometry world New Prev Orig sys in
  UAnselFunctionLibrary.Out r <> New ->
  UAnselFunctionLibrary.SweepSingleByChannel world
    (UAnselFunctionLibrary.tracked_origin Prev Orig sys1) New
    (GetFloat_at k (Console (UAnselFunctionLibrary.engine sys1)))
  = Some (UAnselFunctionLibrary.Out r) \/
  UAnselFunctionLibrary.Out r = Prev.
Proof.
  intros Hlook. cbv zeta. unfold UAnselFunctionLibrary.ConstrainCameraByGeometry.
  rewrite Hlook. cbv zeta.
  set (CameraRadius := GetFloat_at k (Console (UAnselFunctionLibrary.engine sys1))).
  set (Last := UAnselFunctionLibrary.tracked_origin Prev Orig sys1).
  destruct (Qltb CameraRadius 0); [intros H; contradiction |].
  destruct (FVector.IsNearlyZero (FVector.sub New Last)); [intros H; contradiction |].
  cbn [UAnselFunctionLibrary.Out].
  destruct (UAnselFunctionLibrary.OverlapAnyTestByChannel world Last CameraRadius).
  - destruct (Rle_dec _ 0); intros Hne; [right; reflexivity | contradiction].
  - destruct (UAnselFunctionLibrary.SweepSingleByChannel world Last New CameraRadius).
    + destruct (Rle_dec _ 0); intros Hne; [right | left]; reflexivity.
    + destruct (Rle_dec _ 0); intros Hne; [right; reflexivity | contradiction].
Qed.

(** X11. [DefaultConstrainCamera] is the distance clamp followed by the
    geometry constraint: with a negative camera size the result is the
    distance-clamped location, with a negative maximal distance as well it is
    the proposed location itself, and whenever the result is not the
    distance-clamped location it is the previous location or the hit of the
    sweep towards the clamped location. *)
Theorem default_constraint_composition (world : UAnselFunctionLibrary.UWorld)
    (PCMgr : UAnselFunctionLibrary.WorldContext) (New Prev Orig : FVector)
    (sys sys1 : UAnselFunctionLibrary.System) (k : string) :
  UAnselFunctionLibrary.static_FindConsoleVariable
    UAnselFunctionLibrary.in_ConstrainCameraByGeometry
    "r.Photography.Constrain.CameraSize" sys = (Some k, sys1) ->
  let r := DefaultConstrainCamera world PCMgr New Prev Orig sys in
  let MaxDistance := CVarConstrainCameraDistance (Console (UAnselFunctionLibrary.engine sys)) in
  let CameraRadius := GetFloat_at k (Console (UAnselFunctionLibrary.engine sys1)) in
  let Constrained :=
    UAnselFunctionLibrary.ConstrainCameraByDistance PCMgr New Prev Orig (Q2R MaxDistance) in
  let Last := UAnselFunctionLibrary.tracked_origin Prev Orig sys1 in
  ((0 <= Q2R MaxDistance)%R ->
   (FVector.Size (FVector.sub Constrained Orig) <= Q2R MaxDistance)%R) /\
  ((CameraRadius < 0)%Q -> UAnselFunctionLibrary.Out r = Constrained) /\
  ((CameraRadius < 0)%Q -> (MaxDistance < 0)%Q -> UAnselFunctionLibrary.Out r = New) /\
  (UAnselFunctionLibrary.Out r <> Constrained ->
   UAnselFunctionLibrary.SweepSingleByChannel world Last Constrained CameraRadius
   = Some (UAnselFunctionLibrary.Out r) \/
   UAnselFunctionLibrary.Out r = Prev).
Proof.
  intros Hlook. cbv zeta. unfold DefaultConstrainCamera. cbv zeta.
  set (MaxDistance := CVarConstrainCameraDistance (Console (UAnselFunctionLibrary.engine sys))).
  set (Constrained := UAnselFunctionLibrary.ConstrainCameraByDistance PCMgr New Prev Orig
                        (Q2R MaxDistance)).
  split; [| split; [| split]].
  - intros Hm. apply distance_within. exact Hm.
  - intros Hneg. rewrite (geometry_disabled world Constrained Prev Orig sys sys1 k Hlook Hneg).
    reflexivity.
  - intros Hneg Hd.
    rewrite (geometry_disabled world Constrained Prev Orig sys sys1 k Hlook Hneg).
    cbn [UAnselFunctionLibrary.Out]. apply distance_negative.
    rewrite <- RMicromega.Q2R_0. apply Qreals.Qlt_Rlt. exact Hd.
  - intros Hne. apply (geometry_moved world Constrained Prev Orig sys sys1 k Hlook). exact Hne.
Qed.

Lemma default_constraint_composition_witness :
  UAnselFunctionLibrary.Out
    (DefaultConstrainCamera open_world sample_context sample_target sample_origin
       sample_origin unconstrained_system)
  = UAnselFunctionLibrary.ConstrainCameraByDistance sample_context sample_target
      sample_origin sample_origin
      (Q2R (CVarConstrainCameraDistance
              (Console (UAnselFunctionLibrary.engine unconstrained_system)))).
Proof.
  destruct (default_constraint_composition open_world sample_context sample_target
              sample_origin sample_origin unconstrained_system
              (snd (UAnselFunctionLibrary.static_FindConsoleVariable
                      UAnselFunctionLibrary.in_ConstrainCameraByGeometry
                      "r.Photography.Constrain.CameraSize" unconstrained_system))
              "r.photography.constrain.camerasize"
              ltac:(vm_compute; reflexivity)) as (_ & H & _).
  apply H. vm_compute. reflexivity.
Defined.

(** ** Statements that only capture console variables *)

Lemma set_InitialCVarMap_same p : p = set_InitialCVarMap (InitialCVarMap p) p.
Proof. destruct p. reflexivity. Qed.

Lemma only_captures_id : only_captures (fun s => s).
Proof. intros s. exists (InitialCVarMap (fst s)). apply set_InitialCVarMap_same. Qed.

Lemma only_captures_compose f g :
  only_captures f -> only_captures g -> only_captures (fun s => g (f s)).
Proof.
  intros Hf Hg s. destruct (Hf s) as [M1 H1]. destruct (Hg (f s)) as [M2 H2].
  exists M2. cbv beta. rewrite H2, H1. reflexivity.
Qed.

Lemma only_captures_sequence fs : Forall only_captures fs -> only_captures (sequence fs).
Proof.
  unfold sequence. induction 1 as [| f fs Hf _ IH]; cbn [foldl].
  - apply only_captures_id.
  - apply (only_captures_compose f _ Hf IH).
Qed.

Lemma only_captures_when c fs : Forall only_captures fs -> only_captures (when c fs).
Proof.
  intros H s. unfold when. destruct (c s); [by apply only_captures_sequence |].
  apply only_captures_id.
Qed.

Lemma only_captures_stmt_e f : only_captures (stmt_e f).
Proof. intros s. exists (InitialCVarMap (fst s)). apply set_InitialCVarMap_same. Qed.

Lemma only_captures_SetCapturedCVarPredicated CVarName v cmp wantReset useExistingPriority :
  only_captures (SetCapturedCVarPredicated CVarName v cmp wantReset useExistingPriority).
Proof.
  intros [p e]. unfold SetCapturedCVarPredicated, Contains, CaptureCVar, FindConsoleVariable.
  simpl.
  destruct (InitialCVarMap p !! lower CVarName) as [i|] eqn:HM; simpl.
  - exists (InitialCVarMap p). rewrite HM. destruct i as [[k|] v0]; simpl;
      [destruct (cmp v v0); [destruct useExistingPriority |] |];
      apply set_InitialCVarMap_same.
  - destruct (Console e !! lower CVarName) as [c|] eqn:Hc; simpl.
    + rewrite lookup_insert_eq. simpl. eexists.
      destruct (cmp v _); [destruct useExistingPriority |]; reflexivity.
    + exists (InitialCVarMap p). apply set_InitialCVarMap_same.
Qed.

Lemma only_captures_SetCapturedCVar CVarName v wantReset useExistingPriority :
  only_captures (SetCapturedCVar CVarName v wantReset useExistingPriority).
Proof. apply only_captures_SetCapturedCVarPredicated. Qed.

Ltac captures_item :=
  lazymatch goal with
  | |- only_captures (stmt_e _) => apply only_captures_stmt_e
  | |- only_captures (SetCapturedCVar _ _ _ _) => apply only_captures_SetCapturedCVar
  | |- only_captures (when _ _) => apply only_captures_when
  | |- only_captures (sequence _) => apply only_captures_sequence
  | |- only_captures (?m _ _) =>
      unfold m; intros ?;
      first [apply only_captures_SetCapturedCVar | apply only_captures_SetCapturedCVarPredicated]
  end.

Ltac captures_list :=
  repeat lazymatch goal with
         | |- Forall _ [] => apply Forall_nil
         | |- Forall _ (_ :: _) => apply Forall_cons
         | |- Forall _ ?l => unfold l
         | |- only_captures _ => captures_item
         end.


Lemma only_captures_capture_streaming_settings : only_captures capture_streaming_settings.
Proof. apply only_captures_sequence. captures_list. Qed.

Lemma same_frame_refl p : same_frame p p.
Proof. reflexivity. Qed.

Lemma same_frame_trans p q r : same_frame p q -> same_frame q r -> same_frame p r.
Proof. unfold same_frame. congruence. Qed.


Lemma sequence_snoc fs f s : sequence (fs ++ [f]) s = f (sequence fs s).
Proof. unfold sequence. rewrite foldl_app. reflexivity. Qed.

(** A block of [ConfigureRenderingSettingsForPhotography]: statements that
    only capture and set console variables, closed by the assignment of the
    desired flag to the is-set-up flag. *)
Lemma quality_block_spec (c : St -> bool) (IsSetup Desired : Flag) (body : list (St -> St)) s :
  Forall only_captures body ->
  let s' := when c (body ++ [copy_flag IsSetup Desired]) s in
  same_frame (fst s) (fst s') /\
  (forall g, g <> IsSetup -> flag (fst s') g = flag (fst s) g) /\
  (c s = true -> flag (fst s') IsSetup = flag (fst s) Desired) /\
  (c s = false -> s' = s).
Proof.
  intros Hb. cbv zeta. unfold when. destruct (c s).
  - rewrite sequence_snoc. destruct (only_captures_sequence body Hb s) as [M HM].
    unfold copy_flag, stmt_p. cbn [fst snd]. rewrite HM.
    split; [reflexivity |]. split; [| split; [| discriminate]].
    + intros g Hg. rewrite flag_set_ne by congruence. reflexivity.
    + intros _. rewrite flag_set_eq. reflexivity.
  - split; [reflexivity |]. split; [reflexivity |]. split; [discriminate | reflexivity].
Qed.

Lemma differ_false a b s : differ a b s = false <-> flag (fst s) a = flag (fst s) b.
Proof.
  unfold differ. destruct (flag (fst s) a), (flag (fst s) b); cbn; split;
    intros H; try discriminate; reflexivity.
Qed.

Lemma quality_toggle_spec (IsSetup Desired : Flag) (body : list (St -> St)) s :
  Forall only_captures body ->
  let s' := when (differ IsSetup Desired) (body ++ [copy_flag IsSetup Desired]) s in
  same_frame (fst s) (fst s') /\
  (forall g, g <> IsSetup -> flag (fst s') g = flag (fst s) g) /\
  flag (fst s') IsSetup = flag (fst s) Desired /\
  (flag (fst s) IsSetup = flag (fst s) Desired -> s' = s).
Proof.
  intros Hb. destruct (quality_block_spec (differ IsSetup Desired) IsSetup Desired body s Hb)
    as (H1 & H2 & H3 & H4). cbv zeta in *.
  split; [exact H1 |]. split; [exact H2 |]. split.
  - destruct (differ IsSetup Desired s) eqn:E; [by apply H3 |].
    rewrite (H4 eq_refl). by apply differ_false.
  - intros E. apply H4. by apply differ_false.
Qed.

Ltac toggle_block IsSetup Desired :=
  lazymatch goal with
  | |- applies_toggle _ _ ?f =>
      unfold f; intros s;
      lazymatch goal with
      | |- context [when ?c ?l] =>
          let b := eval cbv [removelast] in (removelast l) in
          change (when c l) with (when c (b ++ [copy_flag IsSetup Desired]))
      end;
      apply quality_toggle_spec; captures_list
  end.

Lemma lod_settings_applies : applies_toggle bHighLodIsSetup bHighLodDesired lod_settings.
Proof. toggle_block bHighLodIsSetup bHighLodDesired. Qed.

Lemma lumen_settings_applies :
  applies_toggle bHighLumenIsSetup bHighLumenDesired lumen_settings.
Proof. toggle_block bHighLumenIsSetup bHighLumenDesired. Qed.

Lemma skylight_settings_applies :
  applies_toggle bHighSkyLightIsSetup bHighSkyLightDesired skylight_settings.
Proof. toggle_block bHighSkyLightIsSetup bHighSkyLightDesired. Qed.

Lemma sg_quality_settings_applies :
  applies_toggle bHighSgQualityIsSetup bHighSgQualityDesired sg_quality_settings.
Proof. toggle_block bHighSgQualityIsSetup bHighSgQualityDesired. Qed.

Lemma antialiasing_settings_applies :
  applies_toggle bHighAntiAliasingIsSetup bHighAntiAliasingDesired antialiasing_settings.
Proof. toggle_block bHighAntiAliasingIsSetup bHighAntiAliasingDesired. Qed.


(** The high-quality block, whose gate also asks for the variable that
    allows it and for the game to be paused (or not to be paused by the
    plugin at all). *)
Lemma high_quality_settings_spec s :
  let gate :=
    negb (CVarAllowHighQuality (Console (snd s)) =? 0)%Z
    && differ bHighQualityModeIsSetup bHighQualityModeDesired s
    && (flag (fst s) bPausedInternally || negb (flag (fst s) bAutoPause)) in
  let s' := high_quality_settings s in
  same_frame (fst s) (fst s') /\
  (forall g, g <> bHighQualityModeIsSetup -> flag (fst s') g = flag (fst s) g) /\
  (gate = true -> flag (fst s') bHighQualityModeIsSetup = flag (fst s) bHighQualityModeDesired) /\
  (gate = false -> s' = s).
Proof.
  cbv zeta. unfold high_quality_settings.
  lazymatch goal with
  | |- context [when ?c ?l] =>
      let b := eval cbv [removelast] in (removelast l) in
      change (when c l)
        with (when c (b ++ [copy_flag bHighQualityModeIsSetup bHighQualityModeDesired]))
  end.
  lazymatch goal with
  | |- context [when ?c (?b ++ _)] =>
      apply (quality_block_spec c bHighQualityModeIsSetup bHighQualityModeDesired b s)
  end.
  captures_list.
Qed.


(** ** The quality toggles of the Ansel UI *)

Lemma same_frame_bool_val p q : same_frame p q -> bool_val q = bool_val p.
Proof. intros H. exact (f_equal bool_val H). Qed.

Lemma same_frame_userControlId p q : same_frame p q -> userControlId q = userControlId p.
Proof. intros H. exact (f_equal userControlId H). Qed.

Lemma same_frame_float_val p q : same_frame p q -> float_val q = float_val p.
Proof. intros H. exact (f_equal float_val H). Qed.

Lemma same_frame_original p q :
  same_frame p q -> UEPostProcessingOriginal q = UEPostProcessingOriginal p.
Proof. intros H. exact (f_equal UEPostProcessingOriginal H). Qed.

Lemma same_frame_ranges p q :
  same_frame p q ->
  UIControlRangeLower q = UIControlRangeLower p /\
  UIControlRangeUpper q = UIControlRangeUpper p.
Proof.
  intros H. split;
    [exact (f_equal UIControlRangeLower H) | exact (f_equal UIControlRangeUpper H)].
Qed.


Lemma ProcessUIBool_flag id m p g :
  flag (ProcessUIBool id m p) g = if decide (g = m) then bool_val p id else flag p g.
Proof.
  unfold ProcessUIBool. destruct (userControlId p id <=? 0)%Z, (decide (g = m)) as [-> | Hg];
    rewrite ?flag_set_eq, ?flag_set_ne by congruence; reflexivity.
Qed.

Lemma ProcessUIBool_frame id m p : same_frame p (ProcessUIBool id m p).
Proof. unfold ProcessUIBool. destruct (userControlId p id <=? 0)%Z; reflexivity. Qed.

Lemma ProcessUIBool_bool_val id m p : bool_val (ProcessUIBool id m p) = bool_val p.
Proof. exact (same_frame_bool_val _ _ (ProcessUIBool_frame id m p)). Qed.

Lemma ProcessUIBool_captured id m p :
  InitialCVarMap (ProcessUIBool id m p) = InitialCVarMap p.
Proof. unfold ProcessUIBool. destruct (userControlId p id <=? 0)%Z; reflexivity. Qed.

(** The five [ProcessUIBool] calls that close [DoCustomUIControls]. *)
Lemma process_toggles p :
  let p' :=
    ProcessUIBool control_sgQuality bHighSgQualityDesired
      (ProcessUIBool control_AntiAliasing bHighAntiAliasingDesired
         (ProcessUIBool control_SkylightSettings bHighSkyLightDesired
            (ProcessUIBool control_LumenSettings bHighLumenDesired
               (ProcessUIBool control_OLDSettings bHighLodDesired p)))) in
  same_frame p p' /\
  InitialCVarMap p' = InitialCVarMap p /\
  Forall (fun '(c, Desired, _) => flag p' Desired = bool_val p c) quality_toggles /\
  (forall g, Forall (fun '(_, Desired, _) => g <> Desired) quality_toggles ->
             flag p' g = flag p g).
Proof.
  cbv zeta. split; [| split; [| split]].
  - repeat (eapply same_frame_trans; [| apply ProcessUIBool_frame]). apply same_frame_refl.
  - rewrite !ProcessUIBool_captured. reflexivity.
  - unfold quality_toggles. repeat apply Forall_cons; try apply Forall_nil;
      rewrite !ProcessUIBool_flag, ?ProcessUIBool_bool_val;
      repeat destruct (decide _); try discriminate; try reflexivity; contradiction.
  - intros g Hg. unfold quality_toggles in Hg.
    repeat (apply Forall_cons_1 in Hg; destruct Hg as [? Hg]).
    rewrite !ProcessUIBool_flag.
    repeat destruct (decide _); try congruence; reflexivity.
Qed.


(** ** Rebuilding the controls *)

Lemma clear_control_spec i s :
  let s' := clear_control i s in
  set_userControlId (fun _ => 0%Z) (fst s') = set_userControlId (fun _ => 0%Z) (fst s) /\
  Console (snd s') = Console (snd s) /\
  (userControlId (fst s') i <= 0)%Z /\
  (forall c, (userControlId (fst s) c <= 0)%Z -> (userControlId (fst s') c <= 0)%Z).
Proof.
  destruct s as [p e]. cbv zeta. unfold clear_control.
  destruct (0 <? userControlId p i)%Z eqn:E; cbn [fst snd].
  - split; [reflexivity |]. split; [reflexivity |]. split.
    + cbn. rewrite fn_lookup_insert. lia.
    + intros c Hc. cbn. destruct (decide (c = i)) as [-> |].
      * rewrite fn_lookup_insert. lia.
      * rewrite fn_lookup_insert_ne by congruence. exact Hc.
  - split; [reflexivity |]. split; [reflexivity |]. split; [lia | auto].
Qed.

Lemma clear_controls_spec l s :
  let s' := sequence (map clear_control l) s in
  set_userControlId (fun _ => 0%Z) (fst s') = set_userControlId (fun _ => 0%Z) (fst s) /\
  Console (snd s') = Console (snd s) /\
  (forall c, In c l \/ (userControlId (fst s) c <= 0)%Z -> (userControlId (fst s') c <= 0)%Z).
Proof.
  revert s. induction l as [| i l IH]; intros s; cbv zeta.
  - split; [reflexivity |]. split; [reflexivity |]. intros c [[] | H]. exact H.
  - change (sequence (map clear_control (i :: l)) s)
      with (sequence (map clear_control l) (clear_control i s)).
    destruct (clear_control_spec i s) as (A1 & A2 & A3 & A4).
    destruct (IH (clear_control i s)) as (B1 & B2 & B3). cbv zeta in *.
    split; [congruence |]. split; [congruence |].
    intros c [[-> | Hc] | Hc]; apply B3; auto.
Qed.

Lemma all_controls_complete c : In c all_controls.
Proof. destruct c; cbn; tauto. Qed.

(** After the loop that clears the controls none is in use, and nothing else
    in the provider has changed. *)
Lemma clear_all_controls s :
  let s' := sequence (map clear_control all_controls) s in
  set_userControlId (fun _ => 0%Z) (fst s') = set_userControlId (fun _ => 0%Z) (fst s) /\
  Console (snd s') = Console (snd s) /\
  (forall c, (userControlId (fst s') c <=? 0)%Z = true).
Proof.
  destruct (clear_controls_spec all_controls s) as (A1 & A2 & A3). cbv zeta in *.
  split; [exact A1 |]. split; [exact A2 |].
  intros c. apply Z.leb_le, A3. left. apply all_controls_complete.
Qed.


Lemma sequence_cons f fs s : sequence (f :: fs) s = sequence fs (f s).
Proof. reflexivity. Qed.

Lemma sequence_nil s : sequence [] s = s.
Proof. reflexivity. Qed.

Lemma control_index_used c : (control_index c + 1 <=? 0)%Z = false.
Proof. destruct c; reflexivity. Qed.

Lemma ProcessUISlider_unused p id F S :
  (userControlId p id <=? 0)%Z = true -> ProcessUISlider p id F S = S.
Proof. unfold ProcessUISlider. intros ->. reflexivity. Qed.

Lemma ProcessUISlider_used p id F S :
  (userControlId p id <=? 0)%Z = false ->
  ProcessUISlider p id F S =
  set_bOverride F true
    (set_Value F (Lerp (UIControlRangeLower p id) (UIControlRangeUpper p id) (float_val p id)) S).
Proof. unfold ProcessUISlider. intros ->. reflexivity. Qed.

Lemma DeclareBool_fields id v fl ci td rf cf rw cw nf al uc fv bv lo up orig M e :
  DeclareBool id v
    ({| flag := fl; AnselCaptureInfo := ci; fTimeDilationBeforeSession := td;
        RequiredFovType := rf; CurrentlyConfiguredFovType := cf;
        RequiredWorldToMeters := rw; CurrentlyConfiguredWorldToMeters := cw;
        NumFramesSinceSessionStart := nf; bEffectUIAllowed := al; userControlId := uc;
        float_val := fv; bool_val := bv; UIControlRangeLower := lo;
        UIControlRangeUpper := up; UEPostProcessingOriginal := orig;
        InitialCVarMap := M |}, e) =
  ({| flag := fl; AnselCaptureInfo := ci; fTimeDilationBeforeSession := td;
      RequiredFovType := rf; CurrentlyConfiguredFovType := cf;
      RequiredWorldToMeters := rw; CurrentlyConfiguredWorldToMeters := cw;
      NumFramesSinceSessionStart := nf; bEffectUIAllowed := al;
      userControlId := <[id := (control_index id + 1)%Z]> uc;
      float_val := fv; bool_val := <[id := v]> bv; UIControlRangeLower := lo;
      UIControlRangeUpper := up; UEPostProcessingOriginal := orig;
      InitialCVarMap := M |},
   emit (ansel_addUserControl (control_index id + 1)) e).
Proof. reflexivity. Qed.

Lemma DeclareSlider_fields id LowerBound UpperBound Val
    fl ci td rf cf rw cw nf al uc fv bv lo up orig M e :
  DeclareSlider id LowerBound UpperBound Val
    ({| flag := fl; AnselCaptureInfo := ci; fTimeDilationBeforeSession := td;
        RequiredFovType := rf; CurrentlyConfiguredFovType := cf;
        RequiredWorldToMeters := rw; CurrentlyConfiguredWorldToMeters := cw;
        NumFramesSinceSessionStart := nf; bEffectUIAllowed := al; userControlId := uc;
        float_val := fv; bool_val := bv; UIControlRangeLower := lo;
        UIControlRangeUpper := up; UEPostProcessingOriginal := orig;
        InitialCVarMap := M |}, e) =
  ({| flag := fl; AnselCaptureInfo := ci; fTimeDilationBeforeSession := td;
      RequiredFovType := rf; CurrentlyConfiguredFovType := cf;
      RequiredWorldToMeters := rw; CurrentlyConfiguredWorldToMeters := cw;
      NumFramesSinceSessionStart := nf; bEffectUIAllowed := al;
      userControlId := <[id := (control_index id + 1)%Z]> uc;
      float_val := <[id := GetRangePct LowerBound UpperBound Val]> fv; bool_val := bv;
      UIControlRangeLower := <[id := LowerBound]> lo;
      UIControlRangeUpper := <[id := UpperBound]> up; UEPostProcessingOriginal := orig;
      InitialCVarMap := M |},
   emit (UE_LOG "control status") (emit (ansel_addUserControl (control_index id + 1)) e)).
Proof. reflexivity. Qed.

Lemma set_original_fields PP fl ci td rf cf rw cw nf al uc fv bv lo up orig M e :
  stmt_p (set_UEPostProcessingOriginal PP)
    ({| flag := fl; AnselCaptureInfo := ci; fTimeDilationBeforeSession := td;
        RequiredFovType := rf; CurrentlyConfiguredFovType := cf;
        RequiredWorldToMeters := rw; CurrentlyConfiguredWorldToMeters := cw;
        NumFramesSinceSessionStart := nf; bEffectUIAllowed := al; userControlId := uc;
        float_val := fv; bool_val := bv; UIControlRangeLower := lo;
        UIControlRangeUpper := up; UEPostProcessingOriginal := orig;
        InitialCVarMap := M |}, e) =
  ({| flag := fl; AnselCaptureInfo := ci; fTimeDilationBeforeSession := td;
      RequiredFovType := rf; CurrentlyConfiguredFovType := cf;
      RequiredWorldToMeters := rw; CurrentlyConfiguredWorldToMeters := cw;
      NumFramesSinceSessionStart := nf; bEffectUIAllowed := al; userControlId := uc;
      float_val := fv; bool_val := bv; UIControlRangeLower := lo;
      UIControlRangeUpper := up; UEPostProcessingOriginal := PP;
      InitialCVarMap := M |}, e).
Proof. reflexivity. Qed.

Lemma set_flag_fields g b fl ci td rf cf rw cw nf al uc fv bv lo up orig M e :
  stmt_p (set g b)
    ({| flag := fl; AnselCaptureInfo := ci; fTimeDilationBeforeSession := td;
        RequiredFovType := rf; CurrentlyConfiguredFovType := cf;
        RequiredWorldToMeters := rw; CurrentlyConfiguredWorldToMeters := cw;
        NumFramesSinceSessionStart := nf; bEffectUIAllowed := al; userControlId := uc;
        float_val := fv; bool_val := bv; UIControlRangeLower := lo;
        UIControlRangeUpper := up; UEPostProcessingOriginal := orig;
        InitialCVarMap := M |}, e) =
  ({| flag := <[g := b]> fl; AnselCaptureInfo := ci; fTimeDilationBeforeSession := td;
      RequiredFovType := rf; CurrentlyConfiguredFovType := cf;
      RequiredWorldToMeters := rw; CurrentlyConfiguredWorldToMeters := cw;
      NumFramesSinceSessionStart := nf; bEffectUIAllowed := al; userControlId := uc;
      float_val := fv; bool_val := bv; UIControlRangeLower := lo;
      UIControlRangeUpper := up; UEPostProcessingOriginal := orig;
      InitialCVarMap := M |}, e).
Proof. reflexivity. Qed.

Lemma when_eq c fs s : when c fs s = if c s then sequence fs s else s.
Proof. reflexivity. Qed.

(** Evaluates the next [when] of an equation on a state given by its fields,
    and splits on its condition. *)
Ltac advance_when E :=
  match type of E with
  | context [when ?c ?l (?p, ?e)] => rewrite (when_eq c l (p, e)) in E
  end;
  cbv beta in E; cbn [fst bEffectUIAllowed] in E;
  match type of E with
  | context [if ?b then _ else _] => destruct b eqn:?
  end;
  rewrite ?sequence_cons, ?sequence_nil, ?DeclareSlider_fields in E.

Ltac lookup_insert :=
  repeat first [rewrite fn_lookup_insert | rewrite fn_lookup_insert_ne by discriminate].

Ltac slider_fact A3 :=
  intros S;
  first [ apply ProcessUISlider_unused; cbn [userControlId]; lookup_insert; apply A3
        | rewrite ProcessUISlider_used
            by (cbn [userControlId]; lookup_insert; apply control_index_used);
          cbn [UIControlRangeLower UIControlRangeUpper float_val]; lookup_insert;
          reflexivity ].

(** What the rebuild of the controls leaves behind. *)
Lemma rebuild_controls_spec PP s :
  let s' := rebuild_controls PP s in
  let shown := slider_shown (bEffectUIAllowed (fst s)) PP in
  let slider id F (LowerBound UpperBound : Q) := forall S,
    ProcessUISlider (fst s') id F S =
    if shown F
    then set_bOverride F true
           (set_Value F (Lerp LowerBound UpperBound
                           (GetRangePct LowerBound UpperBound (Value PP F))) S)
    else S in
  flag (fst s') = <[bUIControlsNeedRebuild := false]> (flag (fst s)) /\
  bool_val (fst s') =
    <[control_sgQuality := false]> (<[control_AntiAliasing := false]>
      (<[control_SkylightSettings := false]> (<[control_LumenSettings := false]>
        (<[control_OLDSettings := false]> (bool_val (fst s)))))) /\
  UEPostProcessingOriginal (fst s') = PP /\
  InitialCVarMap (fst s') = InitialCVarMap (fst s) /\
  Console (snd s') = Console (snd s) /\
  bEffectUIAllowed (fst s') = bEffectUIAllowed (fst s) /\
  AnselCaptureInfo (fst s') = AnselCaptureInfo (fst s) /\
  (forall S, ProcessUISlider (fst s') control_dofscale DepthOfFieldScale S = S) /\
  (forall S, ProcessUISlider (fst s') control_doffocalregion DepthOfFieldFocalRegion S = S) /\
  slider control_dofsensorwidth DepthOfFieldSensorWidth 0.1%Q 1000%Q /\
  slider control_doffocaldistance DepthOfFieldFocalDistance 0%Q 1000%Q /\
  slider control_dofdepthbluramount DepthOfFieldDepthBlurAmount 0.000001%Q 1%Q /\
  slider control_dofdepthblurradius DepthOfFieldDepthBlurRadius 0%Q 4%Q /\
  slider control_bloomintensity BloomIntensity 0%Q 8%Q /\
  slider control_bloomscale BloomSizeScale 0%Q 64%Q /\
  slider control_scenefringeintensity SceneFringeIntensity 0%Q 15%Q.
Proof.
  cbv zeta. remember (rebuild_controls PP s) as s' eqn:E.
  unfold rebuild_controls in E. rewrite sequence_cons in E.
  destruct (clear_all_controls s) as (A1 & A2 & A3). cbv zeta in *.
  set (s0 := sequence (map clear_control all_controls) s) in *. clearbody s0.
  destruct s0 as [p0 e0]. destruct s as [p e]. cbn [fst snd] in *.
  destruct p0 as [fl ci td rf cf rw cw nf al uc fv bv lo up orig M].
  destruct p as [fl' ci' td' rf' cf' rw' cw' nf' al' uc' fv' bv' lo' up' orig' M'].
  injection A1 as -> -> -> -> -> -> -> -> -> -> -> -> -> -> ->.
  cbn [userControlId] in A3.
  rewrite !sequence_cons, sequence_nil in E.
  rewrite !DeclareBool_fields, set_original_fields in E.
  advance_when E; advance_when E; advance_when E;
    rewrite set_flag_fields in E; subst s';
    cbn [fst snd flag bool_val UEPostProcessingOriginal InitialCVarMap bEffectUIAllowed
         AnselCaptureInfo slider_shown];
    repeat match goal with H : _ = _ :> bool |- _ => rewrite H; clear H end;
    cbv iota;
    (split; [reflexivity |]); (split; [reflexivity |]); (split; [reflexivity |]);
    (split; [reflexivity |]); (split; [exact A2 |]); (split; [reflexivity |]);
    (split; [reflexivity |]);
    repeat split; slider_fact A3.
Qed.


Lemma DoCustomUIControls_state PP (b : bool) s :
  let s1 : St := if b then rebuild_controls PP s else s in
  snd (DoCustomUIControls PP b s) =
  (ProcessUIBool control_sgQuality bHighSgQualityDesired
     (ProcessUIBool control_AntiAliasing bHighAntiAliasingDesired
        (ProcessUIBool control_SkylightSettings bHighSkyLightDesired
           (ProcessUIBool control_LumenSettings bHighLumenDesired
              (ProcessUIBool control_OLDSettings bHighLodDesired (fst s1))))),
   snd s1).
Proof. reflexivity. Qed.

Lemma DoCustomUIControls_settings PP (b : bool) s :
  let p : Provider := fst (if b then rebuild_controls PP s else s) in
  fst (DoCustomUIControls PP b s) =
  ProcessUISlider p control_scenefringeintensity SceneFringeIntensity
    (ProcessUISlider p control_bloomscale BloomSizeScale
       (ProcessUISlider p control_bloomintensity BloomIntensity
          (ProcessUISlider p control_dofdepthblurradius DepthOfFieldDepthBlurRadius
             (ProcessUISlider p control_dofdepthbluramount DepthOfFieldDepthBlurAmount
                (ProcessUISlider p control_doffocaldistance DepthOfFieldFocalDistance
                   (ProcessUISlider p control_dofsensorwidth DepthOfFieldSensorWidth
                      (ProcessUISlider p control_doffocalregion DepthOfFieldFocalRegion
                         (ProcessUISlider p control_dofscale DepthOfFieldScale
                            (UEPostProcessingOriginal p))))))))).
Proof. reflexivity. Qed.

Lemma Lerp_GetRangePct A B v : ~ B - A == 0 -> Lerp A B (GetRangePct A B v) == v.
Proof. intros H. unfold Lerp, GetRangePct. field. exact H. Qed.

Ltac range_ok := let H := fresh in intros H; vm_compute in H; discriminate H.

(** X12. On the update that rebuilds the controls the plugin hands back the
    settings it was given: every member keeps its value, and the override
    bit is added for exactly the members a slider is shown for.  The settings
    are saved as the session's original, the five quality toggles start
    switched off, and the rebuild is marked done. *)
Theorem rebuild_passes_settings_through PP s :
  let r := DoCustomUIControls PP true s in
  (forall F, Value (fst r) F == Value PP F) /\
  (forall F, bOverride (fst r) F =
             bOverride PP F || slider_shown (bEffectUIAllowed (fst s)) PP F) /\
  UEPostProcessingOriginal (fst (snd r)) = PP /\
  Forall (fun '(c, Desired, _) =>
            bool_val (fst (snd r)) c = false /\ flag (fst (snd r)) Desired = false)
         quality_toggles /\
  flag (fst (snd r)) bUIControlsNeedRebuild = false.
Proof.
  cbv zeta. rewrite DoCustomUIControls_state, DoCustomUIControls_settings. cbv zeta iota.
  destruct (rebuild_controls_spec PP s)
    as (Hfl & Hbv & Horig & _ & _ & _ & _ & S1 & S2 & S3 & S4 & S5 & S6 & S7 & S8 & S9).
  cbv zeta in *. set (s1 := rebuild_controls PP s) in *. clearbody s1.
  destruct (process_toggles (fst s1)) as (T1 & _ & T3 & T4). cbv zeta in *.
  set (p' := ProcessUIBool _ _ _) in *. clearbody p'. cbn [fst snd].
  rewrite S1, S2, S3, S4, S5, S6, S7, S8, S9, Horig. clear S1 S2 S3 S4 S5 S6 S7 S8 S9.
  split; [| split; [| split; [| split]]].
  - intros F. unfold slider_shown.
    destruct (bEffectUIAllowed (fst s) DepthOfField && _),
             (bEffectUIAllowed (fst s) Bloom && _),
             (bEffectUIAllowed (fst s) ChromaticAberration && _);
      destruct F; cbn [Value set_Value set_bOverride]; lookup_insert;
      first [reflexivity | apply Lerp_GetRangePct; range_ok].
  - intros F. unfold slider_shown.
    destruct (bEffectUIAllowed (fst s) DepthOfField && _),
             (bEffectUIAllowed (fst s) Bloom && _),
             (bEffectUIAllowed (fst s) ChromaticAberration && _);
      destruct F; cbn [bOverride set_Value set_bOverride]; lookup_insert;
      rewrite ?orb_true_r, ?orb_false_r; reflexivity.
  - rewrite (same_frame_original _ _ T1). exact Horig.
  - rewrite (same_frame_bool_val _ _ T1), Hbv. unfold quality_toggles in *.
    repeat (apply Forall_cons_1 in T3; destruct T3 as [? T3]).
    repeat apply Forall_cons; try apply Forall_nil;
      (split; [lookup_insert; reflexivity |]).
    all: match goal with H : flag _ ?d = _ |- flag _ ?d = _ => rewrite H end.
    all: rewrite Hbv; lookup_insert; reflexivity.
  - rewrite T4, Hfl; [apply fn_lookup_insert |].
    unfold quality_toggles. repeat apply Forall_cons; try apply Forall_nil; discriminate.
Qed.


Lemma quality_blocks_spec s :
  let s5 :=
    antialiasing_settings
      (sg_quality_settings (skylight_settings (lumen_settings (lod_settings s)))) in
  same_frame (fst s) (fst s5) /\
  Forall (fun '(_, Desired, IsSetup) => flag (fst s5) IsSetup = flag (fst s) Desired)
         quality_toggles /\
  (forall g, Forall (fun '(_, _, IsSetup) => g <> IsSetup) quality_toggles ->
             flag (fst s5) g = flag (fst s) g) /\
  (Forall (fun '(_, Desired, IsSetup) => flag (fst s) IsSetup = flag (fst s) Desired)
          quality_toggles -> s5 = s).
Proof.
  cbv zeta.
  destruct (lod_settings_applies s) as (A1 & A2 & A3 & A4).
  set (s1 := lod_settings s) in *. clearbody s1.
  destruct (lumen_settings_applies s1) as (B1 & B2 & B3 & B4).
  set (s2 := lumen_settings s1) in *. clearbody s2.
  destruct (skylight_settings_applies s2) as (C1 & C2 & C3 & C4).
  set (s3 := skylight_settings s2) in *. clearbody s3.
  destruct (sg_quality_settings_applies s3) as (D1 & D2 & D3 & D4).
  set (s4 := sg_quality_settings s3) in *. clearbody s4.
  destruct (antialiasing_settings_applies s4) as (E1 & E2 & E3 & E4).
  set (s5 := antialiasing_settings s4) in *. clearbody s5.
  split; [| split; [| split]].
  - repeat (eapply same_frame_trans; [eassumption |]). apply same_frame_refl.
  - unfold quality_toggles. repeat apply Forall_cons; try apply Forall_nil;
      repeat first [ rewrite E3 | rewrite E2 by discriminate
                   | rewrite D3 | rewrite D2 by discriminate
                   | rewrite C3 | rewrite C2 by discriminate
                   | rewrite B3 | rewrite B2 by discriminate
                   | rewrite A3 | rewrite A2 by discriminate ];
      reflexivity.
  - intros g Hg. unfold quality_toggles in Hg.
    repeat (apply Forall_cons_1 in Hg; destruct Hg as [? Hg]).
    rewrite E2, D2, C2, B2, A2 by assumption. reflexivity.
  - intros H. unfold quality_toggles in H.
    repeat (apply Forall_cons_1 in H; destruct H as [? H]).
    rewrite (A4 ltac:(assumption)) in *.
    rewrite (B4 ltac:(assumption)) in *.
    rewrite (C4 ltac:(assumption)) in *.
    rewrite (D4 ltac:(assumption)) in *.
    apply E4. assumption.
Qed.

Lemma Configure_state PP s :
  let s6 :=
    high_quality_settings
      (antialiasing_settings
         (sg_quality_settings (skylight_settings (lumen_settings (lod_settings s))))) in
  ConfigureRenderingSettingsForPhotography PP s =
  if flag (fst s6) bAnselCaptureActive then
    if flag (fst (capture_streaming_settings s6)) bAutoPostprocess
    then (capture_postprocess (AnselCaptureInfo (fst (capture_streaming_settings s6))) PP,
          capture_streaming_settings s6)
    else (PP, capture_streaming_settings s6)
  else (PP, s6).
Proof. reflexivity. Qed.

Lemma only_captures_fields f s :
  only_captures f ->
  same_frame (fst s) (fst (f s)) /\ flag (fst (f s)) = flag (fst s).
Proof. intros H. destruct (H s) as [M ->]. split; reflexivity. Qed.

(** The provider after [ConfigureRenderingSettingsForPhotography]. *)
Lemma Configure_provider PP s :
  let s' := snd (ConfigureRenderingSettingsForPhotography PP s) in
  same_frame (fst s) (fst s') /\
  Forall (fun '(_, Desired, IsSetup) =>
            flag (fst s') IsSetup = flag (fst s) Desired /\
            flag (fst s') Desired = flag (fst s) Desired) quality_toggles /\
  (forall g, Forall (fun '(_, _, IsSetup) => g <> IsSetup) quality_toggles ->
             g <> bHighQualityModeIsSetup -> flag (fst s') g = flag (fst s) g) /\
  (flag (fst s') bHighQualityModeIsSetup <> flag (fst s) bHighQualityModeIsSetup ->
   flag (fst s') bHighQualityModeIsSetup = flag (fst s) bHighQualityModeDesired /\
   (flag (fst s) bPausedInternally || negb (flag (fst s) bAutoPause)) = true).
Proof.
  cbv zeta. rewrite Configure_state. cbv zeta.
  destruct (quality_blocks_spec s) as (A1 & A2 & A3 & _). cbv zeta in *.
  set (s5 := antialiasing_settings _) in *. clearbody s5.
  destruct (high_quality_settings_spec s5) as (B1 & B2 & B3 & B4). cbv zeta in *.
  set (s6 := high_quality_settings s5) in *.
  destruct (only_captures_fields capture_streaming_settings s6
              only_captures_capture_streaming_settings) as (C1 & C2).
  assert (F : exists s7, snd (if flag (fst s6) bAnselCaptureActive then
                          if flag (fst (capture_streaming_settings s6)) bAutoPostprocess
                          then (capture_postprocess
                                  (AnselCaptureInfo (fst (capture_streaming_settings s6))) PP,
                                capture_streaming_settings s6)
                          else (PP, capture_streaming_settings s6)
                        else (PP, s6)) = s7 /\
                 same_frame (fst s6) (fst s7) /\ flag (fst s7) = flag (fst s6)).
  { destruct (flag (fst s6) bAnselCaptureActive);
      [destruct (flag (fst (capture_streaming_settings s6)) bAutoPostprocess) |];
      eexists; (split; [reflexivity |]); cbn [snd]; split; auto; reflexivity. }
  destruct F as (s7 & -> & F1 & F2). clearbody s6.
  split; [| split; [| split]].
  - eapply same_frame_trans; [exact A1 |]. eapply same_frame_trans; [exact B1 | exact F1].
  - rewrite F2. unfold quality_toggles in *.
    repeat (apply Forall_cons_1 in A2; destruct A2 as [? A2]).
    repeat apply Forall_cons; try apply Forall_nil;
      (split; [rewrite B2 by discriminate; assumption |]);
      rewrite B2 by discriminate; apply A3;
      repeat apply Forall_cons; try apply Forall_nil; discriminate.
  - intros g Hg Hq. rewrite F2, B2 by assumption. by apply A3.
  - rewrite F2. intros Hne.
    assert (Hq : flag (fst s5) bHighQualityModeIsSetup = flag (fst s) bHighQualityModeIsSetup).
    { apply A3. unfold quality_toggles.
      repeat apply Forall_cons; try apply Forall_nil; discriminate. }
    assert (Hd : flag (fst s5) bHighQualityModeDesired = flag (fst s) bHighQualityModeDesired).
    { apply A3. unfold quality_toggles.
      repeat apply Forall_cons; try apply Forall_nil; discriminate. }
    assert (Hp : flag (fst s5) bPausedInternally = flag (fst s) bPausedInternally).
    { apply A3. unfold quality_toggles.
      repeat apply Forall_cons; try apply Forall_nil; discriminate. }
    assert (Ha : flag (fst s5) bAutoPause = flag (fst s) bAutoPause).
    { apply A3. unfold quality_toggles.
      repeat apply Forall_cons; try apply Forall_nil; discriminate. }
    destruct (negb (CVarAllowHighQuality (Console (snd s5)) =? 0)%Z
              && differ bHighQualityModeIsSetup bHighQualityModeDesired s5
              && (flag (fst s5) bPausedInternally || negb (flag (fst s5) bAutoPause)))
      eqn:G.
    + rewrite (B3 eq_refl), Hd. split; [reflexivity |].
      apply andb_prop in G. destruct G as [_ G]. rewrite <- Hp, <- Ha. exact G.
    + exfalso. apply Hne. rewrite (B4 eq_refl). exact Hq.
Qed.

Lemma name_it {A} (x : A) : exists y, x = y.
Proof. exists x. reflexivity. Qed.

(** Replaces a term by a variable everywhere. *)
Ltac forget t x :=
  let E := fresh "E" in
  destruct (name_it t) as [x E]; rewrite ?E in *; clear E.

Lemma UpdatePostProcessing_active PP s :
  flag (fst s) bAnselSessionActive = true ->
  UpdatePostProcessing PP s =
  ConfigureRenderingSettingsForPhotography
    (fst (DoCustomUIControls PP (flag (fst s) bUIControlsNeedRebuild) s))
    (snd (DoCustomUIControls PP (flag (fst s) bUIControlsNeedRebuild) s)).
Proof.
  intros H. unfold UpdatePostProcessing. rewrite H.
  destruct (DoCustomUIControls PP (flag (fst s) bUIControlsNeedRebuild) s). reflexivity.
Qed.

(** The provider after [DoCustomUIControls], called as [UpdatePostProcessing]
    calls it. *)
Lemma DoCustomUIControls_provider PP (b : bool) s :
  flag (fst s) bUIControlsNeedRebuild = b ->
  let s1 := snd (DoCustomUIControls PP b s) in
  Forall (fun '(c, Desired, _) =>
            bool_val (fst s1) c = (if b then false else bool_val (fst s) c) /\
            flag (fst s1) Desired = bool_val (fst s1) c) quality_toggles /\
  flag (fst s1) bUIControlsNeedRebuild = false /\
  (forall g, g <> bUIControlsNeedRebuild ->
             Forall (fun '(_, Desired, _) => g <> Desired) quality_toggles ->
             flag (fst s1) g = flag (fst s) g) /\
  InitialCVarMap (fst s1) = InitialCVarMap (fst s) /\
  Console (snd s1) = Console (snd s) /\
  AnselCaptureInfo (fst s1) = AnselCaptureInfo (fst s) /\
  (b = false -> snd s1 = snd s /\ same_frame (fst s) (fst s1)).
Proof.
  intros Hb. cbv zeta. rewrite DoCustomUIControls_state.
  destruct b; cbv zeta iota.
  - destruct (rebuild_controls_spec PP s)
      as (Hfl & Hbv & _ & HM & Hcon & _ & Hci & _). cbv zeta in *.
    forget (rebuild_controls PP s) s0.
    destruct (process_toggles (fst s0)) as (T1 & T2 & T3 & T4). cbv zeta in *.
    match goal with |- context [ProcessUIBool control_sgQuality ?m ?p] =>
      forget (ProcessUIBool control_sgQuality m p) p' end.
    cbn [fst snd].
    split; [| split; [| split; [| split; [| split; [| split]]]]].
    + rewrite (same_frame_bool_val _ _ T1), Hbv. unfold quality_toggles in *.
      repeat (apply Forall_cons_1 in T3; destruct T3 as [? T3]).
      repeat apply Forall_cons; try apply Forall_nil;
        (split; [lookup_insert; reflexivity |]).
      all: match goal with H : flag _ ?d = _ |- flag _ ?d = _ => rewrite H end.
      all: rewrite Hbv; reflexivity.
    + rewrite T4, Hfl; [apply fn_lookup_insert |].
      unfold quality_toggles. repeat apply Forall_cons; try apply Forall_nil; discriminate.
    + intros g Hg Hd. rewrite (T4 g Hd), Hfl. apply fn_lookup_insert_ne. congruence.
    + congruence.
    + exact Hcon.
    + rewrite <- Hci. exact (f_equal AnselCaptureInfo T1).
    + discriminate.
  - destruct (process_toggles (fst s)) as (T1 & T2 & T3 & T4). cbv zeta in *.
    match goal with |- context [ProcessUIBool control_sgQuality ?m ?p] =>
      forget (ProcessUIBool control_sgQuality m p) p' end.
    cbn [fst snd].
    split; [| split; [| split; [| split; [| split; [| split]]]]].
    + rewrite (same_frame_bool_val _ _ T1). unfold quality_toggles in *.
      repeat (apply Forall_cons_1 in T3; destruct T3 as [? T3]).
      repeat apply Forall_cons; try apply Forall_nil; (split; [reflexivity | assumption]).
    + rewrite T4; [exact Hb |].
      unfold quality_toggles. repeat apply Forall_cons; try apply Forall_nil; discriminate.
    + intros g _ Hd. exact (T4 g Hd).
    + exact T2.
    + reflexivity.
    + exact (f_equal AnselCaptureInfo T1).
    + intros _. split; [reflexivity | exact T1].
Qed.

(** X13. An update of the post-processing during a session brings the five
    quality groups in line with their toggles in the Ansel UI: for each, the
    desired flag and the is-set-up flag both end up equal to the value of its
    control, which the rebuild of the controls resets to off.  The rebuild is
    marked done, no other flag changes except the one that records the
    high-quality mode as set up, and that one changes only to the desired
    mode and only if the plugin paused the game or does not pause at all. *)
Theorem update_applies_quality_toggles PP s :
  flag (fst s) bAnselSessionActive = true ->
  let s' := snd (UpdatePostProcessing PP s) in
  flag (fst s') bUIControlsNeedRebuild = false /\
  Forall (fun '(c, Desired, IsSetup) =>
            bool_val (fst s') c =
              (if flag (fst s) bUIControlsNeedRebuild then false else bool_val (fst s) c) /\
            flag (fst s') Desired = bool_val (fst s') c /\
            flag (fst s') IsSetup = bool_val (fst s') c) quality_toggles /\
  (forall g, g <> bUIControlsNeedRebuild -> g <> bHighQualityModeIsSetup ->
             Forall (fun '(_, Desired, IsSetup) => g <> Desired /\ g <> IsSetup)
                    quality_toggles ->
             flag (fst s') g = flag (fst s) g) /\
  (flag (fst s') bHighQualityModeIsSetup <> flag (fst s) bHighQualityModeIsSetup ->
   flag (fst s') bHighQualityModeIsSetup = flag (fst s) bHighQualityModeDesired /\
   (flag (fst s) bPausedInternally || negb (flag (fst s) bAutoPause)) = true).
Proof.
  intros Hact. cbv zeta. rewrite (UpdatePostProcessing_active PP s Hact).
  destruct (DoCustomUIControls_provider PP _ s eq_refl) as (D1 & D2 & D3 & _).
  cbv zeta in *.
  forget (DoCustomUIControls PP (flag (fst s) bUIControlsNeedRebuild) s) d.
  destruct (Configure_provider (fst d) (snd d)) as (C1 & C2 & C3 & C4). cbv zeta in *.
  forget (snd (ConfigureRenderingSettingsForPhotography (fst d) (snd d))) s'.
  assert (Hother : forall g, g <> bUIControlsNeedRebuild ->
            Forall (fun '(_, Desired, IsSetup) => g <> Desired /\ g <> IsSetup)
                   quality_toggles ->
            flag (fst (snd d)) g = flag (fst s) g).
  { intros g Hg Hq. apply D3; [exact Hg |]. unfold quality_toggles in *.
    repeat (apply Forall_cons_1 in Hq; destruct Hq as [[? ?] Hq]).
    repeat apply Forall_cons; try apply Forall_nil; assumption. }
  split; [| split; [| split]].
  - rewrite C3; [exact D2 | | discriminate].
    unfold quality_toggles. repeat apply Forall_cons; try apply Forall_nil; discriminate.
  - rewrite (same_frame_bool_val _ _ C1). unfold quality_toggles in *.
    repeat (apply Forall_cons_1 in D1; destruct D1 as [[? ?] D1]).
    repeat (apply Forall_cons_1 in C2; destruct C2 as [[? ?] C2]).
    repeat apply Forall_cons; try apply Forall_nil;
      (split; [assumption |]); split; congruence.
  - intros g Hg Hq Hall. rewrite C3; [by apply Hother | | exact Hq].
    unfold quality_toggles in *.
    repeat (apply Forall_cons_1 in Hall; destruct Hall as [[? ?] Hall]).
    repeat apply Forall_cons; try apply Forall_nil; assumption.
  - assert (Q : forall g, In g [bHighQualityModeIsSetup; bHighQualityModeDesired;
                                 bPausedInternally; bAutoPause] ->
                          flag (fst (snd d)) g = flag (fst s) g).
    { intros g Hg. apply Hother;
        [| unfold quality_toggles; repeat apply Forall_cons; try apply Forall_nil];
        cbn in Hg; intuition (subst; discriminate). }
    rewrite <- !Q by (cbn; tauto). exact C4.
Qed.

Lemma update_applies_quality_toggles_witness :
  flag (fst (snd (UpdatePostProcessing zero_settings
                    (step (EvBoolCallback control_LumenSettings true)
                       (run [EvUpdateCamera sample_frame;
                             EvUpdatePostProcessing zero_settings] sample_started)))))
       bHighLumenIsSetup = true.
Proof.
  destruct (update_applies_quality_toggles zero_settings
              (step (EvBoolCallback control_LumenSettings true)
                 (run [EvUpdateCamera sample_frame;
                       EvUpdatePostProcessing zero_settings] sample_started))
              ltac:(vm_compute; reflexivity)) as (_ & H & _).
  unfold quality_toggles in H.
  apply Forall_cons_1 in H. destruct H as [_ H].
  apply Forall_cons_1 in H. destruct H as [(H1 & _ & H3) _].
  rewrite H3, H1. vm_compute. reflexivity.
Defined.

(** ** Repeated updates *)

Lemma ProcessUISlider_frame p q id F S :
  same_frame p q -> ProcessUISlider q id F S = ProcessUISlider p id F S.
Proof.
  intros H. unfold ProcessUISlider.
  destruct (same_frame_ranges _ _ H) as [-> ->].
  rewrite (same_frame_userControlId _ _ H), (same_frame_float_val _ _ H). reflexivity.
Qed.


(** Once the high-quality block has run, its gate is closed. *)
Lemma high_quality_gate_closes s :
  let s' := high_quality_settings s in
  negb (CVarAllowHighQuality (Console (snd s')) =? 0)%Z
  && differ bHighQualityModeIsSetup bHighQualityModeDesired s'
  && (flag (fst s') bPausedInternally || negb (flag (fst s') bAutoPause)) = false.
Proof.
  cbv zeta. destruct (high_quality_settings_spec s) as (_ & B2 & B3 & B4). cbv zeta in *.
  destruct (negb (CVarAllowHighQuality (Console (snd s)) =? 0)%Z
            && differ bHighQualityModeIsSetup bHighQualityModeDesired s
            && (flag (fst s) bPausedInternally || negb (flag (fst s) bAutoPause))) eqn:G.
  - assert (E : differ bHighQualityModeIsSetup bHighQualityModeDesired
                  (high_quality_settings s) = false).
    { apply differ_false. rewrite (B3 eq_refl), B2 by discriminate. reflexivity. }
    rewrite E, andb_false_r. reflexivity.
  - rewrite (B4 eq_refl). exact G.
Qed.

Lemma DoCustomUIControls_later PP PP' (b : bool) s s' :
  same_frame (fst (if b then rebuild_controls PP s else s)) (fst s') ->
  fst (DoCustomUIControls PP' false s') = fst (DoCustomUIControls PP b s).
Proof.
  intros H. rewrite !DoCustomUIControls_settings. cbv zeta iota.
  rewrite !(ProcessUISlider_frame _ _ _ _ _ H), (same_frame_original _ _ H). reflexivity.
Qed.

Ltac not_a_toggle :=
  unfold quality_toggles; repeat apply Forall_cons; try apply Forall_nil; discriminate.

Lemma Configure_outside_capture PP s :
  flag (fst s) bAnselCaptureActive = false ->
  ConfigureRenderingSettingsForPhotography PP s =
  (PP, high_quality_settings
         (antialiasing_settings
            (sg_quality_settings (skylight_settings (lumen_settings (lod_settings s)))))).
Proof.
  intros H. rewrite Configure_state. cbv zeta.
  destruct (quality_blocks_spec s) as (_ & _ & A3 & _). cbv zeta in *.
  forget (antialiasing_settings
            (sg_quality_settings (skylight_settings (lumen_settings (lod_settings s))))) s5.
  destruct (high_quality_settings_spec s5) as (_ & B2 & _). cbv zeta in *.
  rewrite B2, A3, H by (discriminate || not_a_toggle). reflexivity.
Qed.

(** An update during a session, outside a capture, leaves the session
    settled. *)
Lemma update_settles PP s :
  flag (fst s) bAnselSessionActive = true ->
  flag (fst s) bAnselCaptureActive = false ->
  let b := flag (fst s) bUIControlsNeedRebuild in
  let r := UpdatePostProcessing PP s in
  settled (snd r) /\
  fst r = fst (DoCustomUIControls PP b s) /\
  same_frame (fst (if b then rebuild_controls PP s else s)) (fst (snd r)).
Proof.
  intros Hact Hcap. cbv zeta. rewrite (UpdatePostProcessing_active PP s Hact).
  destruct (DoCustomUIControls_provider PP _ s eq_refl) as (D1 & D2 & D3 & _).
  cbv zeta in *.
  assert (D0 : same_frame (fst (if flag (fst s) bUIControlsNeedRebuild
                                then rebuild_controls PP s else s))
                          (fst (snd (DoCustomUIControls PP
                                       (flag (fst s) bUIControlsNeedRebuild) s)))).
  { rewrite DoCustomUIControls_state. cbv zeta. cbn [fst].
    apply (proj1 (process_toggles _)). }
  forget (fst (if flag (fst s) bUIControlsNeedRebuild then rebuild_controls PP s else s)) p0.
  forget (DoCustomUIControls PP (flag (fst s) bUIControlsNeedRebuild) s) d.
  rewrite Configure_outside_capture by (rewrite D3 by (discriminate || not_a_toggle); exact Hcap).
  cbn [fst snd].
  destruct (quality_blocks_spec (snd d)) as (A1 & A2 & A3 & _). cbv zeta in *.
  forget (antialiasing_settings
            (sg_quality_settings
               (skylight_settings (lumen_settings (lod_settings (snd d)))))) s5.
  pose proof (high_quality_gate_closes s5) as G.
  destruct (high_quality_settings_spec s5) as (B1 & B2 & _). cbv zeta in *.
  forget (high_quality_settings s5) s6.
  split; [| split; [reflexivity |]].
  - unfold settled. split; [| split; [| split; [| split]]].
    + rewrite B2, A3, D3 by (discriminate || not_a_toggle). exact Hact.
    + rewrite B2, A3, D3 by (discriminate || not_a_toggle). exact Hcap.
    + rewrite B2, A3 by (discriminate || not_a_toggle). exact D2.
    + rewrite (same_frame_bool_val _ _ B1), (same_frame_bool_val _ _ A1).
      unfold quality_toggles in *.
      repeat (apply Forall_cons_1 in D1; destruct D1 as [[? ?] D1]).
      repeat (apply Forall_cons_1 in A2; destruct A2 as [? A2]).
      repeat apply Forall_cons; try apply Forall_nil;
        (split; [rewrite B2, A3 by (discriminate || not_a_toggle); assumption |]);
        rewrite B2 by discriminate; congruence.
    + exact G.
  - eapply same_frame_trans; [exact D0 |]. eapply same_frame_trans; [exact A1 | exact B1].
Qed.

(** An update of a settled session changes no flag and nothing in the
    engine. *)
Lemma update_settled PP s :
  settled s ->
  let r := UpdatePostProcessing PP s in
  fst r = fst (DoCustomUIControls PP false s) /\
  snd (snd r) = snd s /\
  (forall g, flag (fst (snd r)) g = flag (fst s) g) /\
  same_frame (fst s) (fst (snd r)) /\
  InitialCVarMap (fst (snd r)) = InitialCVarMap (fst s).
Proof.
  intros (Hact & Hcap & Hreb & Hsync & Hgate). cbv zeta.
  rewrite (UpdatePostProcessing_active PP s Hact), Hreb.
  rewrite DoCustomUIControls_state. cbv zeta iota.
  destruct (process_toggles (fst s)) as (T1 & T2 & T3 & T4). cbv zeta in *.
  match goal with |- context [ProcessUIBool control_sgQuality ?m ?p] =>
    forget (ProcessUIBool control_sgQuality m p) p' end.
  forget (fst (DoCustomUIControls PP false s)) PP1.
  assert (Hfl : forall g, flag p' g = flag (fst s) g).
  { unfold quality_toggles in *.
    repeat (apply Forall_cons_1 in T3; destruct T3 as [? T3]).
    repeat (apply Forall_cons_1 in Hsync; destruct Hsync as [[? ?] Hsync]).
    intros g. destruct g; try (apply T4; not_a_toggle); congruence. }
  rewrite Configure_outside_capture by (cbn [fst]; rewrite Hfl; exact Hcap).
  destruct (quality_blocks_spec (p', snd s)) as (_ & _ & _ & A4). cbv zeta in *.
  rewrite A4.
  - destruct (high_quality_settings_spec (p', snd s)) as (_ & _ & _ & B4). cbv zeta in *.
    rewrite B4.
    + cbn [fst snd]. repeat split; auto.
    + revert Hgate. unfold high_quality_gate, differ. cbn [fst snd]. rewrite !Hfl. auto.
  - cbn [fst]. unfold quality_toggles in *.
    repeat (apply Forall_cons_1 in Hsync; destruct Hsync as [[? ?] Hsync]).
    repeat apply Forall_cons; try apply Forall_nil; rewrite !Hfl; congruence.
Qed.

(** X14. During a session and outside a capture, a second update of the
    post-processing repeats the first: it returns the same settings whatever
    settings it is given, sets no console variable and makes no call, and
    leaves every flag and every other member of the provider as it was. *)
Theorem repeated_update_is_idle PP0 PP s :
  flag (fst s) bAnselSessionActive = true ->
  flag (fst s) bAnselCaptureActive = false ->
  let r1 := UpdatePostProcessing PP0 s in
  let r2 := UpdatePostProcessing PP (snd r1) in
  fst r2 = fst r1 /\
  snd (snd r2) = snd (snd r1) /\
  (forall g, flag (fst (snd r2)) g = flag (fst (snd r1)) g) /\
  same_frame (fst (snd r1)) (fst (snd r2)) /\
  InitialCVarMap (fst (snd r2)) = InitialCVarMap (fst (snd r1)).
Proof.
  intros Hact Hcap. cbv zeta.
  destruct (update_settles PP0 s Hact Hcap) as (S1 & S2 & S3). cbv zeta in *.
  rewrite S2.
  forget (UpdatePostProcessing PP0 s) r1.
  destruct (update_settled PP (snd r1) S1) as (U1 & U2 & U3 & U4 & U5). cbv zeta in *.
  split; [| auto].
  rewrite U1. apply DoCustomUIControls_later. exact S3.
Qed.

Lemma repeated_update_is_idle_witness :
  snd (snd (UpdatePostProcessing zero_settings
              (snd (UpdatePostProcessing zero_settings
                      (step (EvUpdateCamera sample_frame) sample_started))))) =
  snd (snd (UpdatePostProcessing zero_settings
              (step (EvUpdateCamera sample_frame) sample_started))).
Proof.
  destruct (repeated_update_is_idle zero_settings zero_settings
              (step (EvUpdateCamera sample_frame) sample_started)
              ltac:(vm_compute; reflexivity) ltac:(vm_compute; reflexivity))
    as (_ & H & _).
  exact H.
Defined.

(** ** Switching a quality group on and off *)

Lemma SetCapturedCVar_key NAME v (w : bool) s :
  filed (InitialCVarMap (fst s)) ->
  let s' := SetCapturedCVar NAME v w true s in
  filed (InitialCVarMap (fst s')) /\
  flag (fst s') = flag (fst s) /\
  (forall k, k <> lower NAME ->
             Console (snd s') !! k = Console (snd s) !! k /\
             InitialCVarMap (fst s') !! k = InitialCVarMap (fst s) !! k) /\
  (forall con0, tracks con0 (lower NAME) s ->
                tracks con0 (lower NAME) s' /\
                (w = true -> Console (snd s') !! lower NAME = con0 !! lower NAME)).
Proof.
  destruct s as [p e]. intros Hf. cbv zeta.
  unfold SetCapturedCVar, SetCapturedCVarPredicated, Contains, CaptureCVar,
    FindConsoleVariable, tracks.
  simpl.
  destruct (InitialCVarMap p !! lower NAME) as [i|] eqn:HM; simpl.
  - rewrite HM. pose proof (Hf _ _ HM) as Hi. destruct i as [[k'|] v0]; simpl in *;
      [| discriminate]. injection Hi as ->.
    split; [exact Hf |]. split; [reflexivity |]. split.
    + intros k Hk. unfold store_cvar. rewrite lookup_alter_ne by congruence. split; reflexivity.
    + intros con0 Ht. rewrite HM.
      destruct Ht as (c & c0 & Hc & H0 & Hsb & Hv). simpl in *. unfold store_cvar.
      rewrite lookup_alter_eq, Hc. simpl. split.
      * exists (cvSetWithCurrentPriority (if w then v0 else v) c), c0. auto.
      * intros ->. rewrite H0. destruct c0 as [x y]. simpl in *. subst. reflexivity.
  - destruct (Console e !! lower NAME) as [c|] eqn:Hc; simpl.
    + rewrite lookup_insert_eq. simpl. split; [| split; [reflexivity | split]].
      * intros k i. destruct (decide (k = lower NAME)) as [-> | Hk].
        -- rewrite lookup_insert_eq. intros [= <-]. reflexivity.
        -- rewrite lookup_insert_ne by congruence. apply Hf.
      * intros k Hk. unfold store_cvar.
        rewrite lookup_alter_ne, lookup_insert_ne by congruence. split; reflexivity.
      * intros con0 H0. rewrite ?lookup_insert_eq. unfold store_cvar.
        rewrite lookup_alter_eq, Hc. simpl.
        unfold GetFloat_at, deref. rewrite Hc. simpl. split.
        -- exists (cvSetWithCurrentPriority (if w then GetFloat c else v) c), c. auto.
        -- intros ->. rewrite <- H0. destruct c. reflexivity.
    + split; [exact Hf |]. split; [reflexivity |]. split; [split; reflexivity |].
      intros con0 H0. rewrite ?HM, ?Hc. split; [exact H0 |]. intros _. exact H0.
Qed.

Lemma tracks_other con0 k s s' :
  Console (snd s') !! k = Console (snd s) !! k ->
  InitialCVarMap (fst s') !! k = InitialCVarMap (fst s) !! k ->
  tracks con0 k s -> tracks con0 k s'.
Proof. unfold tracks. intros -> ->. auto. Qed.

(** What a statement of a quality group does to the variable under [k]. *)
Lemma group_stmt_spec Desired f k :
  group_stmt Desired f ->
  (forall s, filed (InitialCVarMap (fst s)) ->
             filed (InitialCVarMap (fst (f s))) /\ flag (fst (f s)) = flag (fst s)) /\
  (forall con0 s, filed (InitialCVarMap (fst s)) -> tracks con0 k s -> tracks con0 k (f s)) /\
  ((forall s, filed (InitialCVarMap (fst s)) ->
              Console (snd (f s)) !! k = Console (snd s) !! k) \/
   (forall con0 s, filed (InitialCVarMap (fst s)) -> flag (fst s) Desired = false ->
                   tracks con0 k s -> Console (snd (f s)) !! k = con0 !! k)).
Proof.
  intros [NAME v | x].
  - split; [| split].
    + intros s Hf. destruct (SetCapturedCVar_key NAME v (negb (flag (fst s) Desired)) s Hf)
        as (A1 & A2 & _). auto.
    + intros con0 s Hf Ht.
      destruct (SetCapturedCVar_key NAME v (negb (flag (fst s) Desired)) s Hf)
        as (_ & _ & A3 & A4). cbv zeta in *.
      destruct (decide (k = lower NAME)) as [-> | Hk]; [by apply A4 |].
      destruct (A3 k Hk) as [B1 B2]. by apply (tracks_other con0 k s).
    + destruct (decide (k = lower NAME)) as [-> | Hk].
      * right. intros con0 s Hf Hd Ht.
        destruct (SetCapturedCVar_key NAME v (negb (flag (fst s) Desired)) s Hf)
          as (_ & _ & _ & A4). cbv zeta in *.
        apply A4; [exact Ht |]. rewrite Hd. reflexivity.
      * left. intros s Hf.
        destruct (SetCapturedCVar_key NAME v (negb (flag (fst s) Desired)) s Hf)
          as (_ & _ & A3 & _). cbv zeta in *. by apply A3.
  - split; [| split].
    + intros s Hf. split; [exact Hf | reflexivity].
    + intros con0 s _ Ht. exact Ht.
    + left. intros s _. reflexivity.
Qed.

Lemma group_body_on Desired body con0 k s :
  Forall (group_stmt Desired) body ->
  filed (InitialCVarMap (fst s)) -> tracks con0 k s ->
  filed (InitialCVarMap (fst (sequence body s))) /\
  tracks con0 k (sequence body s) /\
  flag (fst (sequence body s)) = flag (fst s).
Proof.
  intros Hb. revert s. induction Hb as [| f fs Hf _ IH]; intros s Hfl Ht.
  - rewrite sequence_nil. auto.
  - rewrite sequence_cons. destruct (group_stmt_spec Desired f k Hf) as (G1 & G2 & _).
    destruct (G1 s Hfl) as [F1 F2]. destruct (IH (f s) F1 (G2 con0 s Hfl Ht)) as (I1 & I2 & I3).
    split; [exact I1 |]. split; [exact I2 |]. congruence.
Qed.

Lemma group_body_cases Desired body k :
  Forall (group_stmt Desired) body ->
  (forall s, filed (InitialCVarMap (fst s)) ->
             Console (snd (sequence body s)) !! k = Console (snd s) !! k) \/
  (forall con0 s, filed (InitialCVarMap (fst s)) -> flag (fst s) Desired = false ->
                  tracks con0 k s -> Console (snd (sequence body s)) !! k = con0 !! k).
Proof.
  induction 1 as [| f fs Hf Hfs IH].
  - left. intros s _. reflexivity.
  - destruct (group_stmt_spec Desired f k Hf) as (G1 & G2 & G3).
    destruct IH as [IH | IH].
    + destruct G3 as [G3 | G3].
      * left. intros s Hfl. rewrite sequence_cons, IH by apply G1, Hfl. by apply G3.
      * right. intros con0 s Hfl Hd Ht. rewrite sequence_cons, IH by apply G1, Hfl.
        by apply G3.
    + right. intros con0 s Hfl Hd Ht. rewrite sequence_cons.
      destruct (G1 s Hfl) as [F1 F2]. apply IH; [exact F1 | by rewrite F2 | by apply G2].
Qed.

(** A group switched on from [s1] and off again from [s2], between which the
    console and the captured variables were not touched. *)
Lemma group_round_trip Desired IsSetup body k s1 s2 :
  Forall (group_stmt Desired) body ->
  let block := when (differ IsSetup Desired) (body ++ [copy_flag IsSetup Desired]) in
  filed (InitialCVarMap (fst s1)) ->
  tracks (Console (snd s1)) k s1 ->
  flag (fst s1) IsSetup = false -> flag (fst s1) Desired = true ->
  Console (snd s2) = Console (snd (block s1)) ->
  InitialCVarMap (fst s2) = InitialCVarMap (fst (block s1)) ->
  flag (fst s2) IsSetup = true -> flag (fst s2) Desired = false ->
  Console (snd (block s2)) !! k = Console (snd s1) !! k.
Proof.
  intros Hb block Hfl Ht HI1 HD1 Hcon HM HI2 HD2. subst block. revert Hcon HM.
  unfold when, differ. rewrite HI1, HD1, HI2, HD2. cbn [xorb].
  rewrite !sequence_snoc. unfold copy_flag, stmt_p. cbn [fst snd]. intros Hcon HM.
  destruct (group_body_on Desired body (Console (snd s1)) k s1 Hb Hfl Ht) as (O1 & O2 & _).
  assert (Hfl2 : filed (InitialCVarMap (fst s2))) by (rewrite HM; exact O1).
  assert (Ht2 : tracks (Console (snd s1)) k s2).
  { revert O2. unfold tracks. rewrite HM, Hcon. auto. }
  destruct (group_body_cases Desired body k Hb) as [U | R].
  - rewrite (U s2 Hfl2), Hcon. apply U. exact Hfl.
  - apply R; assumption.
Qed.

Ltac toggle_cases H :=
  unfold quality_toggles in H; cbn [In] in H;
  repeat (destruct H as [H | H]; [injection H as <- <- <- |]); [.. | destruct H].

Lemma group_block_applies c Desired IsSetup :
  In (c, Desired, IsSetup) quality_toggles ->
  applies_toggle IsSetup Desired (group_block c).
Proof.
  intros H. toggle_cases H; cbn [group_block].
  - apply lod_settings_applies.
  - apply lumen_settings_applies.
  - apply skylight_settings_applies.
  - apply antialiasing_settings_applies.
  - apply sg_quality_settings_applies.
Qed.

Ltac group_body :=
  lazymatch goal with
  | |- exists body, _ /\ ?f = _ =>
      let b := eval cbv [group_block lod_settings lumen_settings skylight_settings
                         antialiasing_settings sg_quality_settings] in f in
      lazymatch b with
      | when _ ?l => let body := eval cbv [removelast] in (removelast l) in exists body
      end
  end.

Lemma group_block_shape c Desired IsSetup :
  In (c, Desired, IsSetup) quality_toggles ->
  exists body,
    Forall (group_stmt Desired) body /\
    group_block c = when (differ IsSetup Desired) (body ++ [copy_flag IsSetup Desired]).
Proof.
  intros H. toggle_cases H; group_body; (split; [| reflexivity]);
    repeat first [ apply Forall_nil | apply Forall_cons
                 | exact (group_cvar _ _ _) | exact (group_log _ _) ].
Qed.

Lemma applies_toggle_idle a b f s :
  applies_toggle a b f -> flag (fst s) a = flag (fst s) b -> f s = s.
Proof. intros H. apply (H s). Qed.

Lemma applies_toggle_flag a b f s g :
  applies_toggle a b f -> g <> a -> flag (fst (f s)) g = flag (fst s) g.
Proof. intros H. apply (H s). Qed.

Ltac through_blocks :=
  rewrite ?(applies_toggle_flag _ _ lod_settings _ _ lod_settings_applies),
          ?(applies_toggle_flag _ _ lumen_settings _ _ lumen_settings_applies),
          ?(applies_toggle_flag _ _ skylight_settings _ _ skylight_settings_applies),
          ?(applies_toggle_flag _ _ sg_quality_settings _ _ sg_quality_settings_applies),
          ?(applies_toggle_flag _ _ antialiasing_settings _ _ antialiasing_settings_applies)
    by discriminate.

Ltac other_group :=
  through_blocks;
  match goal with H : _ <> _ -> _ |- _ => apply H; discriminate end.

(** When every other group is set up as desired, the five blocks reduce to
    the block of the one group. *)
Lemma blocks_one c Desired IsSetup s :
  In (c, Desired, IsSetup) quality_toggles ->
  Forall (fun '(c', Desired', IsSetup') =>
            c' <> c -> flag (fst s) IsSetup' = flag (fst s) Desired') quality_toggles ->
  antialiasing_settings
    (sg_quality_settings (skylight_settings (lumen_settings (lod_settings s)))) =
  group_block c s.
Proof.
  intros Hin Hall. unfold quality_toggles in Hall.
  repeat (apply Forall_cons_1 in Hall; destruct Hall as [? Hall]).
  toggle_cases Hin; cbn [group_block];
    rewrite ?(applies_toggle_idle _ _ lod_settings _ lod_settings_applies)
      by other_group;
    rewrite ?(applies_toggle_idle _ _ lumen_settings _ lumen_settings_applies)
      by other_group;
    rewrite ?(applies_toggle_idle _ _ skylight_settings _ skylight_settings_applies)
      by other_group;
    rewrite ?(applies_toggle_idle _ _ sg_quality_settings _ sg_quality_settings_applies)
      by other_group;
    rewrite ?(applies_toggle_idle _ _ antialiasing_settings _ antialiasing_settings_applies)
      by other_group;
    reflexivity.
Qed.

Lemma high_quality_idle s :
  flag (fst s) bHighQualityModeIsSetup = flag (fst s) bHighQualityModeDesired ->
  high_quality_settings s = s.
Proof.
  intros H. destruct (high_quality_settings_spec s) as (_ & _ & _ & B4). cbv zeta in *.
  apply B4. apply differ_false in H. rewrite H, andb_false_r. reflexivity.
Qed.

(** An update from a state in which at most the group of [c] differs from
    its toggle runs the block of that group and nothing else. *)
Lemma update_runs_group c Desired IsSetup PP s :
  In (c, Desired, IsSetup) quality_toggles ->
  flag (fst s) bAnselSessionActive = true ->
  flag (fst s) bAnselCaptureActive = false ->
  flag (fst s) bUIControlsNeedRebuild = false ->
  flag (fst s) bHighQualityModeIsSetup = flag (fst s) bHighQualityModeDesired ->
  Forall (fun '(c', _, IsSetup') => c' <> c -> flag (fst s) IsSetup' = bool_val (fst s) c')
         quality_toggles ->
  exists t,
    snd (UpdatePostProcessing PP s) = group_block c t /\
    snd t = snd s /\
    same_frame (fst s) (fst t) /\
    InitialCVarMap (fst t) = InitialCVarMap (fst s) /\
    Forall (fun '(c', Desired', _) => flag (fst t) Desired' = bool_val (fst s) c')
           quality_toggles /\
    (forall g, Forall (fun '(_, Desired', _) => g <> Desired') quality_toggles ->
               flag (fst t) g = flag (fst s) g).
Proof.
  intros Hin Hact Hcap Hreb Hhq Hall.
  rewrite (UpdatePostProcessing_active PP s Hact), Hreb, DoCustomUIControls_state.
  cbv zeta iota.
  destruct (process_toggles (fst s)) as (T1 & T2 & T3 & T4). cbv zeta in *.
  match goal with |- context [ProcessUIBool control_sgQuality ?m ?p] =>
    forget (ProcessUIBool control_sgQuality m p) p' end.
  forget (fst (DoCustomUIControls PP false s)) PP1.
  exists (p', snd s). cbn [fst snd].
  split; [| split; [reflexivity | split; [exact T1 | split; [exact T2 | split; assumption]]]].
  rewrite Configure_outside_capture by (cbn [fst]; rewrite T4 by not_a_toggle; exact Hcap).
  cbn [snd].
  rewrite (blocks_one c Desired IsSetup (p', snd s) Hin).
  - apply high_quality_idle.
    rewrite !(applies_toggle_flag _ _ _ _ _ (group_block_applies _ _ _ Hin)).
    + cbn [fst]. rewrite !T4 by not_a_toggle. exact Hhq.
    + clear -Hin. toggle_cases Hin; discriminate.
    + clear -Hin. toggle_cases Hin; discriminate.
  - cbn [fst]. unfold quality_toggles in *.
    repeat (apply Forall_cons_1 in T3; destruct T3 as [? T3]).
    repeat (apply Forall_cons_1 in Hall; destruct Hall as [? Hall]).
    repeat apply Forall_cons; try apply Forall_nil;
      intros Hne; rewrite T4 by not_a_toggle;
      match goal with H : _ <> _ -> _ |- _ => rewrite (H Hne) end; congruence.
Qed.

(** X15. Switching a quality toggle of the Ansel UI on and, an update later,
    off again puts every console variable back: a variable that was not held
    changed by another group or mode when the toggle was switched on reads,
    after the second update, exactly what it read before the first, value and
    priority.  In between the group is set up, afterwards it is not. *)
Theorem quality_toggle_round_trip c Desired IsSetup PP1 PP2 k s :
  In (c, Desired, IsSetup) quality_toggles ->
  settled s ->
  flag (fst s) bHighQualityModeIsSetup = flag (fst s) bHighQualityModeDesired ->
  bool_val (fst s) c = false ->
  filed (InitialCVarMap (fst s)) ->
  tracks (Console (snd s)) k s ->
  let s1 := snd (UpdatePostProcessing PP1 (bool_callback c true s)) in
  let s2 := snd (UpdatePostProcessing PP2 (bool_callback c false s1)) in
  flag (fst s1) IsSetup = true /\
  flag (fst s2) IsSetup = false /\
  Console (snd s2) !! k = Console (snd s) !! k.
Proof.
  intros Hin (Hact & Hcap & Hreb & Hsync & _) Hhq Hbv Hfl Ht. cbv zeta.
  pose proof (group_block_applies c Desired IsSetup Hin) as Happ.
  destruct (group_block_shape c Desired IsSetup Hin) as (body & Hbody & Eblk).
  assert (Hne : forall c' D' I', In (c', D', I') quality_toggles -> c' <> c ->
                  I' <> IsSetup /\ D' <> IsSetup).
  { clear -Hin. intros c' D' I' H Hc. toggle_cases Hin; toggle_cases H;
      try (split; discriminate); contradiction. }
  assert (HD : Desired <> IsSetup) by (clear -Hin; toggle_cases Hin; discriminate).
  assert (Hsys : forall g, In g [bAnselSessionActive; bAnselCaptureActive;
                                  bUIControlsNeedRebuild; bHighQualityModeIsSetup;
                                  bHighQualityModeDesired] ->
                 g <> IsSetup /\
                 Forall (fun '(_, D', _) => g <> D') quality_toggles).
  { clear -Hin. intros g Hg. split; [toggle_cases Hin |];
      cbn in Hg; try not_a_toggle; intuition (subst; try discriminate; not_a_toggle). }
  (* the first update *)
  destruct (update_runs_group c Desired IsSetup PP1 (bool_callback c true s) Hin
              Hact Hcap Hreb Hhq) as (t1 & E1 & U1 & V1 & M1 & W1 & X1).
  { clear -Hsync. unfold quality_toggles in *. cbn [bool_callback fst bool_val set_bool_val].
    repeat (apply Forall_cons_1 in Hsync; destruct Hsync as [[? ?] Hsync]).
    repeat apply Forall_cons; try apply Forall_nil;
      intros Hc; rewrite fn_lookup_insert_ne by congruence; assumption. }
  rewrite E1. clear E1.
  cbn [bool_callback fst snd flag bool_val InitialCVarMap set_bool_val] in U1, M1, W1, X1.
  assert (V1' : bool_val (fst t1) = <[c := true]> (bool_val (fst s))).
  { exact (same_frame_bool_val _ _ V1). }
  clear V1.
  destruct (Happ t1) as (A1 & A2 & A3 & _).
  assert (On : flag (fst t1) Desired = true).
  { clear -Hin W1. unfold quality_toggles in *.
    repeat (apply Forall_cons_1 in W1; destruct W1 as [? W1]).
    toggle_cases Hin; rewrite fn_lookup_insert in *; assumption. }
  assert (Off : flag (fst t1) IsSetup = false).
  { rewrite X1; [| clear -Hin; toggle_cases Hin; not_a_toggle].
    clear -Hin Hsync Hbv. unfold quality_toggles in *.
    repeat (apply Forall_cons_1 in Hsync; destruct Hsync as [[? ?] Hsync]).
    toggle_cases Hin; congruence. }
  (* the second update *)
  destruct (update_runs_group c Desired IsSetup PP2
              (bool_callback c false (group_block c t1)) Hin)
    as (t2 & E2 & U2 & V2 & M2 & W2 & X2).
  { cbn [bool_callback fst flag set_bool_val].
    rewrite A2, X1 by (apply Hsys; cbn; tauto). exact Hact. }
  { cbn [bool_callback fst flag set_bool_val].
    rewrite A2, X1 by (apply Hsys; cbn; tauto). exact Hcap. }
  { cbn [bool_callback fst flag set_bool_val].
    rewrite A2, X1 by (apply Hsys; cbn; tauto). exact Hreb. }
  { cbn [bool_callback fst flag set_bool_val].
    rewrite !A2, !X1 by (apply Hsys; cbn; tauto). exact Hhq. }
  { cbn [bool_callback fst flag bool_val set_bool_val].
    rewrite (same_frame_bool_val _ _ A1), V1'.
    apply Forall_forall. intros [[c' D'] I'] Hin' Hc.
    destruct (Hne c' D' I' Hin' Hc) as [HI' _].
    rewrite !fn_lookup_insert_ne by congruence. rewrite A2 by exact HI'.
    rewrite X1.
    - apply (proj1 (Forall_forall _ _) Hsync _ Hin').
    - clear -Hin'. toggle_cases Hin'; not_a_toggle. }
  rewrite E2. clear E2.
  cbn [bool_callback fst snd flag bool_val InitialCVarMap set_bool_val] in U2, M2, W2, X2.
  destruct (Happ t2) as (_ & _ & B3 & _).
  assert (Off2 : flag (fst t2) Desired = false).
  { clear -Hin W2. unfold quality_toggles in *.
    repeat (apply Forall_cons_1 in W2; destruct W2 as [? W2]).
    toggle_cases Hin; rewrite fn_lookup_insert in *; assumption. }
  assert (On2 : flag (fst t2) IsSetup = true).
  { rewrite X2; [| clear -Hin; toggle_cases Hin; not_a_toggle]. rewrite A3. exact On. }
  split; [rewrite A3; exact On |]. split; [rewrite B3; exact Off2 |].
  revert U2 M2. rewrite Eblk. intros U2 M2.
  rewrite (group_round_trip Desired IsSetup body k t1 t2 Hbody).
  - rewrite U1. reflexivity.
  - rewrite M1. exact Hfl.
  - apply (tracks_other _ k s); [by rewrite U1 | by rewrite M1 |]. rewrite U1. exact Ht.
  - exact Off.
  - exact On.
  - rewrite U2. reflexivity.
  - exact M2.
  - exact On2.
  - exact Off2.
Qed.

Lemma filed_checked M :
  bool_decide (map_Forall (fun k i => cvar i = Some k) M) = true -> filed M.
Proof. intros H k i Hk. apply bool_decide_eq_true_1 in H. exact (H k i Hk). Qed.

Lemma quality_toggle_round_trip_witness :
  Console
    (snd (snd (UpdatePostProcessing zero_settings
                 (bool_callback control_OLDSettings false
                    (snd (UpdatePostProcessing zero_settings
                            (bool_callback control_OLDSettings true sample_settled)))))))
    !! "r.forcelod" =
  Console (snd sample_settled) !! "r.forcelod".
Proof.
  destruct (quality_toggle_round_trip control_OLDSettings bHighLodDesired bHighLodIsSetup
              zero_settings zero_settings "r.forcelod" sample_settled
              ltac:(left; reflexivity)
              ltac:(unfold settled, quality_toggles;
                    split; [vm_compute; reflexivity |];
                    split; [vm_compute; reflexivity |];
                    split; [vm_compute; reflexivity |];
                    split; [| vm_compute; reflexivity];
                    repeat apply Forall_cons; try apply Forall_nil;
                    split; vm_compute; reflexivity)
              ltac:(vm_compute; reflexivity)
              ltac:(vm_compute; reflexivity)
              ltac:(apply filed_checked; vm_compute; reflexivity)
              ltac:(unfold tracks; vm_compute; reflexivity))
    as (_ & _ & H).
  exact H.
Defined.

(** ** Moving a slider *)

Ltac slider_moved A3 :=
  first [ intros ? ?; cbn [set_float_val];
          first [ apply ProcessUISlider_unused; cbn [userControlId]; lookup_insert; apply A3
                | rewrite ProcessUISlider_used
                    by (cbn [userControlId]; lookup_insert; apply control_index_used);
                  cbn [UIControlRangeLower UIControlRangeUpper float_val]; lookup_insert;
                  reflexivity ]
        | intros _; cbn [float_val]; lookup_insert; reflexivity
        | discriminate ].

(** The sliders after the rebuild of the controls, whatever position the SDK
    then reports for them. *)
Lemma rebuild_controls_sliders PP s :
  let p := fst (rebuild_controls PP s) in
  let shown := slider_shown (bEffectUIAllowed (fst s)) PP in
  (forall fv S, ProcessUISlider (set_float_val fv p) control_dofscale DepthOfFieldScale S = S) /\
  (forall fv S,
     ProcessUISlider (set_float_val fv p) control_doffocalregion DepthOfFieldFocalRegion S
     = S) /\
  Forall (fun '(id, F, LowerBound, UpperBound) =>
            (forall fv S,
               ProcessUISlider (set_float_val fv p) id F S =
               if shown F
               then set_bOverride F true
                      (set_Value F (Lerp LowerBound UpperBound (fv id)) S)
               else S) /\
            (shown F = true ->
             float_val p id = GetRangePct LowerBound UpperBound (Value PP F))) sliders.
Proof.
  cbv zeta. remember (rebuild_controls PP s) as s' eqn:E.
  unfold rebuild_controls in E. rewrite sequence_cons in E.
  destruct (clear_all_controls s) as (A1 & A2 & A3). cbv zeta in *.
  set (s0 := sequence (map clear_control all_controls) s) in *. clearbody s0.
  destruct s0 as [p0 e0]. destruct s as [p e]. cbn [fst snd] in *.
  destruct p0 as [fl ci td rf cf rw cw nf al uc fv bv lo up orig M].
  destruct p as [fl' ci' td' rf' cf' rw' cw' nf' al' uc' fv' bv' lo' up' orig' M'].
  injection A1 as -> -> -> -> -> -> -> -> -> -> -> -> -> -> ->.
  cbn [userControlId] in A3.
  rewrite !sequence_cons, sequence_nil in E.
  rewrite !DeclareBool_fields, set_original_fields in E.
  advance_when E; advance_when E; advance_when E;
    rewrite set_flag_fields in E; subst s';
    unfold sliders; cbn [fst snd];
    (split; [slider_moved A3 |]); (split; [slider_moved A3 |]);
    repeat apply Forall_cons; try apply Forall_nil; split;
    cbn [bEffectUIAllowed slider_shown];
    repeat match goal with H : _ = _ :> bool |- _ => rewrite H; clear H end;
    cbv iota; slider_moved A3.
Qed.

Lemma same_frame_set_float_val fv p q :
  same_frame p q -> same_frame (set_float_val fv p) (set_float_val fv q).
Proof.
  unfold same_frame. intros H.
  change (set_float_val fv (set_InitialCVarMap ∅ (set_flag (fun _ => false) q)) =
          set_float_val fv (set_InitialCVarMap ∅ (set_flag (fun _ => false) p))).
  rewrite H. reflexivity.
Qed.

Lemma set_float_val_same (s : St) : (set_float_val (float_val (fst s)) (fst s), snd s) = s.
Proof. destruct s as [[] ?]. reflexivity. Qed.

(** The settings an update hands back after the rebuild, for any positions
    of the sliders. *)
Lemma settings_after_rebuild PP PP' s fv :
  let s1 := snd (DoCustomUIControls PP true s) in
  fst (DoCustomUIControls PP' false (set_float_val fv (fst s1), snd s1)) =
  apply_sliders (slider_shown (bEffectUIAllowed (fst s)) PP) fv PP.
Proof.
  cbv zeta. rewrite DoCustomUIControls_settings, DoCustomUIControls_state. cbv zeta iota.
  destruct (rebuild_controls_sliders PP s) as (S1 & S2 & S3).
  destruct (rebuild_controls_spec PP s) as (_ & _ & Horig & _). cbv zeta in *.
  forget (rebuild_controls PP s) s0.
  destruct (process_toggles (fst s0)) as (T1 & _). cbv zeta in *.
  match goal with |- context [ProcessUIBool control_sgQuality ?m ?p] =>
    forget (ProcessUIBool control_sgQuality m p) p' end.
  cbn [fst snd].
  pose proof (same_frame_set_float_val fv _ _ T1) as T2.
  rewrite !(ProcessUISlider_frame _ _ _ _ _ T2), (same_frame_original _ _ T2).
  change (UEPostProcessingOriginal (set_float_val fv (fst s0)))
    with (UEPostProcessingOriginal (fst s0)).
  rewrite Horig, S1, S2. unfold sliders in S3.
  repeat (apply Forall_cons_1 in S3; destruct S3 as [[? _] S3]).
  repeat match goal with H : forall fv S, ProcessUISlider _ _ _ _ = _ |- _ =>
           rewrite H; clear H end.
  reflexivity.
Qed.

Lemma step_Value_other shown fv S id G LowerBound UpperBound F :
  F <> G -> Value (slider_step shown fv S (id, G, LowerBound, UpperBound)) F = Value S F.
Proof.
  intros H. unfold slider_step. destruct (shown G); [| reflexivity].
  cbn. apply fn_lookup_insert_ne. congruence.
Qed.

Lemma step_Value_same shown fv S id F LowerBound UpperBound :
  Value (slider_step shown fv S (id, F, LowerBound, UpperBound)) F
  = if shown F then Lerp LowerBound UpperBound (fv id) else Value S F.
Proof. unfold slider_step. destruct (shown F); [| reflexivity]. cbn. apply fn_lookup_insert. Qed.

Lemma step_bOverride_other shown fv S id G LowerBound UpperBound F :
  F <> G ->
  bOverride (slider_step shown fv S (id, G, LowerBound, UpperBound)) F = bOverride S F.
Proof.
  intros H. unfold slider_step. destruct (shown G); [| reflexivity].
  cbn. apply fn_lookup_insert_ne. congruence.
Qed.

Lemma step_bOverride_same shown fv S id F LowerBound UpperBound :
  bOverride (slider_step shown fv S (id, F, LowerBound, UpperBound)) F
  = if shown F then true else bOverride S F.
Proof. unfold slider_step. destruct (shown F); [| reflexivity]. cbn. apply fn_lookup_insert. Qed.

Lemma Lerp_within A B v :
  (A <= B)%Q -> (0 <= v)%Q -> (v <= 1)%Q ->
  (A <= Lerp A B v)%Q /\ (Lerp A B v <= B)%Q.
Proof.
  intros HAB H0 H1. unfold Lerp.
  assert (Hd : (0 <= B - A)%Q) by (unfold Qminus; rewrite <- Qle_minus_iff; exact HAB).
  split.
  - rewrite <- (Qplus_0_r A) at 1. apply Qplus_le_compat; [apply Qle_refl |].
    apply Qmult_le_0_compat; assumption.
  - assert (E : (B == A + 1 * (B - A))%Q) by ring. rewrite E at 2.
    apply Qplus_le_compat; [apply Qle_refl |]. apply Qmult_le_compat_r; assumption.
Qed.

Ltac layers :=
  unfold apply_sliders, sliders; cbn [fold_left];
  repeat first [ rewrite step_Value_same | rewrite step_bOverride_same
               | rewrite step_Value_other by discriminate
               | rewrite step_bOverride_other by discriminate ].

(** X16. After the controls were rebuilt, a slider of the Ansel UI drives
    exactly its own member of the settings: with the slider at position [v]
    the next update hands back [LowerBound + v * (UpperBound - LowerBound)]
    for that member, with its override bit set, which lies within the range
    the slider was declared with when [v] lies between 0 and 1; every other
    member, and every member whose slider is not shown, is handed back as if
    the slider had not moved. *)
Theorem slider_moves_one_setting PP PP' s id v :
  let s1 := snd (DoCustomUIControls PP true s) in
  let before := fst (DoCustomUIControls PP' false s1) in
  let after := fst (DoCustomUIControls PP' false (slider_callback id v s1)) in
  let shown := slider_shown (bEffectUIAllowed (fst s)) PP in
  (forall F LowerBound UpperBound,
     In (id, F, LowerBound, UpperBound) sliders -> shown F = true ->
     Value after F = Lerp LowerBound UpperBound v /\
     bOverride after F = true /\
     ((0 <= v)%Q -> (v <= 1)%Q ->
      (LowerBound <= Value after F)%Q /\ (Value after F <= UpperBound)%Q)) /\
  (forall F,
     (forall LowerBound UpperBound,
        In (id, F, LowerBound, UpperBound) sliders -> shown F = false) ->
     Value after F = Value before F /\ bOverride after F = bOverride before F).
Proof.
  cbv zeta.
  assert (Ea : fst (DoCustomUIControls PP' false
                      (slider_callback id v (snd (DoCustomUIControls PP true s)))) =
               apply_sliders (slider_shown (bEffectUIAllowed (fst s)) PP)
                 (<[id := v]> (float_val (fst (snd (DoCustomUIControls PP true s))))) PP).
  { apply (settings_after_rebuild PP PP' s). }
  assert (Eb : fst (DoCustomUIControls PP' false (snd (DoCustomUIControls PP true s))) =
               apply_sliders (slider_shown (bEffectUIAllowed (fst s)) PP)
                 (float_val (fst (snd (DoCustomUIControls PP true s)))) PP).
  { rewrite <- (settings_after_rebuild PP PP' s). cbv zeta.
    rewrite set_float_val_same. reflexivity. }
  rewrite Ea, Eb. clear Ea Eb.
  forget (float_val (fst (snd (DoCustomUIControls PP true s)))) fv0.
  forget (slider_shown (bEffectUIAllowed (fst s)) PP) shown.
  split.
  - intros F lo hi Hin Hs. unfold sliders in Hin. cbn [In] in Hin.
    assert (Hv : Value (apply_sliders shown (<[id := v]> fv0) PP) F = Lerp lo hi v /\
                 bOverride (apply_sliders shown (<[id := v]> fv0) PP) F = true).
    { repeat (destruct Hin as [Hin | Hin]; [injection Hin as <- <- <- <- |]);
        [.. | destruct Hin];
        layers; rewrite Hs, fn_lookup_insert; split; reflexivity. }
    destruct Hv as [Hv Ho]. split; [exact Hv |]. split; [exact Ho |].
    intros H0 H1. rewrite Hv. apply Lerp_within; [| exact H0 | exact H1].
    repeat (destruct Hin as [Hin | Hin]; [injection Hin as <- <- <- <- |]);
      [.. | destruct Hin]; discriminate.
  - intros F Hn.
    assert (Hid : forall id' lo hi, In (id', F, lo, hi) sliders -> shown F = true ->
                    (<[id := v]> fv0) id' = fv0 id').
    { intros id' lo hi Hin Hs. apply fn_lookup_insert_ne. intros <-.
      rewrite (Hn lo hi Hin) in Hs. discriminate. }
    destruct F; layers; try (split; reflexivity);
      destruct (shown _) eqn:Hs; try (split; reflexivity);
      (erewrite Hid; [split; reflexivity | unfold sliders; cbn [In]; tauto | reflexivity]).
Qed.

Lemma slider_moves_one_setting_witness :
  Value (fst (DoCustomUIControls zero_settings false
                (slider_callback control_bloomintensity (1 # 2)
                   (snd (DoCustomUIControls
                           (set_Value BloomIntensity 2 zero_settings) true
                           sample_started)))))
        BloomIntensity
  = Lerp 0 8 (1 # 2).
Proof.
  destruct (slider_moves_one_setting (set_Value BloomIntensity 2 zero_settings)
              zero_settings sample_started control_bloomintensity (1 # 2)) as (H & _).
  destruct (H BloomIntensity 0%Q 8%Q
              ltac:(unfold sliders; cbn [In]; tauto) ltac:(vm_compute; reflexivity))
    as (Hv & _).
  exact Hv.
Defined.
